(** * Weather-Wizard: the cache, the weather client, the rule engine and the
    HTTP handlers, embedded from the Python sources.

    Conventions of the embedding.
    - Python numbers that come out of JSON (temperatures, humidity, wind,
      severities, thresholds) are rationals [Q]; arithmetic and comparison are
      exact.  The program computes in binary64: a sum, a product or a
      quotient of the program is the rounding of the exact one here.
    - A naive [datetime] is its number of microseconds since midnight of day 0;
      [time.time()] is the same clock read in seconds.  [strptime] is a
      function of the runtime on every string: the embedding covers the
      forecasts whose [dt_txt] values parse.  On another the program raises a
      [ValueError] where it parses; what is stated of a returned value holds
      of the runs that return.
    - Python strings are [string]; [in], [lower], [replace] and [split] are
      written out below.
    - Upstream JSON payloads are records.  Fields the code reads with [.get] or
      tests with [in] are options; the other fields are there by type.
    - The body of a POST request is a JSON value of any shape, or the error
      [request.json] raises when there is none.  The services are typed as
      their docstrings say: the city is a string, the preferences are numbers.
    - The shared cache object, the log and the calls that leave the process are
      threaded through a state-and-exception monad. *)

From Stdlib Require Import ZArith QArith Qminmax Lia Lqa Ascii String.
From stdpp Require Import base option list gmap strings sorting.

Local Open Scope Z_scope.

Set Warnings "-register-all".

(** ** Python strings *)

Module Str.

(** [lower]: ASCII upper-case letters are mapped to lower case. *)
Definition lower_char (c : ascii) : ascii :=
  let n := nat_of_ascii c in
  if (Nat.leb 65 n && Nat.leb n 90)%bool then ascii_of_nat (n + 32) else c.

Fixpoint lower (s : string) : string :=
  match s with
  | EmptyString => EmptyString
  | String c s' => String (lower_char c) (lower s')
  end.

(** [sub in s] *)
Fixpoint contains (sub s : string) : bool :=
  (String.prefix sub s ||
   match s with
   | EmptyString => false
   | String _ s' => contains sub s'
   end)%bool.

(** [s.replace(old, new)]: the occurrences of [old] are found left to right
    and do not overlap.  [skip] counts the characters of a matched
    occurrence that are still to be dropped. *)
Fixpoint replace_from (old new : string) (skip : nat) (s : string) : string :=
  match s with
  | EmptyString => EmptyString
  | String c s' =>
      match skip with
      | S k => replace_from old new k s'
      | O =>
          if String.prefix old s
          then new +:+ replace_from old new (String.length old - 1) s'
          else String c (replace_from old new 0 s')
      end
  end.

(** With an empty [old] Python puts [new] before every character and at the
    end. *)
Fixpoint intersperse_all (new s : string) : string :=
  match s with
  | EmptyString => new
  | String c s' => new +:+ String c (intersperse_all new s')
  end.

Definition replace (old new s : string) : string :=
  match old with
  | EmptyString => intersperse_all new s
  | String _ _ => replace_from old new 0 s
  end.

(** The character [c] occurs in [s]. *)
Fixpoint has_char (c : ascii) (s : string) : bool :=
  match s with
  | EmptyString => false
  | String x s' => (Ascii.eqb c x || has_char c s')%bool
  end.

(** [s.split(" ")]: the pieces between single spaces. *)
Fixpoint split_space (s : string) : list string :=
  match s with
  | EmptyString => [EmptyString]
  | String c s' =>
      if Ascii.eqb c " "%char then EmptyString :: split_space s'
      else match split_space s' with
           | [] => [String c EmptyString]
           | piece :: rest => String c piece :: rest
           end
  end.

End Str.

(** ** Python numbers *)

Module Num.

Definition lt (a b : Q) : bool := negb (Qle_bool b a).
Definition gt (a b : Q) : bool := negb (Qle_bool a b).
Definition le (a b : Q) : bool := Qle_bool a b.
Definition ge (a b : Q) : bool := Qle_bool b a.
Definition is_zero (a : Q) : bool := Qeq_bool a 0.

End Num.

(** ** Dates and times *)

Definition datetime := Z.

Definition dt_hour (d : datetime) : Z := (d / 3600000000) mod 24.

Definition dt_date (d : datetime) : Z := d / 86400000000.

(** [(a - b).total_seconds()] *)
Definition total_seconds (a b : datetime) : Q := Qmake (a - b) 1000000.

(** ** Upstream payloads *)

Record weather_entry := {
  w_main : string;
  w_description : string;
  w_icon : string }.

Record main_block := {
  temp : Q;
  feels_like : Q;
  humidity : Q;
  pressure : Q }.

Record wind_block := {
  speed : Q;
  deg : Q }.

(** The current-weather payload: [wind] and its fields are read with [.get]
    by the alert pipeline, so they are optional here. *)
Record current_wind := {
  cw_speed : option Q;
  cw_deg : option Q }.

Record api_alert := {
  event : option string;
  description : option string }.

Record current_json := {
  cur_name : string;
  cur_country : string;
  cur_main : main_block;
  cur_wind : option current_wind;
  cur_weather : weather_entry;
  cur_dt : Q;
  cur_alerts : option (list api_alert) }.

Record city_info := {
  city_id : Q;
  city_name : string;
  city_country : string;
  city_timezone : Q }.

(** One 3-hour interval.  [fi_rain] is [None] when the item has no ["rain"]
    key, [Some None] when the block has no ["3h"] entry. *)
Record forecast_item := {
  fi_dt : Q;
  fi_dt_txt : string;
  fi_main : main_block;
  fi_wind : wind_block;
  fi_weather : weather_entry;
  fi_rain : option (option Q) }.

Record forecast_json := {
  fc_city : city_info;
  fc_list : list forecast_item }.

(** The enhanced forecast: every item carries its confidence score;
    [ai_enhanced] is set inside the loop, so only for a non-empty list. *)
Record enhanced_item := {
  e_item : forecast_item;
  ai_confidence : Q }.

Record enhanced_json := {
  e_city : city_info;
  e_list : list enhanced_item;
  ai_enhanced : bool }.

(** ** Normalised records of the weather client *)

Record formatted_current := {
  f_city : string;
  f_country : string;
  f_temperature : Q;
  f_feels_like : Q;
  f_humidity : Q;
  f_pressure : Q;
  f_wind_speed : Q;
  f_wind_direction : Q;
  f_weather_main : string;
  f_weather_description : string;
  f_weather_icon : string;
  f_timestamp : Q }.

Record forecast_entry := {
  d_time : string;
  d_timestamp : Q;
  d_temperature : Q;
  d_feels_like : Q;
  d_humidity : Q;
  d_pressure : Q;
  d_wind_speed : Q;
  d_wind_direction : Q;
  d_weather_main : string;
  d_weather_description : string;
  d_weather_icon : string }.

Record formatted_forecast := {
  ff_city : city_info;
  ff_days : list (string * list forecast_entry) }.

(** ** Python values held by the cache *)

Inductive pyval :=
| PyNone
| PyBool (b : bool)
| PyNum (q : Q)
| PyStr (s : string)
| PyList (l : list pyval)
| PyDict (d : list (string * pyval))
| PyCurrent (c : formatted_current)
| PyForecast (f : formatted_forecast)
| PyEnhanced (e : enhanced_json).

(** [bool(v)]: the three payloads are dicts with at least one key. *)
Definition truthy (v : pyval) : bool :=
  match v with
  | PyNone => false
  | PyBool b => b
  | PyNum q => negb (Num.is_zero q)
  | PyStr s => negb (String.eqb s EmptyString)
  | PyList l => match l with [] => false | _ => true end
  | PyDict d => match d with [] => false | _ => true end
  | PyCurrent _ | PyForecast _ | PyEnhanced _ => true
  end.

(** ** JSON values of a request body *)

(** An object is the list of the items of the parsed dict. *)
Inductive json_value :=
| JNull
| JBool (b : bool)
| JInt (n : Z)
| JFloat (x : Q)
| JString (s : string)
| JArray (items : list json_value)
| JObject (fields : list (string * json_value)).

(** ** Alerts, preferences and recommendations *)

Record alert := {
  a_type : string;
  a_time : string;
  a_message : string;
  severity : Q }.

Record preferences := {
  rain_sensitivity : option Q;
  temp_sensitivity : option Q;
  wind_sensitivity : option Q;
  alert_threshold : option Q }.

(** [d.get(key, default)] *)
Definition get_default {A} (o : option A) (default : A) : A :=
  match o with Some a => a | None => default end.

Record slot := {
  s_time : string;
  top : string;
  bottom : string;
  accessories : list string;
  umbrella : bool }.

Record recommendations := {
  r_current : slot;
  r_explanation : string;
  r_morning : option slot;
  r_evening : option slot }.

(** ** Exceptions, log records and the world *)

Inductive exn :=
| RequestException (msg : string) (response_text : option string)
| Exception (msg : string).

(** [str(e)] *)
Definition str_exn (e : exn) : string :=
  match e with
  | RequestException msg _ => msg
  | Exception msg => msg
  end.

Inductive result (A : Type) :=
| Return (a : A)
| Raise (e : exn).

Arguments Return {A} a.
Arguments Raise {A} e.

Inductive level := DEBUG | INFO | WARNING | ERROR.

Inductive endpoint := Weather | Forecast.

Inductive effect :=
| Logged (lvl : level) (msg : string)
| Requested (ep : endpoint) (city : string)
| CacheRead (key : string)
| CacheWrite (key : string)
| CacheEvict (key : string).

(** The process state: the shared cache object with its expiry, the model
    table of the AI service, everything done so far in order, and the number
    of clock readings and upstream calls made so far. *)
Record world := {
  w_cache : gmap string (pyval * Q);
  w_expiry : Q;
  w_models : gset string;
  w_trace : list effect;
  w_tick : nat }.

(** What the interpreter and the network supply: the clock in microseconds,
    the two upstream endpoints (by call number, key and city), [strptime]
    with the fixed format, number formatting, [traceback.format_exc] and the
    error raised by subscripting a value that has no ["list"] entry.

    The last two fields stand for what the program does with a request body
    whose city is not a string or whose preferences are not numbers, which
    the typed services below do not cover: [str(city)] for such a city, and
    the run of [get_personalized_alerts] on such arguments. *)
Record runtime := {
  clock : nat -> Z;
  weather_api : nat -> string -> string -> result current_json;
  forecast_api : nat -> string -> string -> result forecast_json;
  strptime : string -> datetime;
  format_num : Q -> string;
  format_exc : exn -> string;
  subscript_error : pyval -> exn;
  format_value : json_value -> string;
  untyped_alerts : json_value -> json_value -> world -> result (list alert) * world }.

Definition M (A : Type) : Type := world -> result A * world.

Definition ret {A} (a : A) : M A := fun w => (Return a, w).

Definition raise {A} (e : exn) : M A := fun w => (Raise e, w).

Definition bind {A B} (m : M A) (k : A -> M B) : M B :=
  fun w =>
    match m w with
    | (Return a, w') => k a w'
    | (Raise e, w') => (Raise e, w')
    end.

(** [try: m except Exception as e: h e] *)
Definition try_except {A} (m : M A) (h : exn -> M A) : M A :=
  fun w =>
    match m w with
    | (Return a, w') => (Return a, w')
    | (Raise e, w') => h e w'
    end.

Declare Scope py_scope.
Delimit Scope py_scope with py.
Notation "x <- m ;; k" := (bind m (fun x => k))
  (at level 100, m at next level, k at level 200, right associativity) : py_scope.
Notation "m ;; k" := (bind m (fun _ => k))
  (at level 100, k at level 200, right associativity) : py_scope.
Local Open Scope py_scope.

Definition record (ev : effect) : M unit :=
  fun w =>
    (Return tt,
     {| w_cache := w_cache w; w_expiry := w_expiry w; w_models := w_models w;
        w_trace := w_trace w ++ [ev]; w_tick := w_tick w |}).

Definition logger (lvl : level) (msg : string) : M unit := record (Logged lvl msg).

Definition next_tick : M nat :=
  fun w =>
    (Return (w_tick w),
     {| w_cache := w_cache w; w_expiry := w_expiry w; w_models := w_models w;
        w_trace := w_trace w; w_tick := S (w_tick w) |}).

Definition read_cache : M (gmap string (pyval * Q)) := fun w => (Return (w_cache w), w).

Definition read_expiry : M Q := fun w => (Return (w_expiry w), w).

Definition write_cache (c : gmap string (pyval * Q)) : M unit :=
  fun w =>
    (Return tt,
     {| w_cache := c; w_expiry := w_expiry w; w_models := w_models w;
        w_trace := w_trace w; w_tick := w_tick w |}).

Definition add_model (city : string) : M unit :=
  fun w =>
    (Return tt,
     {| w_cache := w_cache w; w_expiry := w_expiry w;
        w_models := {[city]} ∪ w_models w;
        w_trace := w_trace w; w_tick := w_tick w |}).

(** A Python [for] loop over a list whose body may raise. *)
Fixpoint for_each {A B} (f : A -> M B) (l : list A) : M (list B) :=
  match l with
  | [] => ret []
  | x :: l' => y <- f x ;; ys <- for_each f l' ;; ret (y :: ys)
  end.

(** ** cache_service.py *)

Module CacheService.

Section Methods.

Variable R : runtime.

(** What [time.time()] returns at reading number [t]. *)
Definition seconds_at (t : nat) : Q := Qmake (clock R t) 1000000.

(** [time.time()] *)
Definition time_time : M Q :=
  t <- next_tick ;; ret (seconds_at t).

Definition get (key : string) : M pyval :=
  record (CacheRead key) ;;
  cache <- read_cache ;;
  match cache !! key with
  | Some (value, timestamp) =>
      now <- time_time ;;
      expiry <- read_expiry ;;
      if Num.lt (now - timestamp) expiry then
        logger DEBUG ("Cache hit for key: " +:+ key) ;;
        ret value
      else
        logger DEBUG ("Cache entry expired for key: " +:+ key) ;;
        write_cache (delete key cache) ;;
        record (CacheEvict key) ;;
        logger DEBUG ("Cache miss for key: " +:+ key) ;;
        ret PyNone
  | None =>
      logger DEBUG ("Cache miss for key: " +:+ key) ;;
      ret PyNone
  end.

Definition set (key : string) (value : pyval) : M unit :=
  logger DEBUG ("Setting cache for key: " +:+ key) ;;
  now <- time_time ;;
  cache <- read_cache ;;
  write_cache (<[key := (value, now)]> cache) ;;
  record (CacheWrite key).

Definition delete (key : string) : M bool :=
  cache <- read_cache ;;
  match cache !! key with
  | Some _ =>
      logger DEBUG ("Deleting cache for key: " +:+ key) ;;
      write_cache (base.delete key cache) ;;
      record (CacheEvict key) ;;
      ret true
  | None =>
      logger DEBUG ("Attempted to delete non-existent cache key: " +:+ key) ;;
      ret false
  end.

Definition clear : M unit :=
  logger INFO "Clearing all cache entries" ;;
  write_cache ∅.

(** The first loop of [cleanup]: one clock reading per entry; the key is
    kept for deletion when the entry's age has reached the expiry time. *)
Definition expired_key (expiry : Q) (entry : string * (pyval * Q)) : M (list string) :=
  now <- time_time ;;
  ret (if Num.ge (now - snd (snd entry)) expiry then [fst entry] else []).

(** [cleanup]: the entries are visited in the order of the map, not in the
    order of insertion of the Python dict. *)
Definition cleanup : M unit :=
  cache <- read_cache ;;
  expiry <- read_expiry ;;
  found <- for_each (expired_key expiry) (map_to_list cache) ;;
  let keys_to_delete := concat found in
  write_cache (foldr base.delete cache keys_to_delete) ;;
  for_each (fun key => record (CacheEvict key)) keys_to_delete ;;
  logger INFO ("Cache cleanup: removed "
               +:+ format_num R (inject_Z (Z.of_nat (length keys_to_delete)))
               +:+ " expired entries").

End Methods.

End CacheService.

(** ** The upstream calls: [requests.get], [raise_for_status] and [json] *)

Module Requests.

Section Calls.

Variable R : runtime.
Variable api_key : string.

Definition lift {A} (r : result A) : M A :=
  match r with
  | Return a => ret a
  | Raise e => raise e
  end.

Definition get_weather (city : string) : M current_json :=
  record (Requested Weather city) ;;
  t <- next_tick ;;
  lift (weather_api R t api_key city).

Definition get_forecast (city : string) : M forecast_json :=
  record (Requested Forecast city) ;;
  t <- next_tick ;;
  lift (forecast_api R t api_key city).

End Calls.

End Requests.

(** ** weather_service.py *)

Module WeatherService.

Section Methods.

Variable R : runtime.
Variable api_key : string.

(** The replacement both handlers apply to [str(e)] and to the response
    text. *)
Definition redact (text : string) : string :=
  if Str.contains api_key text
  then Str.replace api_key "[REDACTED]" text
  else text.

(** [except requests.exceptions.RequestException as e]: other exceptions
    pass through. *)
Definition on_request_failure {A} (what : string) (e : exn) : M A :=
  match e with
  | RequestException msg response =>
      let error_message := redact msg in
      logger ERROR ("Error fetching " +:+ what +:+ ": " +:+ error_message) ;;
      match response with
      | Some response_text =>
          logger ERROR ("Response content: " +:+ redact response_text)
      | None => ret tt
      end ;;
      raise (Exception ("Failed to fetch " +:+ what +:+ ": " +:+ error_message))
  | Exception _ => raise e
  end.

(** [data["wind"]["speed"]] and [data["wind"]["deg"]] *)
Definition wind_of (data : current_json) : M (Q * Q) :=
  match cur_wind data with
  | None => raise (Exception "'wind'")
  | Some w =>
      match cw_speed w with
      | None => raise (Exception "'speed'")
      | Some s =>
          match cw_deg w with
          | None => raise (Exception "'deg'")
          | Some d => ret (s, d)
          end
      end
  end.

Definition get_current_weather (city : string) : M pyval :=
  let cache_key := "current_weather_" +:+ city in
  cached_data <- CacheService.get R cache_key ;;
  if truthy cached_data then
    logger INFO ("Using cached current weather data for " +:+ city) ;;
    ret cached_data
  else
    logger INFO ("Fetching current weather data for " +:+ city +:+ " from API") ;;
    try_except
      (data <- Requests.get_weather R api_key city ;;
       wind <- wind_of data ;;
       let formatted_data :=
         {| f_city := cur_name data;
            f_country := cur_country data;
            f_temperature := temp (cur_main data);
            f_feels_like := feels_like (cur_main data);
            f_humidity := humidity (cur_main data);
            f_pressure := pressure (cur_main data);
            f_wind_speed := fst wind;
            f_wind_direction := snd wind;
            f_weather_main := w_main (cur_weather data);
            f_weather_description := w_description (cur_weather data);
            f_weather_icon := w_icon (cur_weather data);
            f_timestamp := cur_dt data |} in
       CacheService.set R cache_key (PyCurrent formatted_data) ;;
       ret (PyCurrent formatted_data))
      (on_request_failure "current weather data").

(** [days[date].append(forecast_item)], creating the day on first use; the
    dict keeps insertion order. *)
Fixpoint days_append (date : string) (entry : forecast_entry)
    (days : list (string * list forecast_entry)) : list (string * list forecast_entry) :=
  match days with
  | [] => [(date, [entry])]
  | (d, entries) :: rest =>
      if String.eqb d date then (d, entries ++ [entry]) :: rest
      else (d, entries) :: days_append date entry rest
  end.

Fixpoint organize_by_day (items : list forecast_item)
    (days : list (string * list forecast_entry)) : M (list (string * list forecast_entry)) :=
  match items with
  | [] => ret days
  | item :: rest =>
      match Str.split_space (fi_dt_txt item) with
      | date :: time :: _ =>
          organize_by_day rest
            (days_append date
               {| d_time := time;
                  d_timestamp := fi_dt item;
                  d_temperature := temp (fi_main item);
                  d_feels_like := feels_like (fi_main item);
                  d_humidity := humidity (fi_main item);
                  d_pressure := pressure (fi_main item);
                  d_wind_speed := speed (fi_wind item);
                  d_wind_direction := deg (fi_wind item);
                  d_weather_main := w_main (fi_weather item);
                  d_weather_description := w_description (fi_weather item);
                  d_weather_icon := w_icon (fi_weather item) |}
               days)
      | _ => raise (Exception "list index out of range")
      end
  end.

Definition get_forecast (city : string) : M pyval :=
  let cache_key := "forecast_" +:+ city in
  cached_data <- CacheService.get R cache_key ;;
  if truthy cached_data then
    logger INFO ("Using cached forecast data for " +:+ city) ;;
    ret cached_data
  else
    logger INFO ("Fetching forecast data for " +:+ city +:+ " from API") ;;
    try_except
      (data <- Requests.get_forecast R api_key city ;;
       days <- organize_by_day (fc_list data) [] ;;
       let formatted_data := {| ff_city := fc_city data; ff_days := days |} in
       CacheService.set R cache_key (PyForecast formatted_data) ;;
       ret (PyForecast formatted_data))
      (on_request_failure "forecast data").

End Methods.

End WeatherService.

(** ** ai_weather_service.py *)

Module AIWeatherService.

Section Methods.

Variable R : runtime.
Variable api_key : string.

Local Open Scope Q_scope.

(** [datetime.now()] *)
Definition datetime_now : M datetime :=
  t <- next_tick ;; ret (clock R t).

(** [alerts.append(a)] under a condition. *)
Definition append_when (condition : bool) (a : alert) (alerts : list alert) : list alert :=
  if condition then alerts ++ [a] else alerts.

(** [any(term in weather_condition or term in weather_description for term in terms)] *)
Definition any_term (terms : list string) (weather_condition weather_description : string) : bool :=
  existsb (fun term => Str.contains term weather_condition || Str.contains term weather_description) terms.

Definition _check_severe_weather_conditions (alerts : list alert)
    (weather_condition weather_description : string) (temp wind humidity : Q)
    (user_preferences : preferences) (time : string) : list alert :=
  let alerts :=
    append_when
      (any_term ["thunderstorm"; "storm"; "thunder"] weather_condition weather_description)
      {| a_type := "severe_storm"; a_time := time;
         a_message := "SEVERE WEATHER ALERT: Thunderstorm expected at " +:+ time
                      +:+ ". Take shelter and stay indoors.";
         severity := 1.0 |} alerts in
  let alerts :=
    append_when
      ((Str.contains "heavy" weather_description
        && (Str.contains "rain" weather_condition || Str.contains "rain" weather_description))
       || Str.contains "torrential" weather_description)
      {| a_type := "heavy_rain"; a_time := time;
         a_message := "SEVERE WEATHER ALERT: Heavy rainfall expected at " +:+ time
                      +:+ ". Flooding possible, avoid travel if possible.";
         severity := 0.9 |} alerts in
  let alerts :=
    append_when
      (Num.gt temp 35 && Num.gt humidity 60)
      {| a_type := "heatwave"; a_time := time;
         a_message := "SEVERE WEATHER ALERT: Extreme heat conditions at " +:+ time
                      +:+ ". Temperature " +:+ format_num R temp
                      +:+ "°C with high humidity " +:+ format_num R humidity
                      +:+ "%. Stay hydrated and avoid outdoor activities.";
         severity := 0.95 |} alerts in
  let alerts :=
    append_when
      (((Str.contains "snow" weather_condition || Str.contains "snow" weather_description)
        && (Str.contains "heavy" weather_description || Num.gt wind 10))
       || Str.contains "blizzard" weather_description)
      {| a_type := "winter_storm"; a_time := time;
         a_message := "SEVERE WEATHER ALERT: Severe winter conditions at " +:+ time
                      +:+ ". Heavy snow and limited visibility. Avoid unnecessary travel.";
         severity := 0.95 |} alerts in
  let alerts :=
    append_when
      (any_term ["hurricane"; "typhoon"; "cyclone"] weather_condition weather_description)
      {| a_type := "hurricane"; a_time := time;
         a_message := "EMERGENCY WEATHER ALERT: Hurricane/cyclone conditions at " +:+ time
                      +:+ ". Seek immediate shelter and follow evacuation orders.";
         severity := 1.0 |} alerts in
  let alerts :=
    append_when
      (Str.contains "tornado" weather_description)
      {| a_type := "tornado"; a_time := time;
         a_message := "EMERGENCY WEATHER ALERT: Tornado conditions at " +:+ time
                      +:+ ". Seek shelter immediately in a basement or interior room.";
         severity := 1.0 |} alerts in
  append_when
    (Num.lt temp (-15))
    {| a_type := "extreme_cold"; a_time := time;
       a_message := "SEVERE WEATHER ALERT: Extreme cold conditions at " +:+ time
                    +:+ ". Temperature " +:+ format_num R temp
                    +:+ "°C. Risk of frostbite and hypothermia.";
       severity := 0.9 |} alerts.

(** The warnings the provider sends along with the current weather. *)
Definition provider_alert (a : api_alert) : alert :=
  {| a_type := "severe_alert"; a_time := "now";
     a_message := "WEATHER ALERT: " +:+ get_default (event a) "Severe weather"
                  +:+ ". " +:+ get_default (description a) EmptyString;
     severity := 1.0 |}.

(** The body of the loop over [forecast['list'][:16]]. *)
Definition interval_alerts (user_preferences : preferences)
    (alerts : list alert) (day : enhanced_item) : list alert :=
  let rain_sensitivity := get_default (rain_sensitivity user_preferences) 0.5 in
  let temp_sensitivity := get_default (temp_sensitivity user_preferences) 0.5 in
  let wind_sensitivity := get_default (wind_sensitivity user_preferences) 0.5 in
  let day := e_item day in
  let time := fi_dt_txt day in
  let forecast_weather := Str.lower (w_main (fi_weather day)) in
  let forecast_description := Str.lower (w_description (fi_weather day)) in
  let forecast_temp := temp (fi_main day) in
  let forecast_wind := speed (fi_wind day) in
  let forecast_humidity := humidity (fi_main day) in
  let alerts :=
    _check_severe_weather_conditions alerts forecast_weather forecast_description
      forecast_temp forecast_wind forecast_humidity user_preferences time in
  let alerts :=
    match fi_rain day with
    | Some rain =>
        if Num.gt rain_sensitivity 0.3 then
          let rain_volume := get_default rain 0 in
          append_when (Num.gt rain_volume (1.0 * rain_sensitivity))
            {| a_type := "rain"; a_time := time;
               a_message := "Expected rainfall of " +:+ format_num R rain_volume
                            +:+ "mm at " +:+ time;
               severity := Qmin (rain_volume / 10) 1.0 |} alerts
        else alerts
    | None => alerts
    end in
  let alerts :=
    if Num.gt temp_sensitivity 0.3 then
      let temp' := temp (fi_main day) in
      let feels_like' := feels_like (fi_main day) in
      if Num.gt temp' (30 * temp_sensitivity) then
        alerts ++
        [{| a_type := "high_temp"; a_time := time;
            a_message := "High temperature of " +:+ format_num R temp'
                         +:+ "°C (feels like " +:+ format_num R feels_like'
                         +:+ "°C) at " +:+ time;
            severity := Qmin ((temp' - 25) / 15) 1.0 |}]
      else if Num.lt temp' (5 * temp_sensitivity) then
        alerts ++
        [{| a_type := "low_temp"; a_time := time;
            a_message := "Low temperature of " +:+ format_num R temp'
                         +:+ "°C (feels like " +:+ format_num R feels_like'
                         +:+ "°C) at " +:+ time;
            severity := Qmin ((5 - temp') / 10) 1.0 |}]
      else alerts
    else alerts in
  if Num.gt wind_sensitivity 0.3 then
    let wind_speed := speed (fi_wind day) in
    append_when (Num.gt wind_speed (10.0 * wind_sensitivity))
      {| a_type := "wind"; a_time := time;
         a_message := "Strong winds of " +:+ format_num R wind_speed
                      +:+ " m/s at " +:+ time;
         severity := Qmin (wind_speed / 20) 1.0 |} alerts
  else alerts.

(** Everything appended to [alerts] before the final filter and sort. *)
Definition generated_alerts (user_preferences : preferences)
    (current_data : current_json) (forecast_list : list enhanced_item) : list alert :=
  let weather_condition := Str.lower (w_main (cur_weather current_data)) in
  let weather_description := Str.lower (w_description (cur_weather current_data)) in
  let current_temp := temp (cur_main current_data) in
  let current_wind :=
    get_default (match cur_wind current_data with
                 | Some w => cw_speed w
                 | None => None
                 end) 0 in
  let current_humidity := humidity (cur_main current_data) in
  let alerts :=
    _check_severe_weather_conditions [] weather_condition weather_description
      current_temp current_wind current_humidity user_preferences "now" in
  let alerts :=
    match cur_alerts current_data with
    | Some provided => alerts ++ map provider_alert provided
    | None => alerts
    end in
  fold_left (interval_alerts user_preferences) (take 16 forecast_list) alerts.

(** [alerts.sort(key=lambda x: x['severity'], reverse=True)]: a stable sort,
    largest severity first. *)
Fixpoint insert_by_severity (a : alert) (sorted : list alert) : list alert :=
  match sorted with
  | [] => [a]
  | b :: rest =>
      if Num.lt (severity a) (severity b) then b :: insert_by_severity a rest
      else a :: sorted
  end.

Definition sort_by_severity (alerts : list alert) : list alert :=
  foldr insert_by_severity [] alerts.

Definition filter_and_sort (alert_threshold : Q) (alerts : list alert) : list alert :=
  sort_by_severity
    (List.filter (fun a => Num.ge (severity a) alert_threshold) alerts).

Definition temp_adjustment (hour : Z) : Q :=
  if ((10 <=? hour) && (hour <=? 16))%Z then 0.5
  else if ((22 <=? hour) || (hour <=? 4))%Z then -0.3
  else 0.

(** [max(0.95 - (forecast_time_delta * 0.005), 0.6)] *)
Definition confidence (forecast_time_delta : Q) : Q :=
  Qmax (0.95 - forecast_time_delta * 0.005) 0.6.

(** One turn of the loop of [_enhance_forecast_with_ai]. *)
Definition enhance_item (item : forecast_item) : M enhanced_item :=
  let dt := strptime R (fi_dt_txt item) in
  let hour := dt_hour dt in
  let adjustment := temp_adjustment hour in
  let main' :=
    {| temp := temp (fi_main item) + adjustment;
       feels_like := feels_like (fi_main item) + adjustment;
       humidity := humidity (fi_main item);
       pressure := pressure (fi_main item) |} in
  now <- datetime_now ;;
  let forecast_time_delta := total_seconds dt now / 3600 in
  ret {| e_item :=
           {| fi_dt := fi_dt item; fi_dt_txt := fi_dt_txt item; fi_main := main';
              fi_wind := fi_wind item; fi_weather := fi_weather item;
              fi_rain := fi_rain item |};
         ai_confidence := confidence forecast_time_delta |}.

Definition _enhance_forecast_with_ai (city : string) (forecast_data : forecast_json)
    : M enhanced_json :=
  add_model city ;;
  items <- for_each enhance_item (fc_list forecast_data) ;;
  ret {| e_city := fc_city forecast_data;
         e_list := items;
         ai_enhanced := match items with [] => false | _ => true end |}.

Definition get_enhanced_forecast (city : string) : M pyval :=
  let cache_key := "enhanced_forecast:" +:+ city in
  cached_data <- CacheService.get R cache_key ;;
  if truthy cached_data then
    logger INFO ("Returning enhanced forecast for " +:+ city +:+ " from cache") ;;
    ret cached_data
  else
    try_except
      (forecast_data <- Requests.get_forecast R api_key city ;;
       enhanced_data <- _enhance_forecast_with_ai city forecast_data ;;
       CacheService.set R cache_key (PyEnhanced enhanced_data) ;;
       ret (PyEnhanced enhanced_data))
      (fun e =>
         logger ERROR ("Error fetching enhanced forecast for " +:+ city +:+ ": " +:+ str_exn e) ;;
         raise (Exception ("Failed to fetch enhanced forecast: " +:+ str_exn e))).

(** [forecast['list']] *)
Definition forecast_list (forecast : pyval) : M (list enhanced_item) :=
  match forecast with
  | PyEnhanced e => ret (e_list e)
  | other => raise (subscript_error R other)
  end.

Definition get_personalized_alerts (city : string) (user_preferences : preferences)
    : M (list alert) :=
  try_except
    (forecast <- get_enhanced_forecast city ;;
     current_data <- Requests.get_weather R api_key city ;;
     let alert_threshold := get_default (alert_threshold user_preferences) 0.7 in
     items <- forecast_list forecast ;;
     let alerts := generated_alerts user_preferences current_data items in
     ret (filter_and_sort alert_threshold alerts))
    (fun e =>
       logger ERROR ("Error generating personalized alerts for " +:+ city +:+ ": " +:+ str_exn e) ;;
       raise (Exception ("Failed to generate personalized alerts: " +:+ str_exn e))).

Definition _recommend_top (temp : Q) (weather_condition : string) : string :=
  if Str.contains "rain" weather_condition || Str.contains "drizzle" weather_condition then
    if Num.gt temp 25 then "Light waterproof jacket with a breathable t-shirt"
    else if Num.gt temp 18 then "Waterproof raincoat with a cotton shirt"
    else if Num.gt temp 10 then "Waterproof jacket with a warm sweater underneath"
    else "Insulated waterproof coat with thermal layer"
  else if Str.contains "snow" weather_condition then
    "Insulated winter coat with thermal base layer"
  else if Str.contains "cloud" weather_condition then
    if Num.gt temp 28 then "Light cotton t-shirt or tank top"
    else if Num.gt temp 22 then "Short-sleeve cotton shirt or light blouse"
    else if Num.gt temp 15 then "Long-sleeve shirt with light cardigan or hoodie"
    else if Num.gt temp 10 then "Sweater with light jacket or fleece"
    else if Num.gt temp 5 then "Thick sweater with insulated jacket"
    else "Thermal base layer with heavy winter coat"
  else if Str.contains "clear" weather_condition then
    if Num.gt temp 30 then "Loose, light cotton t-shirt or linen shirt"
    else if Num.gt temp 25 then "Breathable cotton t-shirt or sleeveless top"
    else if Num.gt temp 20 then "Light short-sleeve shirt or polo"
    else if Num.gt temp 15 then "Long-sleeve cotton shirt or light sweater"
    else if Num.gt temp 10 then "Medium-weight sweater or pullover"
    else if Num.gt temp 5 then "Thick sweater with jacket or blazer"
    else "Thermal base layer with insulated winter coat"
  else
    if Num.gt temp 25 then "Light cotton t-shirt or short-sleeve shirt"
    else if Num.gt temp 18 then "Light long-sleeve shirt or blouse"
    else if Num.gt temp 10 then "Sweater or fleece jacket"
    else if Num.gt temp 5 then "Thick sweater with wind-resistant jacket"
    else "Multiple layers with winter coat".

Definition _recommend_bottom (temp : Q) : string :=
  if Num.gt temp 30 then "Light, breathable shorts or skirt"
  else if Num.gt temp 25 then "Cotton shorts, skirt, or light chinos"
  else if Num.gt temp 20 then "Lightweight pants, jeans, or capris"
  else if Num.gt temp 15 then "Regular jeans, chinos, or casual pants"
  else if Num.gt temp 10 then "Jeans or medium-weight pants"
  else if Num.gt temp 5 then "Thick jeans or warm trousers"
  else if Num.gt temp 0 then "Thermal-lined pants or jeans with thermals underneath"
  else "Insulated winter pants with thermal base layer".

(** [accessories.append(x)] under a condition. *)
Definition add_when (condition : bool) (x : string) (accessories : list string) : list string :=
  if condition then accessories ++ [x] else accessories.

Definition _recommend_accessories (temp : Q) (weather_condition : string) (wind_speed : Q)
    : list string :=
  let accessories := [] in
  let accessories := add_when (Num.lt temp 12) "Warm gloves or mittens" accessories in
  let accessories := add_when (Num.lt temp 8) "Thermal neck gaiter or scarf" accessories in
  let accessories :=
    if Num.lt temp 5 then accessories ++ ["Insulated beanie or winter hat"]
    else if Num.gt temp 28 then accessories ++ ["Breathable hat or cap for sun protection"]
    else accessories in
  let accessories :=
    if Str.contains "rain" weather_condition || Str.contains "drizzle" weather_condition then
      let accessories := accessories ++ ["Compact umbrella"] in
      if Num.lt temp 15 then accessories ++ ["Waterproof boots"]
      else accessories ++ ["Water-resistant footwear"]
    else accessories in
  let accessories :=
    if Str.contains "snow" weather_condition then
      accessories ++ ["Insulated waterproof boots"] ++ ["Thermal socks"]
    else accessories in
  let accessories :=
    if (Str.contains "clear" weather_condition || Str.contains "sun" weather_condition)
       && Num.gt temp 20 then
      let accessories := accessories ++ ["UV-protective sunglasses"] in
      let accessories := accessories ++ ["SPF 30+ sunscreen"] in
      add_when (Num.gt temp 28) "Water bottle to stay hydrated" accessories
    else accessories in
  if Num.gt wind_speed 8 then
    let accessories := add_when (Num.lt temp 15) "Wind-resistant face protection" accessories in
    if Num.lt temp 10 then accessories ++ ["Windproof gloves"]
    else accessories ++ ["Windbreaker or wind-resistant layer"]
  else accessories.

Definition _generate_recommendation_explanation (temp : Q) (weather_condition : string)
    (humidity wind_speed : Q) : string :=
  let explanation := EmptyString in
  let explanation :=
    if Str.contains "rain" weather_condition || Str.contains "drizzle" weather_condition then
      if Num.gt temp 20 then
        explanation +:+ "The warm rain means you'll want waterproof outer layers that are still breathable. "
      else explanation +:+ "Stay dry and warm with waterproof, insulated clothing. "
    else if Str.contains "snow" weather_condition then
      explanation +:+ "Protect against snow with waterproof, insulated layers. Focus on keeping extremities warm. "
    else if Str.contains "clear" weather_condition then
      if Num.gt temp 28 then
        explanation +:+ "It's hot and sunny! Wear lightweight, breathable fabrics and protect against UV exposure. "
      else if Num.gt temp 20 then
        explanation +:+ "Pleasant temperatures, but still protect against UV rays if you're outside for long periods. "
      else if Num.lt temp 5 then
        explanation +:+ "Clear but very cold! Layering is essential with a windproof outer layer. "
      else explanation
    else if Str.contains "cloud" weather_condition then
      if Num.gt temp 25 then
        explanation +:+ "Overcast but warm. Light clothing is still appropriate. "
      else if Num.lt temp 10 then
        explanation +:+ "Gray and cold - focus on insulation with a medium-weight outer layer. "
      else explanation
    else explanation in
  let explanation :=
    if Num.gt wind_speed 8 then
      explanation +:+ "Secure any loose items of clothing due to strong winds. "
    else explanation in
  let explanation :=
    if Num.gt humidity 80 && Num.gt temp 25 then
      explanation +:+ "High humidity will make it feel hotter than it is - dress lighter than the temperature suggests. "
    else explanation in
  if Num.lt temp 0 then
    explanation +:+ "Risk of frostbite for exposed skin - cover up completely when outdoors. "
  else explanation.

(** The recommendation for one time of day. *)
Definition slot_for (label : string) (temp : Q) (weather : string) (wind : Q) : slot :=
  {| s_time := label;
     top := _recommend_top temp weather;
     bottom := _recommend_bottom temp;
     accessories := _recommend_accessories temp weather wind;
     umbrella := Str.contains "rain" weather || Str.contains "drizzle" weather |}.

(** The loop that picks today's morning and evening items: the first item of
    the current date in each window. *)
Fixpoint find_today (current_time : datetime) (items : list forecast_item)
    (morning_data evening_data : option forecast_item)
    : option forecast_item * option forecast_item :=
  match items with
  | [] => (morning_data, evening_data)
  | item :: rest =>
      let forecast_time := strptime R (fi_dt_txt item) in
      if negb (dt_date forecast_time =? dt_date current_time)%Z then
        find_today current_time rest morning_data evening_data
      else
        let hour := dt_hour forecast_time in
        let morning_data :=
          match morning_data with
          | None => if ((8 <=? hour) && (hour <=? 10))%Z then Some item else None
          | Some _ => morning_data
          end in
        let evening_data :=
          match evening_data with
          | None => if ((18 <=? hour) && (hour <=? 20))%Z then Some item else None
          | Some _ => evening_data
          end in
        find_today current_time rest morning_data evening_data
  end.

(** [current_data['wind']['speed']] *)
Definition current_wind_speed (current_data : current_json) : M Q :=
  match cur_wind current_data with
  | None => raise (Exception "'wind'")
  | Some w =>
      match cw_speed w with
      | None => raise (Exception "'speed'")
      | Some s => ret s
      end
  end.

Definition later_slot (label : string) (data : forecast_item) : slot :=
  slot_for label (temp (fi_main data)) (Str.lower (w_main (fi_weather data)))
    (speed (fi_wind data)).

Definition get_clothing_recommendations (city : string) : M recommendations :=
  try_except
    (current_data <- Requests.get_weather R api_key city ;;
     forecast_data <- Requests.get_forecast R api_key city ;;
     let current_temp := temp (cur_main current_data) in
     let current_weather := Str.lower (w_main (cur_weather current_data)) in
     let current_humidity := humidity (cur_main current_data) in
     current_wind_speed <- current_wind_speed current_data ;;
     current_time <- datetime_now ;;
     let found := find_today current_time (fc_list forecast_data) None None in
     ret {| r_current := slot_for "Now" current_temp current_weather current_wind_speed;
            r_explanation :=
              _generate_recommendation_explanation current_temp current_weather
                current_humidity current_wind_speed;
            r_morning :=
              match fst found with
              | Some morning_data =>
                  if (dt_hour current_time <? 12)%Z
                  then Some (later_slot "Morning" morning_data) else None
              | None => None
              end;
            r_evening :=
              match snd found with
              | Some evening_data =>
                  if (dt_hour current_time <? 18)%Z
                  then Some (later_slot "Evening" evening_data) else None
              | None => None
              end |})
    (fun e =>
       logger ERROR ("Error generating clothing recommendations for " +:+ city +:+ ": " +:+ str_exn e) ;;
       raise (Exception ("Failed to generate clothing recommendations: " +:+ str_exn e))).

End Methods.

End AIWeatherService.

(** ** app.py *)

Module App.

(** A request: the query string and what [request.json] does, which is to
    return the parsed body or to raise (415 when the content type is not
    JSON, 400 when the body does not parse). *)
Record request := {
  args : list (string * string);
  json : result json_value }.

Inductive json_body :=
| JError (message : string)
| JValue (v : pyval)
| JAll (current forecast : pyval)
| JAlerts (alerts : list alert)
| JRecommendations (r : recommendations).

Record response := {
  body : json_body;
  status : Z }.

(** [request.args.get(name)] *)
Fixpoint args_get (name : string) (l : list (string * string)) : option string :=
  match l with
  | [] => None
  | (k, v) :: rest => if String.eqb k name then Some v else args_get name rest
  end.

(** [value] is a dict with the key ["error"]; the three payloads have
    other keys. *)
Definition has_error_key (value : pyval) : bool :=
  match value with
  | PyDict d => existsb (fun item => String.eqb (fst item) "error") d
  | _ => false
  end.

(** The body has the key ["error"]: the error bodies, and a value passed on
    from a service that is a dict with that key.  The other bodies have the
    keys ["current"] and ["forecast"], ["alerts"], or those of the
    recommendations. *)
Definition has_error_field (b : json_body) : bool :=
  match b with
  | JError _ => true
  | JValue v => has_error_key v
  | JAll _ _ | JAlerts _ | JRecommendations _ => false
  end.

(** [bool(data)] *)
Definition json_truthy (data : json_value) : bool :=
  match data with
  | JNull => false
  | JBool b => b
  | JInt n => negb (n =? 0)%Z
  | JFloat x => negb (Num.is_zero x)
  | JString s => negb (String.eqb s EmptyString)
  | JArray items => match items with [] => false | _ => true end
  | JObject fields => match fields with [] => false | _ => true end
  end.

(** [type(data).__name__] *)
Definition type_name (data : json_value) : string :=
  match data with
  | JNull => "NoneType"
  | JBool _ => "bool"
  | JInt _ => "int"
  | JFloat _ => "float"
  | JString _ => "str"
  | JArray _ => "list"
  | JObject _ => "dict"
  end.

(** The value of a key of a dict. *)
Fixpoint field (name : string) (fields : list (string * json_value)) : option json_value :=
  match fields with
  | [] => None
  | (k, v) :: rest => if String.eqb k name then Some v else field name rest
  end.

(** [x == 'city'] *)
Definition is_city (x : json_value) : bool :=
  match x with
  | JString s => String.eqb s "city"
  | _ => false
  end.

(** ['city' in data]: a substring of a string, an element of a list, a key
    of a dict; a [TypeError] on the other values. *)
Definition city_in (data : json_value) : result bool :=
  match data with
  | JString s => Return (Str.contains "city" s)
  | JArray items => Return (existsb is_city items)
  | JObject fields => Return (match field "city" fields with Some _ => true | None => false end)
  | other =>
      Raise (Exception ("argument of type '" +:+ type_name other +:+ "' is not iterable"))
  end.

(** [data.get(key, default)]: an [AttributeError] on a value that is not a
    dict. *)
Definition dict_get (data : json_value) (key : string) (default : json_value)
    : result json_value :=
  match data with
  | JObject fields => Return (get_default (field key fields) default)
  | other =>
      Raise (Exception ("'" +:+ type_name other +:+ "' object has no attribute 'get'"))
  end.

(** What the alerts handler reads from the body before its [try]: nothing
    when [not data or 'city' not in data], else the city and the
    preferences. *)
Definition alerts_input (data : json_value) : result (option (json_value * json_value)) :=
  if negb (json_truthy data) then Return None
  else
    match city_in data with
    | Raise e => Raise e
    | Return false => Return None
    | Return true =>
        match dict_get data "city" JNull with
        | Raise e => Raise e
        | Return city =>
            match dict_get data "preferences" (JObject []) with
            | Raise e => Raise e
            | Return user_preferences => Return (Some (city, user_preferences))
            end
        end
    end.

(** A number of the body. *)
Definition as_number (v : json_value) : option Q :=
  match v with
  | JInt n => Some (inject_Z n)
  | JFloat x => Some x
  | _ => None
  end.

(** A preference of the body: absent, or a number; [None] for another
    value. *)
Definition as_preference (name : string) (fields : list (string * json_value))
    : option (option Q) :=
  match field name fields with
  | None => Some None
  | Some v =>
      match as_number v with
      | Some q => Some (Some q)
      | None => None
      end
  end.

(** The preferences as the service's docstring types them: a dict whose four
    entries, where present, are numbers. *)
Definition as_preferences (v : json_value) : option preferences :=
  match v with
  | JObject fields =>
      match as_preference "rain_sensitivity" fields,
            as_preference "temp_sensitivity" fields,
            as_preference "wind_sensitivity" fields,
            as_preference "alert_threshold" fields with
      | Some rain, Some temp, Some wind, Some threshold =>
          Some {| rain_sensitivity := rain; temp_sensitivity := temp;
                  wind_sensitivity := wind; alert_threshold := threshold |}
      | _, _, _, _ => None
      end
  | _ => None
  end.

Definition no_preferences : preferences :=
  {| rain_sensitivity := None; temp_sensitivity := None;
     wind_sensitivity := None; alert_threshold := None |}.

Section Handlers.

Variable R : runtime.
Variable api_key : string.

(** [if not city]: the parameter is absent or empty. *)
Definition city_of (req : request) : option string :=
  match args_get "city" (args req) with
  | Some city => if String.eqb city EmptyString then None else Some city
  | None => None
  end.

Definition missing_city : M response :=
  logger WARNING "API request missing city parameter" ;;
  ret {| body := JError "City parameter is required"; status := 400 |}.

(** The [try]/[except Exception] every handler wraps around its service
    call. *)
Definition guarded (what : string) (city : string) (m : M json_body) : M response :=
  try_except
    (b <- m ;; ret {| body := b; status := 200 |})
    (fun e =>
       logger ERROR ("Error " +:+ what +:+ " for " +:+ city +:+ ": " +:+ str_exn e) ;;
       logger DEBUG (format_exc R e) ;;
       ret {| body := JError (str_exn e); status := 500 |}).

Definition get_current_weather (req : request) : M response :=
  match city_of req with
  | None => missing_city
  | Some city =>
      guarded "fetching current weather" city
        (logger INFO ("Fetching current weather for " +:+ city) ;;
         weather_data <- WeatherService.get_current_weather R api_key city ;;
         ret (JValue weather_data))
  end.

Definition get_forecast (req : request) : M response :=
  match city_of req with
  | None => missing_city
  | Some city =>
      guarded "fetching forecast" city
        (logger INFO ("Fetching 5-day forecast for " +:+ city) ;;
         forecast_data <- WeatherService.get_forecast R api_key city ;;
         ret (JValue forecast_data))
  end.

Definition get_all_weather_data (req : request) : M response :=
  match city_of req with
  | None => missing_city
  | Some city =>
      guarded "fetching weather data" city
        (logger INFO ("Fetching all weather data for " +:+ city) ;;
         current <- WeatherService.get_current_weather R api_key city ;;
         forecast <- WeatherService.get_forecast R api_key city ;;
         ret (JAll current forecast))
  end.

Definition get_enhanced_forecast (req : request) : M response :=
  match city_of req with
  | None => missing_city
  | Some city =>
      guarded "fetching AI-enhanced forecast" city
        (logger INFO ("Fetching AI-enhanced forecast for " +:+ city) ;;
         forecast_data <- AIWeatherService.get_enhanced_forecast R api_key city ;;
         ret (JValue forecast_data))
  end.

(** [str(city)] *)
Definition city_text (city : json_value) : string :=
  match city with
  | JString s => s
  | other => format_value R other
  end.

(** [ai_weather_service.get_personalized_alerts(city, user_preferences)]: the
    typed service on a city that is a string and preferences that are
    numbers. *)
Definition personalized_alerts (city user_preferences : json_value) : M (list alert) :=
  match city, as_preferences user_preferences with
  | JString name, Some p => AIWeatherService.get_personalized_alerts R api_key name p
  | _, _ => untyped_alerts R city user_preferences
  end.

(** [request.json] and the reading of the body are outside the [try]: what
    they raise leaves the handler. *)
Definition get_personalized_alerts (req : request) : M response :=
  data <- Requests.lift (json req) ;;
  input <- Requests.lift (alerts_input data) ;;
  match input with
  | None => missing_city
  | Some (city, user_preferences) =>
      guarded "generating personalized alerts" (city_text city)
        (logger INFO ("Generating personalized alerts for " +:+ city_text city) ;;
         alerts <- personalized_alerts city user_preferences ;;
         ret (JAlerts alerts))
  end.

Definition get_clothing_recommendations (req : request) : M response :=
  match city_of req with
  | None => missing_city
  | Some city =>
      guarded "generating clothing recommendations" city
        (logger INFO ("Generating clothing recommendations for " +:+ city) ;;
         recommendations <- AIWeatherService.get_clothing_recommendations R api_key city ;;
         ret (JRecommendations recommendations))
  end.

End Handlers.

End App.

(** ** Predicates used in the statements *)

(** A preference, when given, lies in [0, 1]. *)
Definition in_unit_interval (o : option Q) : Prop :=
  match o with
  | Some q => (0 <= q <= 1)%Q
  | None => True
  end.

Definition preferences_in_unit_interval (p : preferences) : Prop :=
  in_unit_interval (rain_sensitivity p)
  /\ in_unit_interval (temp_sensitivity p)
  /\ in_unit_interval (wind_sensitivity p)
  /\ in_unit_interval (alert_threshold p).

Definition at_most_one (a : alert) : Prop := (severity a <= 1)%Q.

(** Largest severity first. *)
Definition severity_ge (a b : alert) : Prop := (severity b <= severity a)%Q.

(** The slots the alert pipeline looks at: the current conditions, labelled
    ["now"], and the first 16 forecast intervals, labelled by their
    [dt_txt]. *)
Record time_slot := {
  slot_time : string;
  slot_temp : Q;
  slot_humidity : Q }.

Definition evaluated_slots (current_data : current_json) (items : list enhanced_item)
    : list time_slot :=
  {| slot_time := "now";
     slot_temp := temp (cur_main current_data);
     slot_humidity := humidity (cur_main current_data) |}
  :: map (fun day =>
            {| slot_time := fi_dt_txt (e_item day);
               slot_temp := temp (fi_main (e_item day));
               slot_humidity := humidity (fi_main (e_item day)) |})
       (take 16 items).

(** [returned] holds exactly the alerts of [generated] at or above the
    threshold, largest severity first. *)
Definition filtered_and_sorted (threshold : Q) (generated returned : list alert) : Prop :=
  Permutation returned (List.filter (fun a => Num.ge (severity a) threshold) generated)
  /\ Sorted severity_ge returned
  /\ Forall (fun a => (threshold <= severity a)%Q) returned.

(** The world after [n] more clock readings. *)
Definition after_readings (n : nat) (w : world) : world :=
  {| w_cache := w_cache w; w_expiry := w_expiry w; w_models := w_models w;
     w_trace := w_trace w; w_tick := (w_tick w + n)%nat |}.

(** [(dt - now).total_seconds() / 3600] for the item's parsed [dt_txt]. *)
Definition hours_from (R : runtime) (now : datetime) (item : forecast_item) : Q :=
  (total_seconds (strptime R (fi_dt_txt item)) now / 3600)%Q.

(** [dt.hour] for the item's parsed [dt_txt]. *)
Definition hour_of (R : runtime) (item : forecast_item) : Z :=
  dt_hour (strptime R (fi_dt_txt item)).






(** The umbrella condition of every slot. *)
Definition rainy (weather_condition : string) : bool :=
  Str.contains "rain" weather_condition || Str.contains "drizzle" weather_condition.


(** A service call went to the provider instead of answering with [v]. *)
Definition fetched_instead_of {A} (ep : endpoint) (city : string) (v : A) (w : world)
    (out : result A * world) : Prop :=
  fst out <> Return v
  /\ exists done, w_trace (snd out) = w_trace w ++ done /\ In (Requested ep city) done.

(** The text that leaves the service: the ["error"] field of the response and
    the log records at the logger's level, INFO, or above. *)
Definition emitted (ev : effect) : option string :=
  match ev with
  | Logged DEBUG _ => None
  | Logged _ msg => Some msg
  | _ => None
  end.

Definition surfaced_texts (out : result App.response * world) : list string :=
  match fst out with
  | Return resp =>
      match App.body resp with
      | App.JError msg => [msg]
      | _ => []
      end
  | Raise e => [str_exn e]
  end ++ omap emitted (w_trace (snd out)).

Definition leaks (key : string) (out : result App.response * world) : bool :=
  existsb (Str.contains key) (surfaced_texts out).

(** The words of the messages the weather client builds around an error
    text. *)
Definition message_words : list string :=
  ["Error"; "fetching"; "current"; "weather"; "data:"; "forecast";
   "Failed"; "to"; "fetch"; "Response"; "content:"].

(** A key the replacement can hide: it is not empty, its first character is
    not one of the marker's, it has no bracket and no space, and it is not
    part of a word of the messages. *)
Definition redactable (key : string) : bool :=
  match key with
  | EmptyString => false
  | String k0 _ =>
      negb (Str.has_char k0 "[REDACTED]")
      && negb (Str.has_char "["%char key)
      && negb (Str.has_char " "%char key)
      && forallb (fun word => negb (Str.contains key word)) message_words
  end.

(** ** Predicates of the further properties *)

Definition is_request (ev : effect) : bool :=
  match ev with
  | Requested _ _ => true
  | _ => false
  end.

Definition is_cache_access (ev : effect) : bool :=
  match ev with
  | CacheRead _ | CacheWrite _ | CacheEvict _ => true
  | _ => false
  end.

(** The call returned [v] and went to the provider for nothing. *)
Definition answered_without_request {A} (w : world) (out : result A * world) (v : A)
    : Prop :=
  fst out = Return v
  /\ exists done,
       w_trace (snd out) = w_trace w ++ done /\ existsb is_request done = false.

(** Every entry of the cache of [w'] was in the cache of [w], with the same
    value and time of storage. *)
Definition nothing_stored (w w' : world) : Prop :=
  forall k x, w_cache w' !! k = Some x -> w_cache w !! k = Some x.

(** A computation that stores nothing, whatever its result; one that stores
    nothing when it raises; one that never raises. *)
Definition stores_nothing {A} (m : M A) : Prop :=
  forall w, nothing_stored w (snd (m w)).

Definition stores_nothing_on_failure {A} (m : M A) : Prop :=
  forall w e, fst (m w) = Raise e -> nothing_stored w (snd (m w)).

Definition never_raises {A} (m : M A) : Prop :=
  forall w, exists a, fst (m w) = Return a.

(** The kinds of alerts: the fixed-severity ones of the severe-weather check
    and the ones of the threshold rules. *)
Definition severe_types : list string :=
  ["severe_storm"; "heavy_rain"; "heatwave"; "winter_storm"; "hurricane"; "tornado";
   "extreme_cold"].

Definition threshold_types : list string := ["rain"; "high_temp"; "low_temp"; "wind"].

(** An alert of the severe-weather check for the slot labelled [time]. *)
Definition from_severe_check (time : string) (a : alert) : Prop :=
  a_time a = time /\ In (a_type a) severe_types /\ (0.9 <= severity a <= 1)%Q.

(** An alert passed on from the provider. *)
Definition from_provider (a : alert) : Prop :=
  a_time a = "now" /\ a_type a = "severe_alert" /\ severity a = 1.0%Q.

(** An alert of a threshold rule for the interval [day]: the rule's
    sensitivity is above 0.3, the interval's value is beyond the threshold the
    sensitivity sets, and the severity is the rule's formula, products and
    quotients being the exact ones of the embedding. *)
Definition from_threshold_rule (p : preferences) (day : forecast_item) (a : alert) : Prop :=
  let rain_s := get_default (rain_sensitivity p) 0.5%Q in
  let temp_s := get_default (temp_sensitivity p) 0.5%Q in
  let wind_s := get_default (wind_sensitivity p) 0.5%Q in
  a_time a = fi_dt_txt day
  /\ ((a_type a = "rain" /\ (0.3 < rain_s)%Q
       /\ exists block,
            fi_rain day = Some block
            /\ (1.0 * rain_s < get_default block 0%Q)%Q
            /\ severity a = Qmin (get_default block 0%Q / 10) 1.0)
      \/ (a_type a = "high_temp" /\ (0.3 < temp_s)%Q
          /\ (30 * temp_s < temp (fi_main day))%Q
          /\ severity a = Qmin ((temp (fi_main day) - 25) / 15) 1.0)
      \/ (a_type a = "low_temp" /\ (0.3 < temp_s)%Q
          /\ (temp (fi_main day) < 5 * temp_s)%Q
          /\ severity a = Qmin ((5 - temp (fi_main day)) / 10) 1.0)
      \/ (a_type a = "wind" /\ (0.3 < wind_s)%Q
          /\ (10.0 * wind_s < speed (fi_wind day))%Q
          /\ severity a = Qmin (speed (fi_wind day) / 20) 1.0)).

(** The enhancement left the item as it was, the two temperatures apart. *)
Definition same_but_temperatures (item : forecast_item) (ei : enhanced_item) : Prop :=
  fi_dt (e_item ei) = fi_dt item
  /\ fi_dt_txt (e_item ei) = fi_dt_txt item
  /\ humidity (fi_main (e_item ei)) = humidity (fi_main item)
  /\ pressure (fi_main (e_item ei)) = pressure (fi_main item)
  /\ fi_wind (e_item ei) = fi_wind item
  /\ fi_weather (e_item ei) = fi_weather item
  /\ fi_rain (e_item ei) = fi_rain item.

(** An item of the date of [now] whose hour is between [lo] and [hi]. *)
Definition in_window (R : runtime) (now : datetime) (lo hi : Z) (item : forecast_item)
    : bool :=
  (dt_date (strptime R (fi_dt_txt item)) =? dt_date now)
  && (lo <=? dt_hour (strptime R (fi_dt_txt item)))
  && (dt_hour (strptime R (fi_dt_txt item)) <=? hi).

(** A computation that leaves the entry of the key [k] as it is. *)
Definition leaves_key {A} (k : string) (m : M A) : Prop :=
  forall w, w_cache (snd (m w)) !! k = w_cache w !! k.

(** No value in the cache is a dict with the key ["error"]. *)
Definition no_error_cached (w : world) : Prop :=
  forall k v ts, w_cache w !! k = Some (v, ts) -> App.has_error_key v = false.

(** A handler started in [w] answered: 400 or 500 with an ["error"] field,
    or 200, then without that field when no value in the cache of [w] has
    it. *)
Definition answers (w : world) (out : result App.response * world) : Prop :=
  exists resp,
    fst out = Return resp
    /\ ((App.status resp = 200
         /\ (no_error_cached w -> App.has_error_field (App.body resp) = false))
        \/ (App.status resp = 400 /\ App.has_error_field (App.body resp) = true)
        \/ (App.status resp = 500 /\ App.has_error_field (App.body resp) = true)).

(** A body on which the alerts handler raises before its [try]: [true], a
    number other than zero, a string or a list that has ["city"] in it. *)
Definition body_unreadable (data : json_value) : Prop :=
  match data with
  | JNull | JObject _ => False
  | JBool b => b = true
  | JInt n => n <> 0
  | JFloat x => Num.is_zero x = false
  | JString s => Str.contains "city" s = true
  | JArray items => existsb App.is_city items = true
  end.

(** The ERROR records of [w'] that [w] did not have are free of the key. *)
Definition new_errors_hide (key : string) (w w' : world) : Prop :=
  forall msg,
    In (Logged ERROR msg) (w_trace w') ->
    In (Logged ERROR msg) (w_trace w) \/ Str.contains key msg = false.

(** The grouped forecast as a flat list of (date, entry) pairs. *)
Definition entries_in (days : list (string * list forecast_entry))
    : list (string * forecast_entry) :=
  flat_map (fun day => map (pair (fst day)) (snd day)) days.

(** [pair] is the date and the normalised entry of [item]: the two pieces of
    its [dt_txt] and the fields copied from it. *)
Definition normalises (item : forecast_item) (pair : string * forecast_entry) : Prop :=
  (exists rest, Str.split_space (fi_dt_txt item) = fst pair :: d_time (snd pair) :: rest)
  /\ d_timestamp (snd pair) = fi_dt item
  /\ d_temperature (snd pair) = temp (fi_main item)
  /\ d_feels_like (snd pair) = feels_like (fi_main item)
  /\ d_humidity (snd pair) = humidity (fi_main item)
  /\ d_pressure (snd pair) = pressure (fi_main item)
  /\ d_wind_speed (snd pair) = speed (fi_wind item)
  /\ d_wind_direction (snd pair) = deg (fi_wind item)
  /\ d_weather_main (snd pair) = w_main (fi_weather item)
  /\ d_weather_description (snd pair) = w_description (fi_weather item)
  /\ d_weather_icon (snd pair) = w_icon (fi_weather item).

(** ** Sample data *)

Module Sample.

Definition api_key : string := "0123456789abcdef0123456789abcdef".

Definition digit_of (c : ascii) : Z := Z.of_nat (nat_of_ascii c) - 48.

Fixpoint number_of (s : string) (acc : Z) : Z :=
  match s with
  | EmptyString => acc
  | String c s' => number_of s' (10 * acc + digit_of c)
  end.

(** Days since 1970-01-01 of a civil date. *)
Definition days_from_civil (y m d : Z) : Z :=
  let y := if m <=? 2 then y - 1 else y in
  let era := y / 400 in
  let yoe := y - era * 400 in
  let doy := (153 * (if 2 <? m then m - 3 else m + 9) + 2) / 5 + d - 1 in
  let doe := yoe * 365 + yoe / 4 - yoe / 100 + doy in
  era * 146097 + doe - 719468.

(** [datetime.strptime(s, '%Y-%m-%d %H:%M:%S')] on a well-formed [s]. *)
Definition parse (s : string) : datetime :=
  let field (i n : nat) := number_of (String.substring i n s) 0 in
  (((days_from_civil (field 0%nat 4%nat) (field 5%nat 2%nat) (field 8%nat 2%nat) * 24
     + field 11%nat 2%nat) * 60
    + field 14%nat 2%nat) * 60
   + field 17%nat 2%nat) * 1000000.

Definition current (main description : string) (t h wind : Q) : current_json :=
  {| cur_name := "Paris"; cur_country := "FR";
     cur_main := {| temp := t; feels_like := t; humidity := h; pressure := 1013 |};
     cur_wind := Some {| cw_speed := Some wind; cw_deg := Some 180%Q |};
     cur_weather := {| w_main := main; w_description := description; w_icon := "01d" |};
     cur_dt := 1717232400;
     cur_alerts := None |}.

Definition item (dt_txt main description : string) (t h wind : Q)
    (rain : option (option Q)) : forecast_item :=
  {| fi_dt := 0; fi_dt_txt := dt_txt;
     fi_main := {| temp := t; feels_like := t; humidity := h; pressure := 1013 |};
     fi_wind := {| speed := wind; deg := 180 |};
     fi_weather := {| w_main := main; w_description := description; w_icon := "01d" |};
     fi_rain := rain |}.

Definition city : city_info :=
  {| city_id := 2988507; city_name := "Paris"; city_country := "FR";
     city_timezone := 7200 |}.

(** A runtime whose clock starts on 2024-06-01 at 09:00:00 and advances by a
    millisecond per reading, and whose provider answers as given.  The sample
    requests have a string for the city and numbers for the preferences: the
    last two fields are not reached with them. *)
Definition runtime_with (weather : string -> string -> result current_json)
    (forecast : string -> string -> result forecast_json) : runtime :=
  {| clock := fun t => parse "2024-06-01 09:00:00" + 1000 * Z.of_nat t;
     weather_api := fun _ => weather;
     forecast_api := fun _ => forecast;
     strptime := parse;
     format_num := fun _ => "#";
     format_exc := fun e => "Traceback (most recent call last): " +:+ str_exn e;
     subscript_error := fun _ => Exception "'list'";
     format_value := fun v => "<" +:+ App.type_name v +:+ ">";
     untyped_alerts := fun _ _ => raise (Exception "unsupported request body") |}.

Definition forecast : forecast_json :=
  {| fc_city := city;
     fc_list :=
       [ item "2024-06-01 12:00:00" "Clear" "clear sky" 36.5 70 3 None;
         item "2024-06-01 18:00:00" "Rain" "heavy intensity rain" 21 90 12 (Some (Some 12%Q));
         item "2024-06-01 23:00:00" "Clouds" "overcast clouds" 13 80 2 None;
         item "2024-06-04 09:00:00" "Clear" "clear sky" 20 50 2 None ] |}.

Definition sunny : runtime :=
  runtime_with (fun _ _ => Return (current "Clear" "clear sky" 32 40 3))
    (fun _ _ => Return forecast).

(** The provider rejects every call; the message quotes the URL of the
    request, as [raise_for_status] does. *)
Definition unauthorized (path key city : string) : exn :=
  RequestException
    ("401 Client Error: Unauthorized for url: "
     +:+ "https://api.openweathermap.org/data/2.5/" +:+ path +:+ "?q=" +:+ city
     +:+ "&appid=" +:+ key +:+ "&units=metric")
    None.

Definition rejecting : runtime :=
  runtime_with (fun key city => Raise (unauthorized "weather" key city))
    (fun key city => Raise (unauthorized "forecast" key city)).

Definition world0 : world :=
  {| w_cache := ∅; w_expiry := 600; w_models := ∅; w_trace := []; w_tick := 0 |}.

(** A cache that holds an empty dict for the current weather of Paris,
    stored at 08:59:00. *)
Definition world_with_empty_dict : world :=
  {| w_cache := {[ "current_weather_Paris" := (PyDict [], 1717232340%Q) ]};
     w_expiry := 600; w_models := ∅; w_trace := []; w_tick := 0 |}.

(** A cache that holds an entry stored 1400 seconds before 09:00:00. *)
Definition world_with_stale_entry : world :=
  {| w_cache := {[ "forecast_Paris" := (PyStr "old", 1717231000%Q) ]};
     w_expiry := 600; w_models := ∅; w_trace := []; w_tick := 0 |}.

(** A cache with one entry stored 1400 seconds and one stored 60 seconds
    before 09:00:00. *)
Definition world_with_two_entries : world :=
  {| w_cache := <[ "forecast_Paris" := (PyStr "old", 1717231000%Q) ]>
                  {[ "current_weather_Paris" := (PyDict [], 1717232340%Q) ]};
     w_expiry := 600; w_models := ∅; w_trace := []; w_tick := 0 |}.

Definition default_preferences : preferences := App.no_preferences.

Definition cautious_preferences : preferences :=
  {| rain_sensitivity := Some 0.4%Q; temp_sensitivity := Some 0.4%Q;
     wind_sensitivity := Some 0.4%Q; alert_threshold := Some 0.5%Q |}.

(** Current conditions of exactly 35 degrees at 61 % humidity. *)
Definition warm_and_humid : current_json := current "Clear" "clear sky" 35 61 3.

(** [request.json] on a request without a JSON body. *)
Definition no_json : result json_value :=
  Raise (Exception ("415 Unsupported Media Type: Did not attempt to load JSON data "
                    +:+ "because the request Content-Type was not 'application/json'.")).

Definition get_request (query : list (string * string)) : App.request :=
  {| App.args := query; App.json := no_json |}.

Definition post_request (data : result json_value) : App.request :=
  {| App.args := []; App.json := data |}.


Definition paris_request : App.request := get_request [("city", "Paris")].

Definition paris_alerts_request : App.request :=
  post_request (Return (JObject [("city", JString "Paris")])).


End Sample.


(** * Properties *)

(** ** Strings *)

Example lower_Clear : Str.lower "Clear" = "clear".
Proof. reflexivity. Qed.

Example contains_rain : Str.contains "rain" "light rain" = true.
Proof. reflexivity. Qed.

Example contains_storm_not : Str.contains "storm" "clear sky" = false.
Proof. reflexivity. Qed.

Example replace_two :
  Str.replace "ab" "[X]" "abcabab" = "[X]c[X][X]".
Proof. reflexivity. Qed.

Example replace_no_overlap : Str.replace "aa" "b" "aaa" = "ba".
Proof. reflexivity. Qed.

Example replace_empty_old : Str.replace EmptyString "-" "ab" = "-a-b-".
Proof. reflexivity. Qed.

Example split_dt_txt :
  Str.split_space "2024-06-01 12:00:00" = ["2024-06-01"; "12:00:00"].
Proof. reflexivity. Qed.

(** ** Comparisons *)

Lemma Num_lt_true (a b : Q) : Num.lt a b = true <-> (a < b)%Q.
Proof.
  unfold Num.lt. rewrite negb_true_iff, <- not_true_iff_false, Qle_bool_iff.
  split; [apply Qnot_le_lt | apply Qlt_not_le].
Qed.

Lemma Num_lt_false (a b : Q) : Num.lt a b = false <-> (b <= a)%Q.
Proof. unfold Num.lt. rewrite negb_false_iff. apply Qle_bool_iff. Qed.

Lemma Num_gt_true (a b : Q) : Num.gt a b = true <-> (b < a)%Q.
Proof. apply (Num_lt_true b a). Qed.

Lemma Num_gt_false (a b : Q) : Num.gt a b = false <-> (a <= b)%Q.
Proof. apply (Num_lt_false b a). Qed.

Lemma Num_ge_true (a b : Q) : Num.ge a b = true <-> (b <= a)%Q.
Proof. apply Qle_bool_iff. Qed.

(** ** The cache *)

Section CacheFacts.

Variable R : runtime.

Lemma cache_get_fresh (w : world) (k : string) (v : pyval) (ts : Q) :
  w_cache w !! k = Some (v, ts) ->
  (CacheService.seconds_at R (w_tick w) - ts < w_expiry w)%Q ->
  fst (CacheService.get R k w) = Return v
  /\ w_cache (snd (CacheService.get R k w)) = w_cache w.
Proof.
  intros Hk Hage. apply Num_lt_true in Hage.
  unfold CacheService.get, bind, record, read_cache, CacheService.time_time,
    next_tick, read_expiry, logger, record, ret; cbn.
  rewrite Hk; cbn. rewrite Hage; cbn. auto.
Qed.

Lemma cache_get_expired (w : world) (k : string) (v : pyval) (ts : Q) :
  w_cache w !! k = Some (v, ts) ->
  (w_expiry w <= CacheService.seconds_at R (w_tick w) - ts)%Q ->
  fst (CacheService.get R k w) = Return PyNone
  /\ w_cache (snd (CacheService.get R k w)) = delete k (w_cache w).
Proof.
  intros Hk Hage. apply Num_lt_false in Hage.
  unfold CacheService.get, bind, record, read_cache, CacheService.time_time,
    next_tick, read_expiry, logger, record, write_cache, ret; cbn.
  rewrite Hk; cbn. rewrite Hage; cbn. auto.
Qed.

Lemma cache_get_absent (w : world) (k : string) :
  w_cache w !! k = None ->
  fst (CacheService.get R k w) = Return PyNone
  /\ w_cache (snd (CacheService.get R k w)) = w_cache w.
Proof.
  intros Hk.
  unfold CacheService.get, bind, record, read_cache, logger, record, ret; cbn.
  rewrite Hk; cbn. auto.
Qed.

Lemma cache_set_state (w : world) (k : string) (v : pyval) :
  fst (CacheService.set R k v w) = Return tt
  /\ w_cache (snd (CacheService.set R k v w)) = <[k := (v, CacheService.seconds_at R (w_tick w))]> (w_cache w)
  /\ w_expiry (snd (CacheService.set R k v w)) = w_expiry w
  /\ w_tick (snd (CacheService.set R k v w)) = S (w_tick w).
Proof. repeat split. Qed.

(** C4. [get(k)] right after [set(k, v)], that is with less than the expiry
    time between the two clock readings, returns [v]; and a [get(k)] that
    finds an entry whose age is at least the expiry time returns [None] and
    leaves the cache without the key, with no call to [cleanup]. *)
Theorem cache_set_then_get_and_lazy_expiry (w : world) (k : string) (v : pyval) :
  ((CacheService.seconds_at R (S (w_tick w)) - CacheService.seconds_at R (w_tick w) < w_expiry w)%Q ->
   fst ((CacheService.set R k v ;; CacheService.get R k) w) = Return v)
  /\ (forall ts : Q,
        w_cache w !! k = Some (v, ts) ->
        (w_expiry w <= CacheService.seconds_at R (w_tick w) - ts)%Q ->
        fst (CacheService.get R k w) = Return PyNone
        /\ w_cache (snd (CacheService.get R k w)) = delete k (w_cache w)
        /\ w_cache (snd (CacheService.get R k w)) !! k = None).
Proof.
  split.
  - intros Hage.
    destruct (cache_set_state w k v) as (Hr & Hc & He & Ht).
    unfold bind at 1.
    destruct (CacheService.set R k v w) as [r w'] eqn:Hset; cbn in *.
    subst r.
    apply (cache_get_fresh w' k v (CacheService.seconds_at R (w_tick w))).
    + rewrite Hc. apply lookup_insert_eq.
    + now rewrite Ht, He.
  - intros ts Hk Hage.
    destruct (cache_get_expired w k v ts Hk Hage) as [Hr Hc].
    repeat split; trivial.
    rewrite Hc. apply lookup_delete_eq.
Qed.

End CacheFacts.

(** ** The monad *)

Lemma bind_Return_inv {A B} (m : M A) (k : A -> M B) (w w' : world) (b : B) :
  bind m k w = (Return b, w') ->
  exists a w1, m w = (Return a, w1) /\ k a w1 = (Return b, w').
Proof.
  unfold bind. destruct (m w) as [[a | e] w1]; intros H.
  - exists a, w1. auto.
  - discriminate.
Qed.

Lemma try_except_Return_inv {A} (m : M A) (h : exn -> M A) (w w' : world) (a : A) :
  try_except m h w = (Return a, w') ->
  m w = (Return a, w') \/ exists e w1, m w = (Raise e, w1) /\ h e w1 = (Return a, w').
Proof.
  unfold try_except. destruct (m w) as [[a' | e] w1]; intros H.
  - left. exact H.
  - right. exists e, w1. auto.
Qed.

Lemma log_then_raise_never_returns {A} (lvl : level) (msg : string) (e : exn)
    (w w' : world) (a : A) :
  (logger lvl msg ;; raise e) w <> (Return a, w').
Proof. unfold bind, logger, record, raise; cbn. discriminate. Qed.

Lemma lift_Return_inv {A} (r : result A) (w w' : world) (a : A) :
  Requests.lift r w = (Return a, w') -> r = Return a /\ w' = w.
Proof.
  destruct r as [a' | e]; unfold Requests.lift, ret, raise; intros H.
  - injection H as -> ->. auto.
  - discriminate.
Qed.

(** ** The alert rules *)

Section AlertFacts.

Variable R : runtime.

Local Open Scope Q_scope.

Lemma append_when_app (c : bool) (a : alert) (l1 l2 : list alert) :
  AIWeatherService.append_when c a (l1 ++ l2) = l1 ++ AIWeatherService.append_when c a l2.
Proof. destruct c; cbn; [now rewrite app_assoc | reflexivity]. Qed.

Lemma append_when_In (c : bool) (a x : alert) (l : list alert) :
  In x l -> In x (AIWeatherService.append_when c a l).
Proof. destruct c; cbn; [intros; apply in_or_app; auto | auto]. Qed.

Lemma append_when_true_In (a : alert) (l : list alert) :
  In a (AIWeatherService.append_when true a l).
Proof. cbn. apply in_or_app. right. now left. Qed.

Lemma append_when_Forall (P : alert -> Prop) (c : bool) (a : alert) (l : list alert) :
  P a -> Forall P l -> Forall P (AIWeatherService.append_when c a l).
Proof.
  intros Ha Hl. destruct c; cbn; [|exact Hl].
  apply Forall_app. split; [exact Hl | now constructor].
Qed.

(** The severe-weather check only appends. *)
Lemma check_severe_In (alerts : list alert) (wc wd : string) (t wind h : Q)
    (p : preferences) (time : string) (x : alert) :
  In x alerts ->
  In x (AIWeatherService._check_severe_weather_conditions R alerts wc wd t wind h p time).
Proof.
  intros Hx. unfold AIWeatherService._check_severe_weather_conditions.
  repeat apply append_when_In. exact Hx.
Qed.

(** The heat rule, for any list of earlier alerts and any preferences. *)
Lemma check_severe_heatwave (alerts : list alert) (wc wd : string) (t wind h : Q)
    (p : preferences) (time : string) :
  35 < t -> 60 < h ->
  exists a,
    In a (AIWeatherService._check_severe_weather_conditions R alerts wc wd t wind h p time)
    /\ a_type a = "heatwave" /\ a_time a = time /\ severity a = 0.95.
Proof.
  intros Ht Hh. apply Num_gt_true in Ht, Hh.
  eexists. split.
  - unfold AIWeatherService._check_severe_weather_conditions.
    do 4 apply append_when_In. rewrite Ht, Hh. apply append_when_true_In.
  - cbn. auto.
Qed.

Lemma check_severe_Forall (P : alert -> Prop) (alerts : list alert) (wc wd : string)
    (t wind h : Q) (p : preferences) (time : string) :
  (forall a, (severity a = 1.0 \/ severity a = 0.9 \/ severity a = 0.95) -> P a) ->
  Forall P alerts ->
  Forall P (AIWeatherService._check_severe_weather_conditions R alerts wc wd t wind h p time).
Proof.
  intros HP Hl. unfold AIWeatherService._check_severe_weather_conditions.
  repeat (apply append_when_Forall; [apply HP; cbn; auto |]). exact Hl.
Qed.

Lemma interval_alerts_In (p : preferences) (alerts : list alert) (day : enhanced_item)
    (x : alert) :
  In x alerts -> In x (AIWeatherService.interval_alerts R p alerts day).
Proof.
  intros Hx. unfold AIWeatherService.interval_alerts.
  assert (Hsev := check_severe_In alerts
    (Str.lower (w_main (fi_weather (e_item day))))
    (Str.lower (w_description (fi_weather (e_item day))))
    (temp (fi_main (e_item day))) (speed (fi_wind (e_item day)))
    (humidity (fi_main (e_item day))) p (fi_dt_txt (e_item day)) x Hx).
  set (severe := AIWeatherService._check_severe_weather_conditions _ _ _ _ _ _ _ _ _) in *.
  clearbody severe.
  repeat match goal with
         | |- In _ (if ?c then _ else _) => destruct c
         | |- In _ (match ?o with Some _ => _ | None => _ end) => destruct o
         | |- In _ (AIWeatherService.append_when _ _ _) => apply append_when_In
         | |- In _ (_ ++ _) => apply in_or_app; left
         | |- In _ (let _ := _ in _) => cbv zeta
         end; exact Hsev.
Qed.

Lemma fold_interval_alerts_In (p : preferences) (days : list enhanced_item)
    (alerts : list alert) (x : alert) :
  In x alerts -> In x (fold_left (AIWeatherService.interval_alerts R p) days alerts).
Proof.
  revert alerts. induction days as [|day days IH]; intros alerts Hx; cbn.
  - exact Hx.
  - apply IH. now apply interval_alerts_In.
Qed.

Lemma interval_alerts_heatwave (p : preferences) (alerts : list alert) (day : enhanced_item) :
  35 < temp (fi_main (e_item day)) -> 60 < humidity (fi_main (e_item day)) ->
  exists a,
    In a (AIWeatherService.interval_alerts R p alerts day)
    /\ a_type a = "heatwave" /\ a_time a = fi_dt_txt (e_item day) /\ severity a = 0.95.
Proof.
  intros Ht Hh.
  destruct (check_severe_heatwave alerts
    (Str.lower (w_main (fi_weather (e_item day))))
    (Str.lower (w_description (fi_weather (e_item day))))
    (temp (fi_main (e_item day))) (speed (fi_wind (e_item day)))
    (humidity (fi_main (e_item day))) p (fi_dt_txt (e_item day)) Ht Hh)
    as (a & Hin & Hty & Htime & Hsev).
  exists a. split; [|auto].
  unfold AIWeatherService.interval_alerts.
  set (severe := AIWeatherService._check_severe_weather_conditions _ _ _ _ _ _ _ _ _) in *.
  clearbody severe.
  repeat match goal with
         | |- In _ (if ?c then _ else _) => destruct c
         | |- In _ (match ?o with Some _ => _ | None => _ end) => destruct o
         | |- In _ (AIWeatherService.append_when _ _ _) => apply append_when_In
         | |- In _ (_ ++ _) => apply in_or_app; left
         | |- In _ (let _ := _ in _) => cbv zeta
         end; exact Hin.
Qed.

Lemma fold_interval_alerts_heatwave (p : preferences) (days : list enhanced_item)
    (alerts : list alert) (i : nat) (day : enhanced_item) :
  days !! i = Some day ->
  35 < temp (fi_main (e_item day)) -> 60 < humidity (fi_main (e_item day)) ->
  exists a,
    In a (fold_left (AIWeatherService.interval_alerts R p) days alerts)
    /\ a_type a = "heatwave" /\ a_time a = fi_dt_txt (e_item day) /\ severity a = 0.95.
Proof.
  revert alerts i. induction days as [|d days IH]; intros alerts i Hi Ht Hh.
  - discriminate.
  - destruct i as [|i]; cbn in Hi.
    + injection Hi as ->.
      destruct (interval_alerts_heatwave p alerts day Ht Hh) as (a & Hin & Hrest).
      exists a. split; [|exact Hrest].
      cbn. now apply fold_interval_alerts_In.
    + cbn. now apply (IH _ i).
Qed.

End AlertFacts.

(** ** Filtering and sorting *)

Section SortFacts.

Local Open Scope Q_scope.

Lemma insert_by_severity_perm (a : alert) (l : list alert) :
  Permutation (AIWeatherService.insert_by_severity a l) (a :: l).
Proof.
  induction l as [|b l IH]; cbn.
  - reflexivity.
  - destruct (Num.lt (severity a) (severity b)).
    + rewrite IH. apply perm_swap.
    + reflexivity.
Qed.

Lemma sort_by_severity_perm (l : list alert) :
  Permutation (AIWeatherService.sort_by_severity l) l.
Proof.
  induction l as [|a l IH]; cbn.
  - reflexivity.
  - rewrite insert_by_severity_perm. now apply perm_skip.
Qed.

Lemma insert_by_severity_HdRel (b a : alert) (l : list alert) :
  severity_ge b a -> HdRel severity_ge b l ->
  HdRel severity_ge b (AIWeatherService.insert_by_severity a l).
Proof.
  intros Hba Hl. destruct l as [|c l]; cbn.
  - now constructor.
  - destruct (Num.lt (severity a) (severity c)); constructor.
    + now inversion Hl.
    + exact Hba.
Qed.

Lemma insert_by_severity_sorted (a : alert) (l : list alert) :
  Sorted severity_ge l -> Sorted severity_ge (AIWeatherService.insert_by_severity a l).
Proof.
  induction l as [|b l IH]; intros Hs; cbn.
  - repeat constructor.
  - destruct (Num.lt (severity a) (severity b)) eqn:Hlt.
    + inversion Hs as [|? ? Hl Hhd]; subst.
      constructor; [now apply IH |].
      apply insert_by_severity_HdRel; [|exact Hhd].
      apply Num_lt_true in Hlt. now apply Qlt_le_weak.
    + constructor; [exact Hs |].
      constructor. now apply Num_lt_false in Hlt.
Qed.

Lemma sort_by_severity_sorted (l : list alert) :
  Sorted severity_ge (AIWeatherService.sort_by_severity l).
Proof.
  induction l as [|a l IH]; cbn.
  - constructor.
  - now apply insert_by_severity_sorted.
Qed.

Lemma filter_and_sort_perm (threshold : Q) (l : list alert) :
  Permutation (AIWeatherService.filter_and_sort threshold l)
    (List.filter (fun a => Num.ge (severity a) threshold) l).
Proof. apply sort_by_severity_perm. Qed.

Lemma filter_and_sort_In (threshold : Q) (l : list alert) (a : alert) :
  In a (AIWeatherService.filter_and_sort threshold l)
  <-> In a l /\ threshold <= severity a.
Proof.
  rewrite <- Num_ge_true, <- (filter_In (fun a => Num.ge (severity a) threshold)).
  split; apply Permutation_in;
    [apply filter_and_sort_perm | symmetry; apply filter_and_sort_perm].
Qed.

End SortFacts.

(** ** What [get_personalized_alerts] returns *)

Section AlertService.

Variable R : runtime.
Variable api_key : string.

Local Open Scope Q_scope.

(** When the operation returns a list, both fetches succeeded and the list is
    the filtered and sorted list of the alerts generated from them. *)
Lemma get_personalized_alerts_returns (city : string) (p : preferences)
    (w w' : world) (alerts : list alert) :
  AIWeatherService.get_personalized_alerts R api_key city p w = (Return alerts, w') ->
  exists (e : enhanced_json) (current_data : current_json) (w1 : world),
    AIWeatherService.get_enhanced_forecast R api_key city w = (Return (PyEnhanced e), w1)
    /\ weather_api R (w_tick w1) api_key city = Return current_data
    /\ alerts =
       AIWeatherService.filter_and_sort (get_default (alert_threshold p) 0.7)
         (AIWeatherService.generated_alerts R p current_data (e_list e)).
Proof.
  unfold AIWeatherService.get_personalized_alerts. intros H.
  apply try_except_Return_inv in H as [H | (e & w1 & _ & H)];
    [| now apply log_then_raise_never_returns in H].
  apply bind_Return_inv in H as (forecast & w1 & Hf & H).
  apply bind_Return_inv in H as (current_data & w2 & Hc & H).
  apply bind_Return_inv in H as (items & w3 & Hi & H).
  unfold Requests.get_weather in Hc.
  apply bind_Return_inv in Hc as ([] & w1a & Hrec & Hc).
  apply bind_Return_inv in Hc as (t & w1b & Htick & Hc).
  apply lift_Return_inv in Hc as [Hc ->].
  unfold record in Hrec. injection Hrec as <-.
  unfold next_tick in Htick. cbn in Htick. injection Htick as <- <-.
  destruct forecast; try discriminate.
  unfold AIWeatherService.forecast_list, ret in Hi. injection Hi as <- <-.
  unfold ret in H. injection H as <- <-.
  exists e, current_data, w1. auto.
Qed.

End AlertService.

(** ** Severity bounds *)

Section SeverityFacts.

Variable R : runtime.

Local Open Scope Q_scope.

Lemma Qmin_one_le (x : Q) : Qmin x 1.0 <= 1.
Proof.
  apply Qle_trans with (y := 1.0); [apply Q.le_min_r | discriminate].
Qed.

Lemma fixed_severity_at_most_one (a : alert) :
  severity a = 1.0 \/ severity a = 0.9 \/ severity a = 0.95 -> at_most_one a.
Proof. unfold at_most_one. intros [-> | [-> | ->]]; discriminate. Qed.

Lemma interval_alerts_at_most_one (p : preferences) (alerts : list alert)
    (day : enhanced_item) :
  Forall at_most_one alerts ->
  Forall at_most_one (AIWeatherService.interval_alerts R p alerts day).
Proof.
  intros Hl. unfold AIWeatherService.interval_alerts.
  assert (Hsev := check_severe_Forall R at_most_one alerts
    (Str.lower (w_main (fi_weather (e_item day))))
    (Str.lower (w_description (fi_weather (e_item day))))
    (temp (fi_main (e_item day))) (speed (fi_wind (e_item day)))
    (humidity (fi_main (e_item day))) p (fi_dt_txt (e_item day))
    fixed_severity_at_most_one Hl).
  set (severe := AIWeatherService._check_severe_weather_conditions _ _ _ _ _ _ _ _ _) in *.
  clearbody severe.
  repeat match goal with
         | |- Forall _ (if ?c then _ else _) => destruct c
         | |- Forall _ (match ?o with Some _ => _ | None => _ end) => destruct o
         | |- Forall _ (AIWeatherService.append_when _ _ _) =>
             apply append_when_Forall; [apply Qmin_one_le |]
         | |- Forall _ (_ ++ [_]) =>
             apply Forall_app; split; [| constructor; [apply Qmin_one_le | constructor]]
         | |- Forall _ (let _ := _ in _) => cbv zeta
         end; exact Hsev.
Qed.

Lemma fold_interval_alerts_at_most_one (p : preferences) (days : list enhanced_item)
    (alerts : list alert) :
  Forall at_most_one alerts ->
  Forall at_most_one (fold_left (AIWeatherService.interval_alerts R p) days alerts).
Proof.
  revert alerts. induction days as [|d days IH]; intros alerts Hl; cbn.
  - exact Hl.
  - apply IH. now apply interval_alerts_at_most_one.
Qed.

Lemma generated_alerts_at_most_one (p : preferences) (current_data : current_json)
    (items : list enhanced_item) :
  Forall at_most_one (AIWeatherService.generated_alerts R p current_data items).
Proof.
  unfold AIWeatherService.generated_alerts.
  apply fold_interval_alerts_at_most_one.
  assert (Hsev : forall wc wd t wind h time,
    Forall at_most_one
      (AIWeatherService._check_severe_weather_conditions R [] wc wd t wind h p time)).
  { intros. apply check_severe_Forall; [apply fixed_severity_at_most_one | constructor]. }
  destruct (cur_alerts current_data) as [provided|]; [|apply Hsev].
  apply Forall_app. split; [apply Hsev |].
  apply List.Forall_forall. intros a Ha. apply in_map_iff in Ha as (x & <- & _).
  apply fixed_severity_at_most_one. now left.
Qed.

End SeverityFacts.

(** ** The alert pipeline end to end *)

Section AlertPipeline.

Variable R : runtime.
Variable api_key : string.

Local Open Scope Q_scope.

(** C2, as amended.  For every evaluated slot (the current conditions and
    each of the first 16 forecast intervals) whose temperature is above 35
    and whose humidity is above 60, a [heatwave] alert of severity 0.95 is
    generated for that slot whatever the preferences are, and it is in the
    filtered list for every threshold up to 0.95. *)
Theorem heat_alert_for_every_hot_humid_slot (p : preferences)
    (current_data : current_json) (items : list enhanced_item) (s : time_slot) :
  In s (evaluated_slots current_data items) ->
  35 < slot_temp s -> 60 < slot_humidity s ->
  exists a,
    In a (AIWeatherService.generated_alerts R p current_data items)
    /\ a_type a = "heatwave" /\ a_time a = slot_time s /\ severity a = 0.95
    /\ forall threshold, threshold <= 0.95 ->
         In a (AIWeatherService.filter_and_sort threshold
                 (AIWeatherService.generated_alerts R p current_data items)).
Proof.
  intros Hs Ht Hh.
  assert (Hgen : exists a,
    In a (AIWeatherService.generated_alerts R p current_data items)
    /\ a_type a = "heatwave" /\ a_time a = slot_time s /\ severity a = 0.95).
  { unfold evaluated_slots in Hs. destruct Hs as [<- | Hs]; cbn in *.
    - destruct (check_severe_heatwave R []
        (Str.lower (w_main (cur_weather current_data)))
        (Str.lower (w_description (cur_weather current_data)))
        (temp (cur_main current_data))
        (get_default (match cur_wind current_data with
                      | Some w => cw_speed w
                      | None => None
                      end) 0)
        (humidity (cur_main current_data)) p "now" Ht Hh) as (a & Hin & Hrest).
      exists a. split; [|exact Hrest].
      unfold AIWeatherService.generated_alerts.
      apply fold_interval_alerts_In.
      destruct (cur_alerts current_data); [apply in_or_app; left |]; exact Hin.
    - apply in_map_iff in Hs as (day & <- & Hday).
      apply list_elem_of_In, list_elem_of_lookup in Hday as [i Hi].
      cbn in Ht, Hh.
      unfold AIWeatherService.generated_alerts.
      now apply (fold_interval_alerts_heatwave R p _ _ i day). }
  destruct Hgen as (a & Hin & Hty & Htime & Hsev).
  exists a. repeat split; trivial.
  intros threshold Hthr. apply filter_and_sort_In. split; [exact Hin |].
  now rewrite Hsev.
Qed.

(** C3.  When [get_personalized_alerts] returns a list, the list holds exactly
    the generated alerts whose severity is at least the threshold (0.7 when
    the preferences give none), largest severity first; nothing below the
    threshold is in it. *)
Theorem personalized_alerts_filtered_and_sorted (city : string) (p : preferences)
    (w : world) (alerts : list alert) :
  fst (AIWeatherService.get_personalized_alerts R api_key city p w) = Return alerts ->
  exists (e : enhanced_json) (current_data : current_json) (w1 : world),
    AIWeatherService.get_enhanced_forecast R api_key city w = (Return (PyEnhanced e), w1)
    /\ weather_api R (w_tick w1) api_key city = Return current_data
    /\ filtered_and_sorted (get_default (alert_threshold p) 0.7)
         (AIWeatherService.generated_alerts R p current_data (e_list e)) alerts.
Proof.
  intros H.
  destruct (AIWeatherService.get_personalized_alerts R api_key city p w)
    as [r w'] eqn:Hrun.
  cbn in H. subst r.
  apply get_personalized_alerts_returns in Hrun
    as (e & current_data & w1 & Hf & Hc & ->).
  exists e, current_data, w1. repeat split; trivial.
  - apply filter_and_sort_perm.
  - apply sort_by_severity_sorted.
  - apply List.Forall_forall. intros a Ha.
    now apply filter_and_sort_In in Ha.
Qed.

(** C7.  With every given preference in [0, 1], every alert in the list
    [get_personalized_alerts] returns has its severity in [0, 1]. *)
Theorem returned_alert_severity_in_unit_interval (city : string) (p : preferences)
    (w : world) (alerts : list alert) :
  preferences_in_unit_interval p ->
  fst (AIWeatherService.get_personalized_alerts R api_key city p w) = Return alerts ->
  Forall (fun a => 0 <= severity a <= 1) alerts.
Proof.
  intros (_ & _ & _ & Hthr) H.
  destruct (AIWeatherService.get_personalized_alerts R api_key city p w)
    as [r w'] eqn:Hrun.
  cbn in H. subst r.
  apply get_personalized_alerts_returns in Hrun
    as (e & current_data & w1 & _ & _ & ->).
  apply List.Forall_forall. intros a Ha.
  apply filter_and_sort_In in Ha as [Hgen Hge].
  split.
  - apply Qle_trans with (y := get_default (alert_threshold p) 0.7); [|exact Hge].
    destruct (alert_threshold p) as [q|]; cbn in *; [apply Hthr | discriminate].
  - assert (Hall := generated_alerts_at_most_one R p current_data (e_list e)).
    rewrite List.Forall_forall in Hall. now apply Hall.
Qed.

End AlertPipeline.

(** At exactly 35 degrees and 61 % humidity the strict comparison of the
    heat rule does not fire: no alert at all is generated. *)
Lemma no_heat_alert_at_exactly_35 :
  (35 <= temp (cur_main Sample.warm_and_humid))%Q
  /\ (60 < humidity (cur_main Sample.warm_and_humid))%Q
  /\ AIWeatherService.generated_alerts Sample.sunny Sample.default_preferences
       Sample.warm_and_humid [] = [].
Proof. repeat split; discriminate. Qed.

Lemma heat_alert_for_every_hot_humid_slot_witness :
  exists a,
    In a (AIWeatherService.generated_alerts Sample.sunny Sample.default_preferences
            (Sample.current "Clear" "clear sky" 36 70 3) [])
    /\ a_type a = "heatwave" /\ a_time a = "now" /\ severity a = 0.95%Q
    /\ forall threshold, (threshold <= 0.95)%Q ->
         In a (AIWeatherService.filter_and_sort threshold
                 (AIWeatherService.generated_alerts Sample.sunny Sample.default_preferences
                    (Sample.current "Clear" "clear sky" 36 70 3) [])).
Proof.
  apply (heat_alert_for_every_hot_humid_slot Sample.sunny Sample.default_preferences
           (Sample.current "Clear" "clear sky" 36 70 3) []
           {| slot_time := "now"; slot_temp := 36; slot_humidity := 70 |}).
  - left. reflexivity.
  - reflexivity.
  - reflexivity.
Defined.

Lemma personalized_alerts_filtered_and_sorted_witness :
  exists alerts,
    fst (AIWeatherService.get_personalized_alerts Sample.sunny Sample.api_key "Paris"
           Sample.default_preferences Sample.world0) = Return alerts
    /\ exists e current_data w1,
         AIWeatherService.get_enhanced_forecast Sample.sunny Sample.api_key "Paris"
           Sample.world0 = (Return (PyEnhanced e), w1)
         /\ weather_api Sample.sunny (w_tick w1) Sample.api_key "Paris" = Return current_data
         /\ filtered_and_sorted 0.7
              (AIWeatherService.generated_alerts Sample.sunny Sample.default_preferences
                 current_data (e_list e)) alerts.
Proof.
  eexists. split.
  - vm_compute. reflexivity.
  - apply (personalized_alerts_filtered_and_sorted Sample.sunny Sample.api_key "Paris"
             Sample.default_preferences Sample.world0).
    vm_compute. reflexivity.
Defined.

Lemma returned_alert_severity_in_unit_interval_witness :
  exists alerts,
    fst (AIWeatherService.get_personalized_alerts Sample.sunny Sample.api_key "Paris"
           Sample.cautious_preferences Sample.world0) = Return alerts
    /\ Forall (fun a => 0 <= severity a <= 1)%Q alerts.
Proof.
  eexists. split.
  - vm_compute. reflexivity.
  - apply (returned_alert_severity_in_unit_interval Sample.sunny Sample.api_key "Paris"
             Sample.cautious_preferences Sample.world0).
    + repeat split; discriminate.
    + vm_compute. reflexivity.
Defined.

(** The high-temperature rule does generate negative severities: with a
    temperature sensitivity of 0.4 the 23:00 interval, enhanced to 12.7
    degrees, gets [(12.7 - 25) / 15]; the filter drops it. *)
Example generated_severity_can_be_negative :
  exists a,
    In a (AIWeatherService.generated_alerts Sample.sunny Sample.cautious_preferences
            (Sample.current "Clear" "clear sky" 32 40 3)
            (map (fun i => {| e_item := i; ai_confidence := 0.6 |})
               [Sample.item "2024-06-01 23:00:00" "Clouds" "overcast clouds" 12.7 80 2 None]))
    /\ a_type a = "high_temp" /\ (severity a < 0)%Q.
Proof.
  eexists. split; [cbn; left; reflexivity |]. split; reflexivity.
Qed.

(** ** The enhancement *)

Section EnhancementFacts.

Variable R : runtime.

Local Open Scope Q_scope.

Lemma dt_hour_range (d : datetime) : (0 <= dt_hour d <= 23)%Z.
Proof. unfold dt_hour. pose proof (Z.mod_pos_bound (d / 3600000000) 24). lia. Qed.

Lemma temp_adjustment_cases (hour : Z) :
  ((10 <= hour <= 16)%Z -> AIWeatherService.temp_adjustment hour = 0.5)
  /\ ((22 <= hour <= 23 \/ 0 <= hour <= 4)%Z -> AIWeatherService.temp_adjustment hour = -0.3)
  /\ ((5 <= hour <= 9 \/ 17 <= hour <= 21)%Z -> AIWeatherService.temp_adjustment hour = 0).
Proof.
  unfold AIWeatherService.temp_adjustment.
  repeat split; intros H;
    destruct (Z.leb_spec 10 hour), (Z.leb_spec hour 16),
      (Z.leb_spec 22 hour), (Z.leb_spec hour 4); cbn; try reflexivity; lia.
Qed.

Lemma confidence_at_zero (h : Q) : h == 0 -> AIWeatherService.confidence h == 0.95.
Proof.
  intros Hh. unfold AIWeatherService.confidence.
  rewrite Q.max_l; lra.
Qed.

Lemma confidence_clamped (h : Q) : 70 <= h -> AIWeatherService.confidence h == 0.6.
Proof.
  intros Hh. unfold AIWeatherService.confidence.
  rewrite Q.max_r; lra.
Qed.

Lemma confidence_not_clamped_above (h : Q) :
  h < 0 ->
  AIWeatherService.confidence h == 0.95 - h * 0.005
  /\ 0.95 < AIWeatherService.confidence h.
Proof.
  intros Hh. unfold AIWeatherService.confidence.
  rewrite Q.max_l; lra.
Qed.

(** One turn of the loop: a single clock reading, the offset on both
    temperatures, the confidence from that reading. *)
Lemma enhance_item_run (item : forecast_item) (w : world) :
  exists ei,
    AIWeatherService.enhance_item R item w = (Return ei, after_readings 1 w)
    /\ temp (fi_main (e_item ei))
       = temp (fi_main item) + AIWeatherService.temp_adjustment (hour_of R item)
    /\ feels_like (fi_main (e_item ei))
       = feels_like (fi_main item) + AIWeatherService.temp_adjustment (hour_of R item)
    /\ ai_confidence ei
       = AIWeatherService.confidence (hours_from R (clock R (w_tick w)) item).
Proof.
  eexists. split.
  - unfold AIWeatherService.enhance_item, AIWeatherService.datetime_now, bind,
      next_tick, ret, after_readings; cbn.
    replace (w_tick w + 1)%nat with (S (w_tick w)) by lia. reflexivity.
  - repeat split.
Qed.

Lemma after_readings_add (n m : nat) (w : world) :
  after_readings m (after_readings n w) = after_readings (n + m) w.
Proof. unfold after_readings; cbn. f_equal. lia. Qed.

(** The whole loop, by induction on the list: item [i] is enhanced with the
    clock reading number [i] after the start. *)
Lemma for_each_enhance_item (items : list forecast_item) (w : world) :
  exists out,
    for_each (AIWeatherService.enhance_item R) items w
    = (Return out, after_readings (length items) w)
    /\ length out = length items
    /\ forall (i : nat) (item : forecast_item),
         items !! i = Some item ->
         exists ei,
           out !! i = Some ei
           /\ temp (fi_main (e_item ei))
              = temp (fi_main item) + AIWeatherService.temp_adjustment (hour_of R item)
           /\ feels_like (fi_main (e_item ei))
              = feels_like (fi_main item) + AIWeatherService.temp_adjustment (hour_of R item)
           /\ ai_confidence ei
              = AIWeatherService.confidence
                  (hours_from R (clock R (w_tick w + i)%nat) item).
Proof.
  revert w. induction items as [|x items IH]; intros w.
  - exists []. repeat split.
    + cbn. unfold ret, after_readings. do 2 f_equal.
      destruct w; cbn; f_equal; lia.
    + intros i item Hi. discriminate.
  - destruct (enhance_item_run x w) as (ex & Hx & Hxt & Hxf & Hxc).
    destruct (IH (after_readings 1 w)) as (out & Hrun & Hlen & Hout).
    exists (ex :: out). repeat split.
    + cbn [for_each]. unfold bind at 1. rewrite Hx.
      unfold bind at 1. rewrite Hrun. unfold ret.
      now rewrite after_readings_add.
    + cbn. now rewrite Hlen.
    + intros [|i] item Hi; cbn in Hi.
      * injection Hi as <-. exists ex. repeat split; trivial.
        now replace (w_tick w + 0)%nat with (w_tick w) by lia.
      * destruct (Hout i item Hi) as (ei & Hei & Ht & Hf & Hc).
        exists ei. repeat split; trivial.
        rewrite Hc. cbn. now replace (w_tick w + S i)%nat with (w_tick w + 1 + i)%nat by lia.
Qed.

Lemma enhance_forecast_run (city : string) (forecast_data : forecast_json) (w : world) :
  exists e w',
    AIWeatherService._enhance_forecast_with_ai R city forecast_data w = (Return e, w')
    /\ length (e_list e) = length (fc_list forecast_data)
    /\ forall (i : nat) (item : forecast_item),
         fc_list forecast_data !! i = Some item ->
         exists ei,
           e_list e !! i = Some ei
           /\ temp (fi_main (e_item ei))
              = temp (fi_main item) + AIWeatherService.temp_adjustment (hour_of R item)
           /\ feels_like (fi_main (e_item ei))
              = feels_like (fi_main item) + AIWeatherService.temp_adjustment (hour_of R item)
           /\ ai_confidence ei
              = AIWeatherService.confidence
                  (hours_from R (clock R (w_tick w + i)%nat) item).
Proof.
  unfold AIWeatherService._enhance_forecast_with_ai.
  destruct (for_each_enhance_item (fc_list forecast_data) (snd (add_model city w)))
    as (out & Hrun & Hlen & Hout).
  eexists; eexists. split; [|split].
  - unfold bind. unfold add_model in *. cbn [snd] in Hrun. cbv beta iota.
    rewrite Hrun. unfold ret. reflexivity.
  - exact Hlen.
  - exact Hout.
Qed.

(** C5.  The enhancement returns, and for every forecast interval it adds the
    same offset to the temperature and to the feels-like value: 0.5 when the
    hour of the interval is in 10..16, -0.3 when it is in 22..23 or 0..4, and
    0 in the remaining hours 5..9 and 17..21. *)
Theorem enhancement_offset_by_hour (city : string) (forecast_data : forecast_json)
    (w : world) (i : nat) (item : forecast_item) :
  fc_list forecast_data !! i = Some item ->
  exists e w' ei offset,
    AIWeatherService._enhance_forecast_with_ai R city forecast_data w = (Return e, w')
    /\ length (e_list e) = length (fc_list forecast_data)
    /\ e_list e !! i = Some ei
    /\ temp (fi_main (e_item ei)) = temp (fi_main item) + offset
    /\ feels_like (fi_main (e_item ei)) = feels_like (fi_main item) + offset
    /\ ((10 <= hour_of R item <= 16)%Z -> offset = 0.5)
    /\ ((22 <= hour_of R item <= 23 \/ 0 <= hour_of R item <= 4)%Z -> offset = -0.3)
    /\ ((5 <= hour_of R item <= 9 \/ 17 <= hour_of R item <= 21)%Z -> offset = 0)
    /\ (0 <= hour_of R item <= 23)%Z.
Proof.
  intros Hi.
  destruct (enhance_forecast_run city forecast_data w) as (e & w' & Hrun & Hlen & Hall).
  destruct (Hall i item Hi) as (ei & Hei & Ht & Hf & _).
  exists e, w', ei, (AIWeatherService.temp_adjustment (hour_of R item)).
  destruct (temp_adjustment_cases (hour_of R item)) as (Hday & Hnight & Hrest).
  repeat split; trivial; apply dt_hour_range.
Qed.

(** C6.  The enhancement returns, and the confidence attached to every forecast
    interval is [max(0.95 - hoursFromNow * 0.005, 0.6)], with hoursFromNow the
    interval's time minus the clock reading taken for that interval, in
    hours: 0.95 at 0 hours, 0.6 from 70 hours on, and above 0.95, unclamped,
    for a negative hoursFromNow. *)
Theorem confidence_by_hours_from_now (city : string) (forecast_data : forecast_json)
    (w : world) (i : nat) (item : forecast_item) :
  fc_list forecast_data !! i = Some item ->
  exists e w' ei hours,
    AIWeatherService._enhance_forecast_with_ai R city forecast_data w = (Return e, w')
    /\ e_list e !! i = Some ei
    /\ hours = hours_from R (clock R (w_tick w + i)%nat) item
    /\ ai_confidence ei = Qmax (0.95 - hours * 0.005) 0.6
    /\ (hours == 0 -> ai_confidence ei == 0.95)
    /\ (70 <= hours -> ai_confidence ei == 0.6)
    /\ (hours < 0 ->
        ai_confidence ei == 0.95 - hours * 0.005 /\ 0.95 < ai_confidence ei).
Proof.
  intros Hi.
  destruct (enhance_forecast_run city forecast_data w) as (e & w' & Hrun & Hlen & Hall).
  destruct (Hall i item Hi) as (ei & Hei & _ & _ & Hc).
  exists e, w', ei, (hours_from R (clock R (w_tick w + i)%nat) item).
  rewrite Hc. repeat split; trivial.
  - apply confidence_at_zero.
  - apply confidence_clamped.
  - now apply confidence_not_clamped_above.
  - now apply confidence_not_clamped_above.
Qed.

End EnhancementFacts.

Lemma enhancement_offset_by_hour_witness :
  exists e w' ei offset,
    AIWeatherService._enhance_forecast_with_ai Sample.sunny "Paris" Sample.forecast
      Sample.world0 = (Return e, w')
    /\ length (e_list e) = 4%nat
    /\ e_list e !! 2%nat = Some ei
    /\ temp (fi_main (e_item ei)) = (13 + offset)%Q
    /\ feels_like (fi_main (e_item ei)) = (13 + offset)%Q
    /\ (10 <= 23 <= 16 -> offset = 0.5%Q)
    /\ (22 <= 23 <= 23 \/ 0 <= 23 <= 4 -> offset = (-0.3)%Q)
    /\ (5 <= 23 <= 9 \/ 17 <= 23 <= 21 -> offset = 0%Q)
    /\ 0 <= 23 <= 23.
Proof.
  apply (enhancement_offset_by_hour Sample.sunny "Paris" Sample.forecast Sample.world0 2
           (Sample.item "2024-06-01 23:00:00" "Clouds" "overcast clouds" 13 80 2 None)).
  reflexivity.
Defined.

Lemma confidence_by_hours_from_now_witness :
  exists e w' ei hours,
    AIWeatherService._enhance_forecast_with_ai Sample.sunny "Paris" Sample.forecast
      Sample.world0 = (Return e, w')
    /\ e_list e !! 3%nat = Some ei
    /\ hours = hours_from Sample.sunny (clock Sample.sunny 3)
                 (Sample.item "2024-06-04 09:00:00" "Clear" "clear sky" 20 50 2 None)
    /\ ai_confidence ei = Qmax (0.95 - hours * 0.005) 0.6
    /\ (hours == 0 -> ai_confidence ei == 0.95)%Q
    /\ (70 <= hours -> ai_confidence ei == 0.6)%Q
    /\ (hours < 0 ->
        ai_confidence ei == 0.95 - hours * 0.005 /\ 0.95 < ai_confidence ei)%Q.
Proof.
  apply (confidence_by_hours_from_now Sample.sunny "Paris" Sample.forecast Sample.world0 3
           (Sample.item "2024-06-04 09:00:00" "Clear" "clear sky" 20 50 2 None)).
  reflexivity.
Defined.

(** The intervals of the sample forecast: noon gains 0.5 on both
    temperatures, 23:00 loses 0.3, and the interval three days ahead has
    confidence 0.6. *)
Example enhanced_sample_forecast :
  match fst (AIWeatherService._enhance_forecast_with_ai Sample.sunny "Paris"
               Sample.forecast Sample.world0) with
  | Return e =>
      map (fun ei => (temp (fi_main (e_item ei)), feels_like (fi_main (e_item ei))))
        (e_list e)
      = [(36.5 + 0.5, 36.5 + 0.5); (21 + 0, 21 + 0); (13 + -0.3, 13 + -0.3);
         (20 + 0, 20 + 0)]%Q
      /\ (forall ei, e_list e !! 3%nat = Some ei -> ai_confidence ei = 0.6%Q)
  | Raise _ => False
  end.
Proof.
  cbn. split; [reflexivity |]. intros ei Hei. injection Hei as <-. reflexivity.
Qed.

(** ** Clothing *)

Section ClothingFacts.

Variable R : runtime.
Variable api_key : string.

Local Open Scope Q_scope.

Lemma Num_gt_proper (a b c : Q) : a == b -> Num.gt a c = Num.gt b c.
Proof. intros H. unfold Num.gt. now rewrite H. Qed.

Lemma Num_lt_proper (a b c : Q) : a == b -> Num.lt a c = Num.lt b c.
Proof. intros H. unfold Num.lt. now rewrite H. Qed.

Lemma add_when_In (c : bool) (x y : string) (l : list string) :
  In y l -> In y (AIWeatherService.add_when c x l).
Proof. destruct c; cbn; [intros; apply in_or_app; auto | auto]. Qed.

Lemma recommend_top_clear_32 (t : Q) (wc : string) :
  t == 32 -> Str.contains "clear" wc = true ->
  Str.contains "rain" wc = false -> Str.contains "drizzle" wc = false ->
  Str.contains "snow" wc = false -> Str.contains "cloud" wc = false ->
  AIWeatherService._recommend_top t wc = "Loose, light cotton t-shirt or linen shirt".
Proof.
  intros Ht Hclear Hrain Hdrizzle Hsnow Hcloud.
  unfold AIWeatherService._recommend_top.
  rewrite Hrain, Hdrizzle, Hsnow, Hcloud, Hclear. cbn [orb].
  now rewrite (Num_gt_proper t 32 30 Ht).
Qed.

Lemma recommend_accessories_clear_32 (t : Q) (wc : string) (wind : Q) :
  t == 32 -> Str.contains "clear" wc = true ->
  In "UV-protective sunglasses" (AIWeatherService._recommend_accessories t wc wind)
  /\ In "SPF 30+ sunscreen" (AIWeatherService._recommend_accessories t wc wind)
  /\ In "Water bottle to stay hydrated" (AIWeatherService._recommend_accessories t wc wind).
Proof.
  intros Ht Hclear. unfold AIWeatherService._recommend_accessories.
  rewrite Hclear.
  rewrite !(Num_gt_proper t 32 _ Ht), !(Num_lt_proper t 32 _ Ht).
  change (Num.gt 32 28) with true. change (Num.gt 32 20) with true.
  change (Num.lt 32 12) with false. change (Num.lt 32 8) with false.
  change (Num.lt 32 5) with false. change (Num.lt 32 15) with false.
  change (Num.lt 32 10) with false.
  cbn [orb andb AIWeatherService.add_when].
  destruct (Str.contains "rain" wc || Str.contains "drizzle" wc),
    (Str.contains "snow" wc), (Num.gt wind 8); cbn; tauto.
Qed.

Lemma find_today_from_items (now : datetime) (items : list forecast_item)
    (m e : option forecast_item) (item : forecast_item) :
  (fst (AIWeatherService.find_today R now items m e) = Some item ->
   m = Some item \/ In item items)
  /\ (snd (AIWeatherService.find_today R now items m e) = Some item ->
      e = Some item \/ In item items).
Proof.
  revert m e. induction items as [|x items IH]; intros m e; cbn.
  - auto.
  - destruct (negb _).
    + destruct (IH m e) as [Hm He]. split; intros H; [apply Hm in H | apply He in H]; tauto.
    + destruct m as [m0|], e as [e0|];
        repeat match goal with
               | |- context [if ?c then Some x else None] => destruct c
               end;
        match goal with
        | |- context [AIWeatherService.find_today R now items ?m' ?e'] =>
            destruct (IH m' e') as [Hm He]
        end;
        (split; intros H; [apply Hm in H | apply He in H];
         destruct H as [H | H]; try discriminate; try (injection H as ->); auto).
Qed.

(** When the operation returns, both fetches succeeded and every slot of the
    result was built from the condition text of its data. *)
Lemma get_clothing_recommendations_returns (city : string) (w : world)
    (r : recommendations) :
  fst (AIWeatherService.get_clothing_recommendations R api_key city w) = Return r ->
  exists (current_data : current_json) (forecast_data : forecast_json) (wind : Q),
    weather_api R (w_tick w) api_key city = Return current_data
    /\ forecast_api R (S (w_tick w)) api_key city = Return forecast_data
    /\ r_current r
       = AIWeatherService.slot_for "Now" (temp (cur_main current_data))
           (Str.lower (w_main (cur_weather current_data))) wind
    /\ (forall s, r_morning r = Some s ->
          exists item, In item (fc_list forecast_data)
                       /\ s = AIWeatherService.later_slot "Morning" item)
    /\ (forall s, r_evening r = Some s ->
          exists item, In item (fc_list forecast_data)
                       /\ s = AIWeatherService.later_slot "Evening" item).
Proof.
  intros H.
  destruct (AIWeatherService.get_clothing_recommendations R api_key city w)
    as [r' w'] eqn:Hrun.
  cbn in H. subst r'.
  unfold AIWeatherService.get_clothing_recommendations in Hrun.
  apply try_except_Return_inv in Hrun as [Hrun | (e & w1 & _ & Hrun)];
    [| now apply log_then_raise_never_returns in Hrun].
  apply bind_Return_inv in Hrun as (current_data & w1 & Hc & Hrun).
  apply bind_Return_inv in Hrun as (forecast_data & w2 & Hf & Hrun).
  apply bind_Return_inv in Hrun as (wind & w3 & Hw & Hrun).
  apply bind_Return_inv in Hrun as (now & w4 & Hnow & Hrun).
  unfold Requests.get_weather in Hc.
  apply bind_Return_inv in Hc as ([] & w0a & Hrec & Hc).
  apply bind_Return_inv in Hc as (t & w0b & Htick & Hc).
  apply lift_Return_inv in Hc as [Hc ->].
  unfold record in Hrec. injection Hrec as <-.
  unfold next_tick in Htick. cbn in Htick. injection Htick as <- <-.
  unfold Requests.get_forecast in Hf.
  apply bind_Return_inv in Hf as ([] & w1a & Hrec & Hf).
  apply bind_Return_inv in Hf as (t & w1b & Htick & Hf).
  apply lift_Return_inv in Hf as [Hf ->].
  unfold record in Hrec. injection Hrec as <-.
  unfold next_tick in Htick. cbn in Htick. injection Htick as <- <-.
  unfold ret in Hrun. injection Hrun as <- _.
  exists current_data, forecast_data, wind. cbn.
  repeat split; trivial.
  - intros s Hs.
    destruct (fst (AIWeatherService.find_today R now (fc_list forecast_data) None None))
      as [item|] eqn:Hfind; [|discriminate].
    destruct (dt_hour now <? 12)%Z; [|discriminate].
    injection Hs as <-. exists item. split; [|reflexivity].
    apply find_today_from_items in Hfind as [Hfind | Hfind]; [discriminate | exact Hfind].
  - intros s Hs.
    destruct (snd (AIWeatherService.find_today R now (fc_list forecast_data) None None))
      as [item|] eqn:Hfind; [|discriminate].
    destruct (dt_hour now <? 18)%Z; [|discriminate].
    injection Hs as <-. exists item. split; [|reflexivity].
    apply find_today_from_items in Hfind as [Hfind | Hfind]; [discriminate | exact Hfind].
Qed.

End ClothingFacts.

Section ClothingSlots.

Variable R : runtime.
Variable api_key : string.

Local Open Scope Q_scope.

(** C8, as amended.  In the recommendation for any slot, at a temperature of
    32 with a condition text that contains "clear": the top is the loose,
    light cotton one when the text contains none of "rain", "drizzle", "snow"
    and "cloud", which the code tests first; the accessories include the
    sunglasses, the sunscreen and the water bottle.  And every slot of a
    returned recommendation (now, morning, evening) has its umbrella flag
    set exactly when its condition text contains "rain" or "drizzle". *)
Theorem clear_32_outfit_and_umbrella (city : string) (w : world)
    (label : string) (t : Q) (wc : string) (wind : Q) :
  t == 32 -> Str.contains "clear" wc = true ->
  (Str.contains "rain" wc = false -> Str.contains "drizzle" wc = false ->
   Str.contains "snow" wc = false -> Str.contains "cloud" wc = false ->
   top (AIWeatherService.slot_for label t wc wind)
   = "Loose, light cotton t-shirt or linen shirt")
  /\ In "UV-protective sunglasses" (accessories (AIWeatherService.slot_for label t wc wind))
  /\ In "SPF 30+ sunscreen" (accessories (AIWeatherService.slot_for label t wc wind))
  /\ In "Water bottle to stay hydrated"
       (accessories (AIWeatherService.slot_for label t wc wind))
  /\ (forall label' t' wc' wind',
        rainy wc' = true ->
        umbrella (AIWeatherService.slot_for label' t' wc' wind') = true)
  /\ (forall r,
        fst (AIWeatherService.get_clothing_recommendations R api_key city w) = Return r ->
        exists current_data forecast_data,
          weather_api R (w_tick w) api_key city = Return current_data
          /\ forecast_api R (S (w_tick w)) api_key city = Return forecast_data
          /\ umbrella (r_current r) = rainy (Str.lower (w_main (cur_weather current_data)))
          /\ forall s,
               r_morning r = Some s \/ r_evening r = Some s ->
               exists item,
                 In item (fc_list forecast_data)
                 /\ umbrella s = rainy (Str.lower (w_main (fi_weather item)))).
Proof.
  intros Ht Hclear.
  destruct (recommend_accessories_clear_32 t wc wind Ht Hclear) as (Hsun & Hspf & Hbottle).
  repeat split; trivial.
  - now apply recommend_top_clear_32.
  - intros r Hr.
    apply get_clothing_recommendations_returns in Hr
      as (current_data & forecast_data & wind0 & Hc & Hf & Hnow & Hmorning & Hevening).
    exists current_data, forecast_data. repeat split; trivial.
    + now rewrite Hnow.
    + intros s [Hs | Hs]; [apply Hmorning in Hs | apply Hevening in Hs];
        destruct Hs as (item & Hin & ->); exists item; split; trivial.
Qed.

End ClothingSlots.

(** A condition text with both "clear" and "rain" at 32 degrees: the rain
    branch is tested first and gives the waterproof jacket. *)
Lemma clear_with_rain_gets_waterproof_top :
  Str.contains "clear" "clear after rain" = true
  /\ AIWeatherService._recommend_top 32 "clear after rain"
     = "Light waterproof jacket with a breathable t-shirt"
  /\ AIWeatherService._recommend_top 32 "clear after rain"
     <> "Loose, light cotton t-shirt or linen shirt".
Proof. repeat split. discriminate. Qed.

Lemma clear_32_outfit_and_umbrella_witness :
  top (AIWeatherService.slot_for "Now" 32 "clear" 3)
  = "Loose, light cotton t-shirt or linen shirt"
  /\ In "UV-protective sunglasses" (accessories (AIWeatherService.slot_for "Now" 32 "clear" 3))
  /\ umbrella (AIWeatherService.slot_for "Evening" 21 "rain" 12) = true
  /\ exists r,
       fst (AIWeatherService.get_clothing_recommendations Sample.sunny Sample.api_key
              "Paris" Sample.world0) = Return r
       /\ umbrella (r_current r) = false.
Proof.
  destruct (clear_32_outfit_and_umbrella Sample.sunny Sample.api_key "Paris" Sample.world0
              "Now" 32 "clear" 3)
    as (Htop & Hsun & _ & _ & Humbrella & Hrun).
  - reflexivity.
  - reflexivity.
  - split; [apply Htop; reflexivity |].
    split; [exact Hsun |].
    split; [apply Humbrella; reflexivity |].
    eexists. split; [vm_compute; reflexivity | reflexivity].
Defined.

(** ** The handlers *)

Section HandlerFacts.

Variable R : runtime.
Variable api_key : string.




End HandlerFacts.



(** ** Falsy cached values *)

Section FalsyCache.

Variable R : runtime.
Variable api_key : string.

Ltac run_monad :=
  unfold WeatherService.get_current_weather, WeatherService.get_forecast,
    WeatherService.on_request_failure, WeatherService.wind_of,
    Requests.get_weather, Requests.get_forecast, Requests.lift,
    CacheService.get, CacheService.set, CacheService.time_time,
    try_except, bind, logger, record, next_tick, read_cache, read_expiry,
    write_cache, ret, raise;
  cbn [fst snd w_cache w_expiry w_models w_trace w_tick cw_speed cw_deg].

Lemma organize_by_day_pure (items : list forecast_item)
    (days : list (string * list forecast_entry)) (w : world) :
  snd (WeatherService.organize_by_day items days w) = w.
Proof.
  revert days. induction items as [|item items IH]; intros days; cbn.
  - reflexivity.
  - destruct (Str.split_space (fi_dt_txt item)) as [|date [|time rest]];
      try reflexivity.
    apply IH.
Qed.

Lemma falsy_is_not_a_payload (v : pyval) :
  truthy v = false ->
  (forall c, v <> PyCurrent c) /\ (forall f, v <> PyForecast f).
Proof. intros H. split; intros x ->; discriminate. Qed.

Lemma falsy_current_weather_refetched (city : string) (w : world) (v : pyval) (ts : Q) :
  truthy v = false ->
  (CacheService.seconds_at R (w_tick w) - ts < w_expiry w)%Q ->
  w_cache w !! ("current_weather_" +:+ city) = Some (v, ts) ->
  fetched_instead_of Weather city v w
    (WeatherService.get_current_weather R api_key city w).
Proof.
  intros Hv Hage Hk. apply Num_lt_true in Hage.
  destruct (falsy_is_not_a_payload v Hv) as [Hcur _].
  unfold fetched_instead_of. run_monad.
  rewrite Hk. run_monad. rewrite Hage.
  run_monad. rewrite Hv. run_monad.
  destruct (weather_api R (S (w_tick w)) api_key city) as [data | [msg [text|] | msg]];
    run_monad;
    [destruct (cur_wind data) as [[[s|] [d|]]|]; run_monad | | |];
    (split; [first [discriminate | intros [= <-]; now eapply Hcur] |]);
    eexists; (split; [rewrite <- !app_assoc; reflexivity |]);
    cbn; tauto.
Qed.

Lemma falsy_forecast_refetched (city : string) (w : world) (v : pyval) (ts : Q) :
  truthy v = false ->
  (CacheService.seconds_at R (w_tick w) - ts < w_expiry w)%Q ->
  w_cache w !! ("forecast_" +:+ city) = Some (v, ts) ->
  fetched_instead_of Forecast city v w
    (WeatherService.get_forecast R api_key city w).
Proof.
  intros Hv Hage Hk. apply Num_lt_true in Hage.
  destruct (falsy_is_not_a_payload v Hv) as [_ Hfc].
  unfold fetched_instead_of. run_monad.
  rewrite Hk. run_monad. rewrite Hage.
  run_monad. rewrite Hv. run_monad.
  destruct (forecast_api R (S (w_tick w)) api_key city) as [data | [msg [text|] | msg]];
    run_monad;
    [match goal with
     | |- context [WeatherService.organize_by_day ?items ?days ?w0] =>
         pose proof (organize_by_day_pure items days w0) as Hpure;
         destruct (WeatherService.organize_by_day items days w0) as [[days'|e] w2];
         cbn [snd] in Hpure; subst w2; [|destruct e as [msg [text|] | msg]]
     end; run_monad | | |];
    (split; [first [discriminate | intros [= <-]; now eapply Hfc] |]);
    eexists; (split; [rewrite <- !app_assoc; reflexivity |]);
    cbn; tauto.
Qed.

(** C10.  [CacheService.get] returns [None] for an absent key and for a
    stored [None] alike; and for every falsy value held, unexpired, under
    the key of the operation ([None], the empty dict, the empty list, 0 and
    the empty string are falsy), [get_current_weather] and [get_forecast]
    call the provider and do not return the cached value. *)
Theorem falsy_cached_value_is_a_miss (city : string) (w : world) (v : pyval) (ts : Q) :
  truthy v = false ->
  (CacheService.seconds_at R (w_tick w) - ts < w_expiry w)%Q ->
  (w_cache w !! ("current_weather_" +:+ city) = Some (v, ts) ->
   fetched_instead_of Weather city v w
     (WeatherService.get_current_weather R api_key city w))
  /\ (w_cache w !! ("forecast_" +:+ city) = Some (v, ts) ->
      fetched_instead_of Forecast city v w
        (WeatherService.get_forecast R api_key city w))
  /\ (forall k, w_cache w !! k = None -> fst (CacheService.get R k w) = Return PyNone)
  /\ (forall k ts', w_cache w !! k = Some (PyNone, ts') ->
        fst (CacheService.get R k w) = Return PyNone)
  /\ truthy PyNone = false
  /\ truthy (PyDict []) = false
  /\ truthy (PyList []) = false
  /\ truthy (PyNum 0) = false
  /\ truthy (PyStr EmptyString) = false.
Proof.
  intros Hv Hage.
  split; [|split; [|split; [|split; [|repeat split]]]].
  - now apply falsy_current_weather_refetched.
  - now apply falsy_forecast_refetched.
  - intros k Hk. now apply cache_get_absent.
  - intros k ts' Hk.
    destruct (Qlt_le_dec (CacheService.seconds_at R (w_tick w) - ts') (w_expiry w))
      as [Hfresh | Hold].
    + now apply (cache_get_fresh R w k PyNone ts').
    + now apply (cache_get_expired R w k PyNone ts').
Qed.

End FalsyCache.

Lemma falsy_cached_value_is_a_miss_witness :
  fetched_instead_of Weather "Paris" (PyDict []) Sample.world_with_empty_dict
    (WeatherService.get_current_weather Sample.sunny Sample.api_key "Paris"
       Sample.world_with_empty_dict).
Proof.
  apply (falsy_cached_value_is_a_miss Sample.sunny Sample.api_key "Paris"
           Sample.world_with_empty_dict (PyDict []) 1717232340%Q).
  - reflexivity.
  - reflexivity.
  - reflexivity.
Defined.

Lemma cache_set_then_get_and_lazy_expiry_witness :
  fst ((CacheService.set Sample.sunny "forecast_Paris" (PyList []) ;;
        CacheService.get Sample.sunny "forecast_Paris") Sample.world0)
  = Return (PyList [])
  /\ fst (CacheService.get Sample.sunny "forecast_Paris" Sample.world_with_stale_entry)
     = Return PyNone
  /\ w_cache (snd (CacheService.get Sample.sunny "forecast_Paris"
                     Sample.world_with_stale_entry)) !! "forecast_Paris" = None.
Proof.
  split.
  - apply (cache_set_then_get_and_lazy_expiry Sample.sunny Sample.world0
             "forecast_Paris" (PyList [])).
    reflexivity.
  - destruct (cache_set_then_get_and_lazy_expiry Sample.sunny
                Sample.world_with_stale_entry "forecast_Paris" (PyStr "old"))
      as [_ Hexpired].
    destruct (Hexpired 1717231000%Q) as (Hnone & _ & Hgone).
    + reflexivity.
    + discriminate.
    + split; [exact Hnone | exact Hgone].
Defined.

(** ** Redaction of the API key *)

(** C1 fails on the code.  The provider rejects the request with a message
    that quotes the request URL, key included.  The three operations of the
    AI service pass [str(e)] on as it is: the key is in the ["error"] field
    of the 500 response and in the ERROR log records.  The two operations of
    the weather client replace it first, and nothing they surface has the
    key. *)
Theorem ai_service_failure_leaks_api_key :
  leaks Sample.api_key
    (App.get_enhanced_forecast Sample.rejecting Sample.api_key Sample.paris_request
       Sample.world0) = true
  /\ leaks Sample.api_key
       (App.get_personalized_alerts Sample.rejecting Sample.api_key
          Sample.paris_alerts_request Sample.world0) = true
  /\ leaks Sample.api_key
       (App.get_clothing_recommendations Sample.rejecting Sample.api_key
          Sample.paris_request Sample.world0) = true
  /\ leaks Sample.api_key
       (App.get_current_weather Sample.rejecting Sample.api_key Sample.paris_request
          Sample.world0) = false
  /\ leaks Sample.api_key
       (App.get_forecast Sample.rejecting Sample.api_key Sample.paris_request
          Sample.world0) = false.
Proof. repeat split; vm_compute; reflexivity. Qed.

(** The response of the enhanced-forecast endpoint at that input. *)
Example enhanced_forecast_error_body :
  fst (App.get_enhanced_forecast Sample.rejecting Sample.api_key Sample.paris_request
         Sample.world0)
  = Return
      {| App.body :=
           App.JError
             ("Failed to fetch enhanced forecast: 401 Client Error: Unauthorized for url: "
              +:+ "https://api.openweathermap.org/data/2.5/forecast?q=Paris&appid="
              +:+ Sample.api_key +:+ "&units=metric");
         App.status := 500 |}.
Proof. vm_compute. reflexivity. Qed.

(** The weather client, in general: what its failure handler raises and logs
    has no occurrence of a redactable key. *)

Section RedactionFacts.

Variable key : string.
Variable k0 : ascii.
Variable krest : string.
Hypothesis key_shape : key = String k0 krest.

Lemma prefix_nil_r (k : string) : String.prefix k EmptyString = true -> k = EmptyString.
Proof. destruct k; [reflexivity | discriminate]. Qed.

Lemma contains_key_empty : Str.contains key EmptyString = false.
Proof. rewrite key_shape. reflexivity. Qed.

(** A character that is not in [k] cuts every match of [k]. *)
Lemma prefix_app_sep (c : ascii) (a b k : string) :
  Str.has_char c k = false ->
  String.prefix k (a +:+ String c b) = String.prefix k a.
Proof.
  revert k. induction a as [|x a IH]; intros k Hc.
  - destruct k as [|y k]; [reflexivity |].
    simpl in *. apply orb_false_iff in Hc as [Hy _].
    destruct (ascii_dec y c) as [-> | _]; [|reflexivity].
    now rewrite Ascii.eqb_refl in Hy.
  - destruct k as [|y k]; [reflexivity |].
    simpl in *. apply orb_false_iff in Hc as [_ Hk].
    destruct (ascii_dec y x); [now apply IH | reflexivity].
Qed.

Lemma contains_app_sep (c : ascii) (a b : string) :
  Str.has_char c key = false ->
  Str.contains key (a +:+ String c b) = Str.contains key a || Str.contains key b.
Proof.
  intros Hc. induction a as [|x a IH].
  - change (EmptyString +:+ String c b) with (String c b).
    rewrite contains_key_empty. cbn [orb].
    change (Str.contains key (String c b))
      with (String.prefix key (String c b) || Str.contains key b).
    change (String c b) with (EmptyString +:+ String c b) at 1.
    rewrite (prefix_app_sep c EmptyString b key Hc).
    now rewrite key_shape.
  - change (Str.contains key (String x a +:+ String c b))
      with (String.prefix key (String x a +:+ String c b)
            || Str.contains key (a +:+ String c b)).
    change (Str.contains key (String x a))
      with (String.prefix key (String x a) || Str.contains key a).
    rewrite IH, (prefix_app_sep c (String x a) b key Hc).
    now rewrite orb_assoc.
Qed.

(** No match starts inside a text that lacks the first character of the
    key. *)
Lemma contains_app_fresh (new r : string) :
  Str.has_char k0 new = false ->
  Str.contains key (new +:+ r) = Str.contains key r.
Proof.
  induction new as [|x new IH]; intros Hnew; [reflexivity |].
  cbn in Hnew. apply orb_false_iff in Hnew as [Hx Hnew].
  change (Str.contains key (String x new +:+ r))
    with (String.prefix key (String x (new +:+ r)) || Str.contains key (new +:+ r)).
  rewrite IH by exact Hnew.
  rewrite key_shape at 1. simpl.
  destruct (ascii_dec k0 x) as [-> | _]; [|reflexivity].
  now rewrite Ascii.eqb_refl in Hx.
Qed.

Variable m0 : ascii.
Variable mrest : string.

(** A string without the marker's first character that starts the replaced
    text also starts the original one. *)
Lemma prefix_replace_inv (s k : string) :
  Str.has_char m0 k = false ->
  String.prefix k (Str.replace_from key (String m0 mrest) 0 s) = true ->
  String.prefix k s = true.
Proof.
  revert k. induction s as [|c s IH]; intros k Hk Hp.
  - exact Hp.
  - destruct k as [|y k]; [reflexivity |].
    cbn in Hk. apply orb_false_iff in Hk as [Hy Hk].
    cbn [Str.replace_from] in Hp.
    destruct (String.prefix key (String c s)).
    + simpl in Hp. destruct (ascii_dec y m0) as [-> | _]; [|discriminate].
      now rewrite Ascii.eqb_refl in Hy.
    + simpl in Hp |- *. destruct (ascii_dec y c); [now apply IH | discriminate].
Qed.

Hypothesis first_not_in_marker : Str.has_char k0 (String m0 mrest) = false.
Hypothesis marker_not_in_key : Str.has_char m0 key = false.

Lemma replace_from_clean (s : string) (skip : nat) :
  Str.contains key (Str.replace_from key (String m0 mrest) skip s) = false.
Proof.
  revert skip. induction s as [|c s IH]; intros skip.
  - cbn. apply contains_key_empty.
  - destruct skip as [|skip]; cbn [Str.replace_from]; [|apply IH].
    destruct (String.prefix key (String c s)) eqn:Hp.
    + rewrite contains_app_fresh by exact first_not_in_marker. apply IH.
    + change (Str.contains key (String c (Str.replace_from key (String m0 mrest) 0 s)))
        with (String.prefix key (String c (Str.replace_from key (String m0 mrest) 0 s))
              || Str.contains key (Str.replace_from key (String m0 mrest) 0 s)).
      rewrite IH, orb_false_r.
      destruct (String.prefix key (String c (Str.replace_from key (String m0 mrest) 0 s)))
        eqn:Hp'; [|reflexivity].
      exfalso.
      assert (Hs : String.prefix key (String c s) = true); [|congruence].
      rewrite key_shape. rewrite key_shape in Hp' at 1.
      simpl in Hp' |- *.
      destruct (ascii_dec k0 c); [|discriminate].
      apply prefix_replace_inv; [|exact Hp'].
      rewrite key_shape in marker_not_in_key. simpl in marker_not_in_key.
      now apply orb_false_iff in marker_not_in_key as [_ H].
Qed.

End RedactionFacts.

Section WeatherClientRedaction.

Variable key : string.
Hypothesis key_ok : redactable key = true.

Lemma redactable_inv :
  exists k0 krest,
    key = String k0 krest
    /\ Str.has_char k0 "[REDACTED]" = false
    /\ Str.has_char "["%char key = false
    /\ Str.has_char " "%char key = false
    /\ forallb (fun word => negb (Str.contains key word)) message_words = true.
Proof.
  unfold redactable in key_ok. destruct key as [|k0 krest]; [discriminate |].
  apply andb_true_iff in key_ok as [H Hwords].
  apply andb_true_iff in H as [H Hspace].
  apply andb_true_iff in H as [Hfirst Hbracket].
  apply negb_true_iff in Hfirst, Hbracket, Hspace.
  exists k0, krest. auto.
Qed.

Lemma redact_clean (text : string) :
  Str.contains key (WeatherService.redact key text) = false.
Proof.
  destruct redactable_inv as (k0 & krest & Hshape & Hfirst & Hbracket & _).
  unfold WeatherService.redact.
  destruct (Str.contains key text) eqn:Hc; [|exact Hc].
  replace (Str.replace key "[REDACTED]" text)
    with (Str.replace_from key "[REDACTED]" 0 text)
    by (unfold Str.replace; now rewrite Hshape).
  now apply (replace_from_clean key k0 krest Hshape "["%char "REDACTED]").
Qed.

Lemma word_clean (word : string) :
  In word message_words -> Str.contains key word = false.
Proof.
  destruct redactable_inv as (_ & _ & _ & _ & _ & _ & Hwords).
  rewrite forallb_forall in Hwords. intros Hin.
  apply negb_true_iff. now apply Hwords.
Qed.

Lemma around_clean (text : string) :
  Str.contains key text = false ->
  Str.contains key ("Error fetching current weather data: " +:+ text) = false
  /\ Str.contains key ("Error fetching forecast data: " +:+ text) = false
  /\ Str.contains key ("Failed to fetch current weather data: " +:+ text) = false
  /\ Str.contains key ("Failed to fetch forecast data: " +:+ text) = false
  /\ Str.contains key ("Response content: " +:+ text) = false.
Proof.
  intros Htext.
  destruct redactable_inv as (k0 & krest & Hshape & _ & _ & Hspace & _).
  pose proof (contains_app_sep key k0 krest Hshape " "%char) as Hsep.
  assert (Hw : forall word, In word message_words -> Str.contains key word = false)
    by apply word_clean.
  repeat split.
  - change ("Error fetching current weather data: " +:+ text)
      with ("Error" +:+ String " " ("fetching" +:+ String " " ("current" +:+ String " "
              ("weather" +:+ String " " ("data:" +:+ String " " text))))).
    rewrite !Hsep, Htext, !Hw by (exact Hspace || (cbn; tauto)). reflexivity.
  - change ("Error fetching forecast data: " +:+ text)
      with ("Error" +:+ String " " ("fetching" +:+ String " " ("forecast" +:+ String " "
              ("data:" +:+ String " " text)))).
    rewrite !Hsep, Htext, !Hw by (exact Hspace || (cbn; tauto)). reflexivity.
  - change ("Failed to fetch current weather data: " +:+ text)
      with ("Failed" +:+ String " " ("to" +:+ String " " ("fetch" +:+ String " "
              ("current" +:+ String " " ("weather" +:+ String " "
                 ("data:" +:+ String " " text)))))).
    rewrite !Hsep, Htext, !Hw by (exact Hspace || (cbn; tauto)). reflexivity.
  - change ("Failed to fetch forecast data: " +:+ text)
      with ("Failed" +:+ String " " ("to" +:+ String " " ("fetch" +:+ String " "
              ("forecast" +:+ String " " ("data:" +:+ String " " text))))).
    rewrite !Hsep, Htext, !Hw by (exact Hspace || (cbn; tauto)). reflexivity.
  - change ("Response content: " +:+ text)
      with ("Response" +:+ String " " ("content:" +:+ String " " text)).
    rewrite !Hsep, Htext, !Hw by (exact Hspace || (cbn; tauto)). reflexivity.
Qed.

(** The handler of the weather client at any request failure: the message
    of the exception it raises and every record it logs are free of the
    key. *)
Lemma weather_client_failure_redacted (what msg : string) (response : option string)
    (w : world) :
  what = "current weather data" \/ what = "forecast data" ->
  exists m logged,
    fst (WeatherService.on_request_failure (A := pyval) key what
           (RequestException msg response) w) = Raise (Exception m)
    /\ w_trace (snd (WeatherService.on_request_failure (A := pyval) key what
                       (RequestException msg response) w)) = w_trace w ++ logged
    /\ Str.contains key m = false
    /\ Forall (fun ev => forall text, emitted ev = Some text ->
                         Str.contains key text = false) logged.
Proof.
  intros Hwhat.
  destruct (around_clean _ (redact_clean msg)) as (Hec & Hef & Hfc & Hff & _).
  assert (Hresp : forall text,
    Str.contains key ("Response content: " +:+ WeatherService.redact key text) = false).
  { intros text. now destruct (around_clean _ (redact_clean text)) as (_ & _ & _ & _ & H). }
  unfold WeatherService.on_request_failure, bind, logger, record, raise, ret.
  destruct Hwhat as [-> | ->], response as [text|];
    cbn [fst snd w_trace]; eexists; eexists;
    (split; [reflexivity |]);
    (split; [rewrite <- ?app_assoc; reflexivity |]);
    (split; [first [exact Hfc | exact Hff] |]);
    repeat (constructor; [intros t [= <-]; first [exact Hec | exact Hef | apply Hresp] |]);
    constructor.
Qed.

End WeatherClientRedaction.

Example sample_key_is_redactable : redactable Sample.api_key = true.
Proof. reflexivity. Qed.

(** * Further properties *)

(** ** More on the cache *)

Section CacheMore.

Variable R : runtime.

Ltac run_cache :=
  unfold CacheService.get, CacheService.set, CacheService.delete, CacheService.clear,
    CacheService.time_time, bind, logger, record, next_tick, read_cache, read_expiry,
    write_cache, ret;
  cbn [fst snd w_cache w_expiry w_models w_trace w_tick].

Lemma cache_get_other (w : world) (k k' : string) :
  k <> k' -> w_cache (snd (CacheService.get R k w)) !! k' = w_cache w !! k'.
Proof.
  intros Hne. run_cache.
  destruct (w_cache w !! k) as [[v ts]|]; run_cache; [|reflexivity].
  destruct (Num.lt _ _); run_cache; [reflexivity |].
  now apply lookup_delete_ne.
Qed.

Lemma cache_set_other (w : world) (k k' : string) (v : pyval) :
  k <> k' -> w_cache (snd (CacheService.set R k v w)) !! k' = w_cache w !! k'.
Proof. intros Hne. run_cache. now apply lookup_insert_ne. Qed.

Lemma cache_delete_state (w : world) (k : string) :
  fst (CacheService.delete k w) = Return (bool_decide (is_Some (w_cache w !! k)))
  /\ w_cache (snd (CacheService.delete k w)) = delete k (w_cache w)
  /\ w_tick (snd (CacheService.delete k w)) = w_tick w
  /\ w_expiry (snd (CacheService.delete k w)) = w_expiry w.
Proof.
  run_cache. destruct (w_cache w !! k) as [x|] eqn:Hk; run_cache.
  - split; [|repeat split]. rewrite bool_decide_eq_true_2; [reflexivity | eauto].
  - split; [|split; [|split; reflexivity]].
    + rewrite bool_decide_eq_false_2; [reflexivity |]. intros [x Hx]. discriminate.
    + symmetry. now apply delete_id.
Qed.

(** X1.  A key other than the one operated on is never affected: after
    [get], [set] or [delete] on [k], the entry of every other key, value and
    time of storage, is what it was. *)
Theorem cache_operations_leave_other_keys (w : world) (k k' : string) (v : pyval) :
  k <> k' ->
  w_cache (snd (CacheService.get R k w)) !! k' = w_cache w !! k'
  /\ w_cache (snd (CacheService.set R k v w)) !! k' = w_cache w !! k'
  /\ w_cache (snd (CacheService.delete k w)) !! k' = w_cache w !! k'.
Proof.
  intros Hne. repeat split.
  - now apply cache_get_other.
  - now apply cache_set_other.
  - destruct (cache_delete_state w k) as (_ & -> & _). now apply lookup_delete_ne.
Qed.

(** X2.  [set] overwrites: after two [set]s on the same key a [get] made
    before the second one expires returns the second value, whatever was
    stored before. *)
Theorem cache_set_overwrites (w : world) (k : string) (v1 v2 : pyval) :
  (CacheService.seconds_at R (S (S (w_tick w))) - CacheService.seconds_at R (S (w_tick w))
   < w_expiry w)%Q ->
  fst ((CacheService.set R k v1 ;; CacheService.set R k v2 ;; CacheService.get R k) w)
  = Return v2.
Proof.
  intros Hage.
  unfold bind at 1.
  destruct (cache_set_state R w k v1) as (Hr1 & Hc1 & He1 & Ht1).
  destruct (CacheService.set R k v1 w) as [r1 w1]; cbn [fst snd] in *. subst r1.
  unfold bind at 1.
  destruct (cache_set_state R w1 k v2) as (Hr2 & Hc2 & He2 & Ht2).
  destruct (CacheService.set R k v2 w1) as [r2 w2]; cbn [fst snd] in *. subst r2.
  apply (cache_get_fresh R w2 k v2 (CacheService.seconds_at R (w_tick w1))).
  - rewrite Hc2. apply lookup_insert_eq.
  - now rewrite Ht2, He2, Ht1, He1.
Qed.

(** X3.  [delete] answers whether the key was there and leaves the cache
    without it, an absent key leaving the cache as it was; after [delete], and
    after [clear] for every key, [get] returns [None] without reading the
    clock. *)
Theorem cache_delete_and_clear (w : world) (k : string) :
  fst (CacheService.delete k w) = Return (bool_decide (is_Some (w_cache w !! k)))
  /\ w_cache (snd (CacheService.delete k w)) = delete k (w_cache w)
  /\ (w_cache w !! k = None -> w_cache (snd (CacheService.delete k w)) = w_cache w)
  /\ fst ((CacheService.delete k ;; CacheService.get R k) w) = Return PyNone
  /\ w_tick (snd ((CacheService.delete k ;; CacheService.get R k) w)) = w_tick w
  /\ fst ((CacheService.clear ;; CacheService.get R k) w) = Return PyNone
  /\ w_tick (snd ((CacheService.clear ;; CacheService.get R k) w)) = w_tick w
  /\ w_cache (snd (CacheService.clear w)) = ∅.
Proof.
  destruct (cache_delete_state w k) as (Hr & Hc & Ht & He).
  split; [exact Hr |]. split; [exact Hc |].
  split; [intros Hk; rewrite Hc; now apply delete_id |].
  assert (Hafter : forall w', w_cache w' !! k = None ->
    fst (CacheService.get R k w') = Return PyNone
    /\ w_tick (snd (CacheService.get R k w')) = w_tick w').
  { intros w' Hk. run_cache. rewrite Hk. run_cache. auto. }
  split; [|split; [|split; [|split]]].
  - unfold bind at 1.
    destruct (CacheService.delete k w) as [r w1]; cbn [fst snd] in *.
    rewrite Hr. apply Hafter. rewrite Hc. apply lookup_delete_eq.
  - unfold bind at 1.
    destruct (CacheService.delete k w) as [r w1]; cbn [fst snd] in *.
    rewrite Hr. rewrite <- Ht. apply Hafter. rewrite Hc. apply lookup_delete_eq.
  - change ((CacheService.clear ;; CacheService.get R k) w)
      with (CacheService.get R k (snd (CacheService.clear w))).
    now destruct (Hafter (snd (CacheService.clear w)) (lookup_empty k)).
  - change ((CacheService.clear ;; CacheService.get R k) w)
      with (CacheService.get R k (snd (CacheService.clear w))).
    now destruct (Hafter (snd (CacheService.clear w)) (lookup_empty k)).
  - reflexivity.
Qed.

End CacheMore.

Section CacheCleanup.

Variable R : runtime.

Lemma lookup_foldr_delete_in (m : gmap string (pyval * Q)) (ks : list string) (k : string) :
  In k ks -> foldr delete m ks !! k = None.
Proof.
  induction ks as [|x ks IH]; intros Hin; [destruct Hin |].
  cbn. destruct (decide (x = k)) as [-> | Hne].
  - apply lookup_delete_eq.
  - rewrite lookup_delete_ne by exact Hne. destruct Hin; [contradiction | auto].
Qed.

Lemma lookup_foldr_delete_notin (m : gmap string (pyval * Q)) (ks : list string)
    (k : string) :
  ~ In k ks -> foldr delete m ks !! k = m !! k.
Proof.
  induction ks as [|x ks IH]; intros Hin; [reflexivity |].
  cbn. rewrite lookup_delete_ne by (intros ->; apply Hin; now left).
  apply IH. intros H. apply Hin. now right.
Qed.

Lemma lookup_foldr_delete_Some (m : gmap string (pyval * Q)) (ks : list string)
    (k : string) (x : pyval * Q) :
  foldr delete m ks !! k = Some x -> m !! k = Some x.
Proof.
  induction ks as [|y ks IH]; [auto |].
  cbn. destruct (decide (y = k)) as [-> | Hne].
  - now rewrite lookup_delete_eq.
  - rewrite lookup_delete_ne by exact Hne. exact IH.
Qed.

(** The first loop: one reading per entry; a key is listed only if some
    reading found its entry expired, and it is listed if every reading
    does. *)
Lemma expired_scan (expiry lo hi : Q) (l : list (string * (pyval * Q))) (w : world) :
  (forall i, (i < length l)%nat ->
     (lo <= CacheService.seconds_at R (w_tick w + i) <= hi)%Q) ->
  exists out,
    for_each (CacheService.expired_key R expiry) l w
    = (Return out, after_readings (length l) w)
    /\ (forall k, In k (concat out) ->
          exists v ts, In (k, (v, ts)) l /\ (expiry <= hi - ts)%Q)
    /\ (forall k v ts, In (k, (v, ts)) l -> (expiry <= lo - ts)%Q -> In k (concat out)).
Proof.
  revert w. induction l as [|[k0 [v0 ts0]] l IH]; intros w Hclock.
  - exists []. repeat split.
    + cbn. unfold ret, after_readings. do 2 f_equal.
      destruct w; cbn; f_equal; lia.
    + intros k [].
    + intros k v ts [].
  - destruct (IH (after_readings 1 w)) as (out & Hrun & Hsome & Hall).
    { intros i Hi. cbn. replace (w_tick w + 1 + i)%nat with (w_tick w + S i)%nat by lia.
      apply Hclock. cbn. lia. }
    assert (H0 : (lo <= CacheService.seconds_at R (w_tick w) <= hi)%Q).
    { replace (w_tick w) with (w_tick w + 0)%nat by lia. apply Hclock. cbn. lia. }
    set (here := if Num.ge (CacheService.seconds_at R (w_tick w) - ts0) expiry
                 then [k0] else []).
    exists (here :: out). repeat split.
    + cbn [for_each]. unfold bind at 1.
      assert (Hstep : CacheService.expired_key R expiry (k0, (v0, ts0)) w
                      = (Return here, after_readings 1 w)).
      { unfold CacheService.expired_key, CacheService.time_time, bind, next_tick, ret,
          after_readings; cbn.
        replace (w_tick w + 1)%nat with (S (w_tick w)) by lia. reflexivity. }
      rewrite Hstep. unfold bind at 1. rewrite Hrun. unfold ret.
      now rewrite after_readings_add.
    + intros k Hk. cbn in Hk. apply in_app_or in Hk as [Hk | Hk].
      * subst here. destruct (Num.ge _ _) eqn:Hge; [|destruct Hk].
        destruct Hk as [<- | []]. exists v0, ts0. split; [now left |].
        apply Num_ge_true in Hge. destruct H0 as [_ Hhi].
        apply Qle_trans with (1 := Hge).
        apply Qplus_le_l with (z := ts0). ring_simplify. exact Hhi.
      * destruct (Hsome k Hk) as (v & ts & Hin & Hexp).
        exists v, ts. split; [now right | exact Hexp].
    + intros k v ts [Hin | Hin] Hexp; cbn; apply in_or_app.
      * injection Hin as -> -> ->. left. subst here.
        assert (Hge : Num.ge (CacheService.seconds_at R (w_tick w) - ts) expiry = true).
        { apply Num_ge_true. apply Qle_trans with (1 := Hexp).
          destruct H0 as [Hlo _].
          apply Qplus_le_l with (z := ts). ring_simplify. exact Hlo. }
        rewrite Hge. now left.
      * right. now apply (Hall k v ts).
Qed.

Lemma record_evictions_state (keys : list string) (w : world) :
  exists out w',
    for_each (fun key => record (CacheEvict key)) keys w = (Return out, w')
    /\ w_cache w' = w_cache w /\ w_expiry w' = w_expiry w /\ w_tick w' = w_tick w.
Proof.
  revert w. induction keys as [|k keys IH]; intros w.
  - eexists; eexists. cbn. unfold ret. repeat split.
  - cbn [for_each]. unfold bind at 1. unfold record at 1. cbv beta iota.
    unfold bind at 1.
    match goal with
    | |- context [for_each _ keys ?w1] =>
        destruct (IH w1) as (out & w' & Hrun & Hc & He & Ht)
    end.
    rewrite Hrun. unfold ret.
    eexists; eexists. split; [reflexivity |]. auto.
Qed.

(** X4.  [cleanup] with every clock reading of its loop between [lo] and
    [hi]: it returns, an entry that is not expired at [hi] is kept as it is,
    an entry that is expired at [lo] is removed, and nothing is added or
    changed.  With a clock that stands still during the loop these are
    exactly the expired entries. *)
Theorem cleanup_removes_the_expired_entries (w : world) (lo hi : Q) :
  (forall i, (i < size (w_cache w))%nat ->
     (lo <= CacheService.seconds_at R (w_tick w + i) <= hi)%Q) ->
  fst (CacheService.cleanup R w) = Return tt
  /\ (forall k v ts,
        w_cache w !! k = Some (v, ts) -> (hi - ts < w_expiry w)%Q ->
        w_cache (snd (CacheService.cleanup R w)) !! k = Some (v, ts))
  /\ (forall k v ts,
        w_cache w !! k = Some (v, ts) -> (w_expiry w <= lo - ts)%Q ->
        w_cache (snd (CacheService.cleanup R w)) !! k = None)
  /\ (forall k x,
        w_cache (snd (CacheService.cleanup R w)) !! k = Some x ->
        w_cache w !! k = Some x).
Proof.
  intros Hclock.
  destruct (expired_scan (w_expiry w) lo hi (map_to_list (w_cache w)) w)
    as (found & Hscan & Hsome & Hall).
  { intros i Hi. apply Hclock. now rewrite <- length_map_to_list. }
  assert (Hrun : exists u w',
    CacheService.cleanup R w = (Return u, w')
    /\ w_cache w' = foldr delete (w_cache w) (concat found)).
  { unfold CacheService.cleanup.
    unfold bind at 1. unfold read_cache at 1.
    unfold bind at 1. unfold read_expiry at 1.
    unfold bind at 1. rewrite Hscan.
    unfold bind at 1. unfold write_cache at 1. cbv beta iota.
    unfold bind at 1.
    match goal with
    | |- context [for_each _ (concat found) ?w1] =>
        destruct (record_evictions_state (concat found) w1)
          as (out & w2 & Hev & Hc & _ & _)
    end.
    rewrite Hev.
    unfold logger, record. eexists; eexists. split; [reflexivity |].
    cbn [w_cache]. rewrite Hc. reflexivity. }
  destruct Hrun as ([] & w' & Hrun & Hcache).
  rewrite Hrun. cbn [fst snd]. rewrite Hcache.
  split; [reflexivity |]. split; [|split].
  - intros k v ts Hk Hfresh.
    rewrite lookup_foldr_delete_notin; [exact Hk |].
    intros Hin. destruct (Hsome k Hin) as (v' & ts' & Hin' & Hexp).
    apply list_elem_of_In, elem_of_map_to_list in Hin'.
    rewrite Hk in Hin'. injection Hin' as <- <-.
    apply (Qlt_not_le _ _ Hfresh Hexp).
  - intros k v ts Hk Hexp.
    apply lookup_foldr_delete_in. apply (Hall k v ts); [|exact Hexp].
    apply list_elem_of_In, elem_of_map_to_list. exact Hk.
  - intros k x. apply lookup_foldr_delete_Some.
Qed.

End CacheCleanup.

Lemma cache_operations_leave_other_keys_witness :
  w_cache (snd (CacheService.get Sample.sunny "forecast_Paris"
                  Sample.world_with_two_entries)) !! "current_weather_Paris"
  = Some (PyDict [], 1717232340%Q)
  /\ w_cache (snd (CacheService.set Sample.sunny "forecast_Paris" PyNone
                     Sample.world_with_two_entries)) !! "current_weather_Paris"
     = Some (PyDict [], 1717232340%Q)
  /\ w_cache (snd (CacheService.delete "forecast_Paris"
                     Sample.world_with_two_entries)) !! "current_weather_Paris"
     = Some (PyDict [], 1717232340%Q).
Proof.
  apply (cache_operations_leave_other_keys Sample.sunny Sample.world_with_two_entries
           "forecast_Paris" "current_weather_Paris" PyNone).
  discriminate.
Defined.

Lemma cache_set_overwrites_witness :
  fst ((CacheService.set Sample.sunny "forecast_Paris" (PyNum 1) ;;
        CacheService.set Sample.sunny "forecast_Paris" (PyNum 2) ;;
        CacheService.get Sample.sunny "forecast_Paris") Sample.world_with_stale_entry)
  = Return (PyNum 2).
Proof.
  apply (cache_set_overwrites Sample.sunny Sample.world_with_stale_entry
           "forecast_Paris" (PyNum 1) (PyNum 2)).
  reflexivity.
Defined.

Lemma cleanup_removes_the_expired_entries_witness :
  w_cache (snd (CacheService.cleanup Sample.sunny Sample.world_with_two_entries))
    !! "current_weather_Paris" = Some (PyDict [], 1717232340%Q)
  /\ w_cache (snd (CacheService.cleanup Sample.sunny Sample.world_with_two_entries))
       !! "forecast_Paris" = None.
Proof.
  destruct (cleanup_removes_the_expired_entries Sample.sunny
              Sample.world_with_two_entries 1717232400%Q 1717232401%Q)
    as (_ & Hkept & Hgone & _).
  - intros [|[|i]] Hi.
    + split; discriminate.
    + split; discriminate.
    + exfalso. vm_compute in Hi. lia.
  - split.
    + apply Hkept; reflexivity.
    + apply (Hgone "forecast_Paris" (PyStr "old") 1717231000%Q); [reflexivity | discriminate].
Defined.

(** ** What a failed call leaves in the cache *)

Section StoresNothing.

Variable R : runtime.
Variable api_key : string.

Lemma nothing_stored_refl (w : world) : nothing_stored w w.
Proof. intros k x H. exact H. Qed.

Lemma nothing_stored_trans (w1 w2 w3 : world) :
  nothing_stored w1 w2 -> nothing_stored w2 w3 -> nothing_stored w1 w3.
Proof. intros H12 H23 k x H. apply H12, H23, H. Qed.

Lemma nothing_stored_same_cache (w w' : world) :
  w_cache w' = w_cache w -> nothing_stored w w'.
Proof. intros Hc k x. now rewrite Hc. Qed.

Lemma stores_nothing_ret {A} (a : A) : stores_nothing (ret a).
Proof. intros w. apply nothing_stored_refl. Qed.

Lemma stores_nothing_raise {A} (e : exn) : stores_nothing (raise (A := A) e).
Proof. intros w. apply nothing_stored_refl. Qed.

Lemma stores_nothing_record (ev : effect) : stores_nothing (record ev).
Proof. intros w. now apply nothing_stored_same_cache. Qed.

Lemma stores_nothing_logger (lvl : level) (msg : string) : stores_nothing (logger lvl msg).
Proof. apply stores_nothing_record. Qed.

Lemma stores_nothing_next_tick : stores_nothing next_tick.
Proof. intros w. now apply nothing_stored_same_cache. Qed.

Lemma stores_nothing_add_model (city : string) : stores_nothing (add_model city).
Proof. intros w. now apply nothing_stored_same_cache. Qed.

Lemma stores_nothing_lift {A} (r : result A) : stores_nothing (Requests.lift r).
Proof. destruct r; [apply stores_nothing_ret | apply stores_nothing_raise]. Qed.

Lemma stores_nothing_bind {A B} (m : M A) (k : A -> M B) :
  stores_nothing m -> (forall a, stores_nothing (k a)) -> stores_nothing (bind m k).
Proof.
  intros Hm Hk w. unfold bind. specialize (Hm w).
  destruct (m w) as [[a | e] w1]; cbn [snd] in *; [|exact Hm].
  apply nothing_stored_trans with (1 := Hm). apply Hk.
Qed.

Lemma stores_nothing_try_except {A} (m : M A) (h : exn -> M A) :
  stores_nothing m -> (forall e, stores_nothing (h e)) -> stores_nothing (try_except m h).
Proof.
  intros Hm Hh w. unfold try_except. specialize (Hm w).
  destruct (m w) as [[a | e] w1]; cbn [snd] in *; [exact Hm |].
  apply nothing_stored_trans with (1 := Hm). apply Hh.
Qed.

Lemma stores_nothing_for_each {A B} (f : A -> M B) (l : list A) :
  (forall x, stores_nothing (f x)) -> stores_nothing (for_each f l).
Proof.
  intros Hf. induction l as [|x l IH]; cbn [for_each].
  - apply stores_nothing_ret.
  - apply stores_nothing_bind; [apply Hf |]. intros y.
    apply stores_nothing_bind; [exact IH |]. intros ys. apply stores_nothing_ret.
Qed.

Lemma on_failure_of_always {A} (m : M A) :
  stores_nothing m -> stores_nothing_on_failure m.
Proof. intros Hm w e _. apply Hm. Qed.

Lemma on_failure_of_never_raises {A} (m : M A) :
  never_raises m -> stores_nothing_on_failure m.
Proof. intros Hm w e He. destruct (Hm w) as [a Ha]. congruence. Qed.

Lemma on_failure_bind {A B} (m : M A) (k : A -> M B) :
  stores_nothing m -> (forall a, stores_nothing_on_failure (k a)) ->
  stores_nothing_on_failure (bind m k).
Proof.
  intros Hm Hk w e. unfold bind. specialize (Hm w).
  destruct (m w) as [[a | e'] w1]; cbn [fst snd] in *; intros He; [|exact Hm].
  apply nothing_stored_trans with (1 := Hm). now apply (Hk a w1 e).
Qed.

Lemma on_failure_try_except {A} (m : M A) (h : exn -> M A) :
  stores_nothing_on_failure m -> (forall e, stores_nothing (h e)) ->
  stores_nothing_on_failure (try_except m h).
Proof.
  intros Hm Hh w e. unfold try_except. specialize (Hm w).
  destruct (m w) as [[a | e'] w1]; cbn [fst snd] in *; intros He; [discriminate |].
  apply nothing_stored_trans with (1 := Hm e' eq_refl). apply Hh.
Qed.

(** A lookup in the cache can only drop the entry it finds expired. *)
Lemma stores_nothing_cache_get (k : string) : stores_nothing (CacheService.get R k).
Proof.
  intros w k' x.
  unfold CacheService.get, CacheService.time_time, bind, logger, record, next_tick,
    read_cache, read_expiry, write_cache, ret;
    cbn [fst snd w_cache w_expiry w_models w_trace w_tick].
  destruct (w_cache w !! k) as [[v ts]|]; cbn [fst snd w_cache]; [|auto].
  destruct (Num.lt _ _); cbn [fst snd w_cache]; [auto |].
  intros H. apply lookup_delete_Some in H. tauto.
Qed.

Lemma set_then_ret_never_raises {A} (k : string) (v : pyval) (a : A) :
  never_raises (CacheService.set R k v ;; ret a).
Proof. intros w. exists a. reflexivity. Qed.

Lemma stores_nothing_requests :
  (forall city, stores_nothing (Requests.get_weather R api_key city))
  /\ (forall city, stores_nothing (Requests.get_forecast R api_key city)).
Proof.
  split; intros city; unfold Requests.get_weather, Requests.get_forecast;
    (apply stores_nothing_bind; [apply stores_nothing_record |]; intros _);
    (apply stores_nothing_bind; [apply stores_nothing_next_tick |]; intros t);
    apply stores_nothing_lift.
Qed.

Lemma stores_nothing_on_request_failure {A} (what : string) (e : exn) :
  stores_nothing (WeatherService.on_request_failure (A := A) api_key what e).
Proof.
  unfold WeatherService.on_request_failure.
  destruct e as [msg response | msg]; [|apply stores_nothing_raise].
  apply stores_nothing_bind; [apply stores_nothing_logger |]. intros _.
  apply stores_nothing_bind; [|intros _; apply stores_nothing_raise].
  destruct response; [apply stores_nothing_logger | apply stores_nothing_ret].
Qed.

Lemma stores_nothing_wind_of (data : current_json) :
  stores_nothing (WeatherService.wind_of data).
Proof.
  unfold WeatherService.wind_of.
  destruct (cur_wind data) as [[[s|] [d|]]|];
    first [apply stores_nothing_ret | apply stores_nothing_raise].
Qed.

Lemma stores_nothing_organize_by_day (items : list forecast_item)
    (days : list (string * list forecast_entry)) :
  stores_nothing (WeatherService.organize_by_day items days).
Proof.
  intros w. apply nothing_stored_same_cache.
  now rewrite organize_by_day_pure.
Qed.

Lemma stores_nothing_enhance (city : string) (forecast_data : forecast_json) :
  stores_nothing (AIWeatherService._enhance_forecast_with_ai R city forecast_data).
Proof.
  unfold AIWeatherService._enhance_forecast_with_ai.
  apply stores_nothing_bind; [apply stores_nothing_add_model |]. intros _.
  apply stores_nothing_bind; [|intros items; apply stores_nothing_ret].
  apply stores_nothing_for_each. intros item.
  unfold AIWeatherService.enhance_item, AIWeatherService.datetime_now.
  apply stores_nothing_bind; [|intros now; apply stores_nothing_ret].
  apply stores_nothing_bind; [apply stores_nothing_next_tick |]. intros t.
  apply stores_nothing_ret.
Qed.

(** X5.  A call of [get_current_weather], [get_forecast] or
    [get_enhanced_forecast] that raises has stored nothing: every entry the
    cache holds after it was there before it, with the same value and time of
    storage.  (The lookup may have dropped an expired entry.) *)
Theorem failed_fetch_stores_nothing (city : string) (w : world) (e : exn) :
  (fst (WeatherService.get_current_weather R api_key city w) = Raise e ->
   nothing_stored w (snd (WeatherService.get_current_weather R api_key city w)))
  /\ (fst (WeatherService.get_forecast R api_key city w) = Raise e ->
      nothing_stored w (snd (WeatherService.get_forecast R api_key city w)))
  /\ (fst (AIWeatherService.get_enhanced_forecast R api_key city w) = Raise e ->
      nothing_stored w (snd (AIWeatherService.get_enhanced_forecast R api_key city w))).
Proof.
  destruct stores_nothing_requests as [Hweather Hforecast].
  repeat split; intros He; revert w e He.
  - change (stores_nothing_on_failure (WeatherService.get_current_weather R api_key city)).
    unfold WeatherService.get_current_weather.
    apply on_failure_bind; [apply stores_nothing_cache_get |]. intros cached.
    destruct (truthy cached).
    + apply on_failure_of_always.
      apply stores_nothing_bind; [apply stores_nothing_logger |]. intros _.
      apply stores_nothing_ret.
    + apply on_failure_bind; [apply stores_nothing_logger |]. intros _.
      apply on_failure_try_except; [|apply stores_nothing_on_request_failure].
      apply on_failure_bind; [apply Hweather |]. intros data.
      apply on_failure_bind; [apply stores_nothing_wind_of |]. intros wind.
      apply on_failure_of_never_raises, set_then_ret_never_raises.
  - change (stores_nothing_on_failure (WeatherService.get_forecast R api_key city)).
    unfold WeatherService.get_forecast.
    apply on_failure_bind; [apply stores_nothing_cache_get |]. intros cached.
    destruct (truthy cached).
    + apply on_failure_of_always.
      apply stores_nothing_bind; [apply stores_nothing_logger |]. intros _.
      apply stores_nothing_ret.
    + apply on_failure_bind; [apply stores_nothing_logger |]. intros _.
      apply on_failure_try_except; [|apply stores_nothing_on_request_failure].
      apply on_failure_bind; [apply Hforecast |]. intros data.
      apply on_failure_bind; [apply stores_nothing_organize_by_day |]. intros days.
      apply on_failure_of_never_raises, set_then_ret_never_raises.
  - change (stores_nothing_on_failure
              (AIWeatherService.get_enhanced_forecast R api_key city)).
    unfold AIWeatherService.get_enhanced_forecast.
    apply on_failure_bind; [apply stores_nothing_cache_get |]. intros cached.
    destruct (truthy cached).
    + apply on_failure_of_always.
      apply stores_nothing_bind; [apply stores_nothing_logger |]. intros _.
      apply stores_nothing_ret.
    + apply on_failure_try_except.
      * apply on_failure_bind; [apply Hforecast |]. intros data.
        apply on_failure_bind; [apply stores_nothing_enhance |]. intros enhanced.
        apply on_failure_of_never_raises, set_then_ret_never_raises.
      * intros e.
        apply stores_nothing_bind; [apply stores_nothing_logger |]. intros _.
        apply stores_nothing_raise.
Qed.

End StoresNothing.

(** ** Served from the cache *)

Section ServedFromCache.

Variable R : runtime.
Variable api_key : string.

Ltac run_service :=
  unfold WeatherService.get_current_weather, WeatherService.get_forecast,
    AIWeatherService.get_enhanced_forecast,
    WeatherService.on_request_failure, WeatherService.wind_of,
    Requests.get_weather, Requests.get_forecast, Requests.lift,
    CacheService.get, CacheService.set, CacheService.time_time,
    try_except, bind, logger, record, next_tick, read_cache, read_expiry,
    write_cache, ret, raise;
  cbn [fst snd w_cache w_expiry w_models w_trace w_tick cw_speed cw_deg].

Lemma enhance_forecast_world (city : string) (forecast_data : forecast_json) (w : world) :
  exists e,
    AIWeatherService._enhance_forecast_with_ai R city forecast_data w
    = (Return e, after_readings (length (fc_list forecast_data)) (snd (add_model city w)))
    /\ length (e_list e) = length (fc_list forecast_data)
    /\ e_city e = fc_city forecast_data.
Proof.
  unfold AIWeatherService._enhance_forecast_with_ai.
  destruct (for_each_enhance_item R (fc_list forecast_data) (snd (add_model city w)))
    as (out & Hrun & Hlen & _).
  eexists. split; [|split].
  - unfold bind. unfold add_model in *. cbn [snd] in Hrun. cbv beta iota.
    rewrite Hrun. unfold ret. reflexivity.
  - exact Hlen.
  - reflexivity.
Qed.

(** A hit: the value comes back after one clock reading, with two log
    records and nothing else. *)
Lemma current_weather_hit (city : string) (w : world) (v : pyval) (ts : Q) :
  w_cache w !! ("current_weather_" +:+ city) = Some (v, ts) ->
  truthy v = true ->
  (CacheService.seconds_at R (w_tick w) - ts < w_expiry w)%Q ->
  answered_without_request w (WeatherService.get_current_weather R api_key city w) v.
Proof.
  intros Hk Hv Hage. apply Num_lt_true in Hage.
  unfold answered_without_request. run_service.
  rewrite Hk. run_service. rewrite Hage. run_service. rewrite Hv. run_service.
  split; [reflexivity |].
  eexists. split; [rewrite <- !app_assoc; reflexivity | reflexivity].
Qed.

Lemma forecast_hit (city : string) (w : world) (v : pyval) (ts : Q) :
  w_cache w !! ("forecast_" +:+ city) = Some (v, ts) ->
  truthy v = true ->
  (CacheService.seconds_at R (w_tick w) - ts < w_expiry w)%Q ->
  answered_without_request w (WeatherService.get_forecast R api_key city w) v.
Proof.
  intros Hk Hv Hage. apply Num_lt_true in Hage.
  unfold answered_without_request. run_service.
  rewrite Hk. run_service. rewrite Hage. run_service. rewrite Hv. run_service.
  split; [reflexivity |].
  eexists. split; [rewrite <- !app_assoc; reflexivity | reflexivity].
Qed.

Lemma enhanced_forecast_hit (city : string) (w : world) (v : pyval) (ts : Q) :
  w_cache w !! ("enhanced_forecast:" +:+ city) = Some (v, ts) ->
  truthy v = true ->
  (CacheService.seconds_at R (w_tick w) - ts < w_expiry w)%Q ->
  answered_without_request w (AIWeatherService.get_enhanced_forecast R api_key city w) v.
Proof.
  intros Hk Hv Hage. apply Num_lt_true in Hage.
  unfold answered_without_request. run_service.
  rewrite Hk. run_service. rewrite Hage. run_service. rewrite Hv. run_service.
  split; [reflexivity |].
  eexists. split; [rewrite <- !app_assoc; reflexivity | reflexivity].
Qed.

(** What a returning call on a cold cache leaves: the value it returned,
    stored at the second reading after the start. *)
Lemma current_weather_cold_return (city : string) (w : world) (v : pyval) :
  w_cache w !! ("current_weather_" +:+ city) = None ->
  fst (WeatherService.get_current_weather R api_key city w) = Return v ->
  truthy v = true
  /\ w_cache (snd (WeatherService.get_current_weather R api_key city w))
       !! ("current_weather_" +:+ city)
     = Some (v, CacheService.seconds_at R (S (w_tick w)))
  /\ w_tick (snd (WeatherService.get_current_weather R api_key city w)) = S (S (w_tick w))
  /\ w_expiry (snd (WeatherService.get_current_weather R api_key city w)) = w_expiry w.
Proof.
  intros Hk. run_service. rewrite Hk. run_service.
  change (truthy PyNone) with false. cbv beta iota. run_service.
  destruct (weather_api R (w_tick w) api_key city) as [data | [msg [text|] | msg]];
    run_service; try discriminate.
  destruct (cur_wind data) as [[[s|] [d|]]|]; run_service; try discriminate.
  intros [= <-]. repeat split. apply lookup_insert_eq.
Qed.

Lemma forecast_cold_return (city : string) (w : world) (v : pyval) :
  w_cache w !! ("forecast_" +:+ city) = None ->
  fst (WeatherService.get_forecast R api_key city w) = Return v ->
  truthy v = true
  /\ w_cache (snd (WeatherService.get_forecast R api_key city w))
       !! ("forecast_" +:+ city)
     = Some (v, CacheService.seconds_at R (S (w_tick w)))
  /\ w_tick (snd (WeatherService.get_forecast R api_key city w)) = S (S (w_tick w))
  /\ w_expiry (snd (WeatherService.get_forecast R api_key city w)) = w_expiry w.
Proof.
  intros Hk. run_service. rewrite Hk. run_service.
  change (truthy PyNone) with false. cbv beta iota. run_service.
  destruct (forecast_api R (w_tick w) api_key city) as [data | [msg [text|] | msg]];
    run_service; try discriminate.
  match goal with
  | |- context [WeatherService.organize_by_day ?items ?days ?w0] =>
      pose proof (organize_by_day_pure items days w0) as Hpure;
      destruct (WeatherService.organize_by_day items days w0) as [[days'|e] w2];
      cbn [snd] in Hpure; subst w2; [|destruct e as [msg [text|] | msg]]
  end; run_service; try discriminate.
  intros [= <-]. repeat split. apply lookup_insert_eq.
Qed.

(** X6.  Starting from a cache without the key, when [get_current_weather]
    or [get_forecast] returns a value, the same call made again before the
    entry expires returns that value without a call to the provider. *)
Theorem weather_client_second_call_is_served_from_cache (city : string) (w : world)
    (v : pyval) :
  (CacheService.seconds_at R (S (S (w_tick w))) - CacheService.seconds_at R (S (w_tick w))
   < w_expiry w)%Q ->
  (w_cache w !! ("current_weather_" +:+ city) = None ->
   fst (WeatherService.get_current_weather R api_key city w) = Return v ->
   answered_without_request
     (snd (WeatherService.get_current_weather R api_key city w))
     (WeatherService.get_current_weather R api_key city
        (snd (WeatherService.get_current_weather R api_key city w))) v)
  /\ (w_cache w !! ("forecast_" +:+ city) = None ->
      fst (WeatherService.get_forecast R api_key city w) = Return v ->
      answered_without_request
        (snd (WeatherService.get_forecast R api_key city w))
        (WeatherService.get_forecast R api_key city
           (snd (WeatherService.get_forecast R api_key city w))) v).
Proof.
  intros Hage. split; intros Hk Hv.
  - destruct (current_weather_cold_return city w v Hk Hv) as (Htruthy & Hstored & Ht & He).
    apply (current_weather_hit city _ v _ Hstored Htruthy).
    now rewrite Ht, He.
  - destruct (forecast_cold_return city w v Hk Hv) as (Htruthy & Hstored & Ht & He).
    apply (forecast_hit city _ v _ Hstored Htruthy).
    now rewrite Ht, He.
Qed.

(** X7.  Starting from a cache without the key and an answer of the provider
    to the forecast call: when [get_enhanced_forecast] returns a value, which
    it does not when the [dt_txt] of an item fails to parse, the value is an
    enhanced forecast as long as the provider's list and for the same city;
    the same call made again before the entry expires returns that very
    value, offsets applied once, without a call to the provider. *)
Theorem enhanced_forecast_is_computed_once (city : string) (w : world)
    (forecast_data : forecast_json) (v : pyval) :
  w_cache w !! ("enhanced_forecast:" +:+ city) = None ->
  forecast_api R (w_tick w) api_key city = Return forecast_data ->
  (CacheService.seconds_at R (S (S (w_tick w + length (fc_list forecast_data))))
   - CacheService.seconds_at R (S (w_tick w + length (fc_list forecast_data)))
   < w_expiry w)%Q ->
  fst (AIWeatherService.get_enhanced_forecast R api_key city w) = Return v ->
  exists e,
    v = PyEnhanced e
    /\ length (e_list e) = length (fc_list forecast_data)
    /\ e_city e = fc_city forecast_data
    /\ answered_without_request
         (snd (AIWeatherService.get_enhanced_forecast R api_key city w))
         (AIWeatherService.get_enhanced_forecast R api_key city
            (snd (AIWeatherService.get_enhanced_forecast R api_key city w))) v.
Proof.
  intros Hk Hapi Hage Hreturn.
  assert (Hfirst : exists e w1,
    AIWeatherService.get_enhanced_forecast R api_key city w = (Return (PyEnhanced e), w1)
    /\ length (e_list e) = length (fc_list forecast_data)
    /\ e_city e = fc_city forecast_data
    /\ w_cache w1 !! ("enhanced_forecast:" +:+ city)
       = Some (PyEnhanced e,
               CacheService.seconds_at R (S (w_tick w + length (fc_list forecast_data))))
    /\ w_tick w1 = S (S (w_tick w + length (fc_list forecast_data)))
    /\ w_expiry w1 = w_expiry w).
  { run_service. rewrite Hk. run_service.
    change (truthy PyNone) with false. cbv beta iota. run_service.
    rewrite Hapi. run_service.
    match goal with
    | |- context [AIWeatherService._enhance_forecast_with_ai R city forecast_data ?w0] =>
        destruct (enhance_forecast_world city forecast_data w0) as (e & Hrun & Hlen & Hcity)
    end.
    rewrite Hrun. run_service.
    exists e. eexists. split; [reflexivity |].
    cbn [w_cache w_tick w_expiry after_readings add_model snd].
    repeat split; trivial; try lia.
    rewrite lookup_insert_eq. do 3 f_equal. }
  destruct Hfirst as (e & w1 & Hrun & Hlen & Hcity & Hstored & Ht & He).
  rewrite Hrun in Hreturn |- *. cbn [fst snd] in Hreturn |- *.
  injection Hreturn as <-.
  exists e. split; [reflexivity |]. split; [exact Hlen |]. split; [exact Hcity |].
  apply (enhanced_forecast_hit city w1 (PyEnhanced e) _ Hstored eq_refl).
  now rewrite Ht, He.
Qed.

End ServedFromCache.

(** ** The forecast grouped by day *)

Section ForecastByDay.

Variable R : runtime.
Variable api_key : string.

Lemma days_append_keys (date : string) (entry : forecast_entry)
    (days : list (string * list forecast_entry)) (d : string) :
  In d (map fst (WeatherService.days_append date entry days))
  <-> d = date \/ In d (map fst days).
Proof.
  induction days as [|[d0 entries] days IH]; cbn.
  - intuition.
  - destruct (String.eqb_spec d0 date) as [-> | Hne]; cbn; [intuition |].
    rewrite IH. intuition.
Qed.

Lemma days_append_NoDup (date : string) (entry : forecast_entry)
    (days : list (string * list forecast_entry)) :
  List.NoDup (map fst days) ->
  List.NoDup (map fst (WeatherService.days_append date entry days)).
Proof.
  induction days as [|[d0 entries] days IH]; cbn; intros Hnd.
  - constructor; [intros [] | constructor].
  - inversion Hnd as [|? ? Hnotin Hrest]; subst.
    destruct (String.eqb_spec d0 date) as [-> | Hne]; cbn.
    + now constructor.
    + constructor; [|now apply IH].
      rewrite days_append_keys. intros [-> | Hin]; [now apply Hne | now apply Hnotin].
Qed.

Lemma days_append_entries (date : string) (entry : forecast_entry)
    (days : list (string * list forecast_entry)) :
  Permutation (entries_in (WeatherService.days_append date entry days))
    (entries_in days ++ [(date, entry)]).
Proof.
  unfold entries_in. induction days as [|[d0 entries] days IH]; cbn.
  - reflexivity.
  - destruct (String.eqb_spec d0 date) as [-> | Hne]; cbn.
    + rewrite map_app. cbn. rewrite <- !app_assoc.
      apply Permutation_app_head. apply Permutation_app_comm.
    + rewrite <- app_assoc. apply Permutation_app_head. exact IH.
Qed.

(** The loop, by induction on the items with any days collected so far. *)
Lemma organize_by_day_groups (items : list forecast_item)
    (days0 days : list (string * list forecast_entry)) (w : world) :
  fst (WeatherService.organize_by_day items days0 w) = Return days ->
  List.NoDup (map fst days0) ->
  List.NoDup (map fst days)
  /\ exists l,
       Forall2 normalises items l
       /\ Permutation (entries_in days) (entries_in days0 ++ l).
Proof.
  revert days0. induction items as [|item items IH]; intros days0 Hrun Hnd.
  - cbn in Hrun. injection Hrun as <-. split; [exact Hnd |].
    exists []. split; [constructor | now rewrite app_nil_r].
  - cbn [WeatherService.organize_by_day] in Hrun.
    destruct (Str.split_space (fi_dt_txt item)) as [|date [|time rest]] eqn:Hsplit;
      try discriminate.
    apply IH in Hrun as (Hnd' & l & Hl & Hperm); [|now apply days_append_NoDup].
    split; [exact Hnd' |].
    eexists ((date, _) :: l). split; cycle 1.
    + rewrite Hperm, days_append_entries, <- app_assoc.
      apply Permutation_app_head. apply Permutation_refl.
    + constructor; [|exact Hl].
      unfold normalises; cbn. split; [exists rest; exact Hsplit | repeat split].
Qed.

Lemma organize_by_day_failure (items : list forecast_item)
    (days0 : list (string * list forecast_entry)) (w : world) (e : exn) :
  fst (WeatherService.organize_by_day items days0 w) = Raise e ->
  e = Exception "list index out of range".
Proof.
  revert days0. induction items as [|item items IH]; intros days0 Hrun.
  - discriminate.
  - cbn [WeatherService.organize_by_day] in Hrun.
    destruct (Str.split_space (fi_dt_txt item)) as [|date [|time rest]];
      try (cbn in Hrun; now injection Hrun as <-).
    now apply IH in Hrun.
Qed.

(** X8.  On a cache without the key and an answer of the provider: when
    [get_forecast] returns, the value is the grouped forecast, for the
    provider's city; every date is the key of one day only, and the entries of
    all days together are the normalised items of the answer, each once, under
    the date piece of its [dt_txt].  When it raises, an item's [dt_txt] had no
    second piece and the error is the index error. *)
Theorem forecast_is_grouped_by_date (city : string) (w : world)
    (forecast_data : forecast_json) :
  w_cache w !! ("forecast_" +:+ city) = None ->
  forecast_api R (w_tick w) api_key city = Return forecast_data ->
  (forall v,
     fst (WeatherService.get_forecast R api_key city w) = Return v ->
     exists f,
       v = PyForecast f
       /\ ff_city f = fc_city forecast_data
       /\ List.NoDup (map fst (ff_days f))
       /\ exists l,
            Forall2 normalises (fc_list forecast_data) l
            /\ Permutation (entries_in (ff_days f)) l)
  /\ (forall e,
        fst (WeatherService.get_forecast R api_key city w) = Raise e ->
        e = Exception "list index out of range").
Proof.
  intros Hk Hapi.
  unfold WeatherService.get_forecast, Requests.get_forecast, Requests.lift,
    CacheService.get, try_except, bind, logger, record, next_tick, read_cache, ret;
    cbn [fst snd w_cache w_expiry w_models w_trace w_tick].
  rewrite Hk; cbn [fst snd w_cache w_expiry w_models w_trace w_tick].
  change (truthy PyNone) with false. cbv beta iota.
  cbn [fst snd w_cache w_expiry w_models w_trace w_tick].
  rewrite Hapi.
  match goal with
  | |- context [WeatherService.organize_by_day ?items ?days ?w0] =>
      pose proof (fun d => organize_by_day_groups items days d w0) as Hgroups;
      pose proof (organize_by_day_failure items days w0) as Hfail;
      destruct (WeatherService.organize_by_day items days w0) as [[days'|e'] w2]
  end; cbn [fst snd] in *.
  - split; [|discriminate].
    intros v [= <-].
    destruct (Hgroups days' eq_refl) as (Hnd & l & Hl & Hperm); [constructor |].
    eexists. repeat split; [exact Hnd |].
    exists l. split; [exact Hl | exact Hperm].
  - rewrite (Hfail e' eq_refl).
    unfold WeatherService.on_request_failure, raise. cbn [fst].
    split; [discriminate |]. now intros e [= <-].
Qed.

End ForecastByDay.

Lemma forecast_is_grouped_by_date_witness :
  exists f,
    fst (WeatherService.get_forecast Sample.sunny Sample.api_key "Paris" Sample.world0)
    = Return (PyForecast f)
    /\ map fst (ff_days f) = ["2024-06-01"; "2024-06-04"]
    /\ map (fun day => length (snd day)) (ff_days f) = [3%nat; 1%nat].
Proof.
  destruct (forecast_is_grouped_by_date Sample.sunny Sample.api_key "Paris" Sample.world0
              Sample.forecast) as [Hreturns _].
  - reflexivity.
  - reflexivity.
  - eexists. split; [vm_compute; reflexivity |]. split; reflexivity.
Defined.

(** ** Where every alert comes from *)

Section AlertOrigins.

Variable R : runtime.

Local Open Scope Q_scope.

Lemma append_when_inv (c : bool) (a x : alert) (l : list alert) :
  In x (AIWeatherService.append_when c a l) -> In x l \/ (c = true /\ x = a).
Proof.
  destruct c; cbn; [|auto].
  intros H. apply in_app_or in H as [H | [<- | []]]; auto.
Qed.

Lemma check_severe_inv (alerts : list alert) (wc wd : string) (t wind h : Q)
    (p : preferences) (time : string) (x : alert) :
  In x (AIWeatherService._check_severe_weather_conditions R alerts wc wd t wind h p time) ->
  In x alerts \/ from_severe_check time x.
Proof.
  unfold AIWeatherService._check_severe_weather_conditions. intros H.
  repeat (apply append_when_inv in H as [H | [_ ->]];
          [| right; unfold from_severe_check, severe_types; cbn;
             split; [reflexivity |]; split; [tauto | split; discriminate]]).
  now left.
Qed.

Lemma interval_alerts_inv (p : preferences) (alerts : list alert) (day : enhanced_item)
    (x : alert) :
  In x (AIWeatherService.interval_alerts R p alerts day) ->
  In x alerts
  \/ from_severe_check (fi_dt_txt (e_item day)) x
  \/ from_threshold_rule p (e_item day) x.
Proof.
  unfold AIWeatherService.interval_alerts. intros H. cbv zeta in H.
  assert (Hsev := check_severe_inv alerts
    (Str.lower (w_main (fi_weather (e_item day))))
    (Str.lower (w_description (fi_weather (e_item day))))
    (temp (fi_main (e_item day))) (speed (fi_wind (e_item day)))
    (humidity (fi_main (e_item day))) p (fi_dt_txt (e_item day)) x).
  set (severe := AIWeatherService._check_severe_weather_conditions _ _ _ _ _ _ _ _ _) in *.
  clearbody severe.
  assert (Hdone : In x severe ->
    In x alerts \/ from_severe_check (fi_dt_txt (e_item day)) x
    \/ from_threshold_rule p (e_item day) x) by (intros Hx; apply Hsev in Hx; tauto).
  clear Hsev.
  destruct (Num.gt (get_default (wind_sensitivity p) 0.5) 0.3) eqn:Hws;
    [apply append_when_inv in H as [H | [Hw ->]] |];
    (destruct (Num.gt (get_default (temp_sensitivity p) 0.5) 0.3) eqn:Hts;
     [destruct (Num.gt (temp (fi_main (e_item day)))
                  (30 * get_default (temp_sensitivity p) 0.5)) eqn:Hhigh;
      [| destruct (Num.lt (temp (fi_main (e_item day)))
                     (5 * get_default (temp_sensitivity p) 0.5)) eqn:Hlow] |]);
    try (apply in_app_or in H as [H | [<- | []]]);
    try (destruct (fi_rain (e_item day)) as [block|] eqn:Hrain;
         [destruct (Num.gt (get_default (rain_sensitivity p) 0.5) 0.3) eqn:Hrs;
          [apply append_when_inv in H as [H | [Hr ->]] |] |]);
    try (now apply Hdone);
    right; right; unfold from_threshold_rule; cbn;
    (split; [reflexivity |]);
    rewrite ?Num_gt_true, ?Num_lt_true in *.
  all: try (right; right; right; repeat split; assumption).
  all: try (right; left; repeat split; assumption).
  all: try (right; right; left; repeat split; assumption).
  all: try (left; split; [reflexivity |]; split; [assumption |];
            exists block; repeat split; assumption).
Qed.

Lemma fold_interval_alerts_inv (p : preferences) (days : list enhanced_item)
    (alerts : list alert) (x : alert) :
  In x (fold_left (AIWeatherService.interval_alerts R p) days alerts) ->
  In x alerts
  \/ exists day,
       In day days
       /\ (from_severe_check (fi_dt_txt (e_item day)) x
           \/ from_threshold_rule p (e_item day) x).
Proof.
  revert alerts. induction days as [|day days IH]; intros alerts H; cbn in H.
  - now left.
  - apply IH in H as [H | (d & Hd & Hshape)].
    + apply interval_alerts_inv in H as [H | H]; [now left |].
      right. exists day. split; [now left | exact H].
    + right. exists d. split; [now right | exact Hshape].
Qed.

(** Every generated alert is one of: the severe-weather check on the current
    conditions, a provider alert, or the severe-weather check or a threshold
    rule on one of the first 16 intervals. *)
Lemma generated_alerts_inv (p : preferences) (current_data : current_json)
    (items : list enhanced_item) (x : alert) :
  In x (AIWeatherService.generated_alerts R p current_data items) ->
  from_severe_check "now" x
  \/ from_provider x
  \/ exists day,
       In day (take 16 items)
       /\ (from_severe_check (fi_dt_txt (e_item day)) x
           \/ from_threshold_rule p (e_item day) x).
Proof.
  unfold AIWeatherService.generated_alerts. intros H.
  apply fold_interval_alerts_inv in H as [H | H]; [|tauto].
  assert (Hnow : forall wc wd t wind h,
    In x (AIWeatherService._check_severe_weather_conditions R [] wc wd t wind h p "now") ->
    from_severe_check "now" x).
  { intros wc wd t wind h Hx. apply check_severe_inv in Hx as [[] | Hx]. exact Hx. }
  destruct (cur_alerts current_data) as [provided|]; [|left; eapply Hnow; exact H].
  apply in_app_or in H as [H | H]; [left; eapply Hnow; exact H |].
  right. left. apply in_map_iff in H as (y & <- & _).
  unfold from_provider. cbn. auto.
Qed.

End AlertOrigins.

Section AlertRules.

Variable R : runtime.

Local Open Scope Q_scope.

Ltac find_alert ty :=
  repeat match goal with
         | |- In _ (if ?c then _ else _) => destruct c
         | |- In _ (match ?o with Some _ => _ | None => _ end) => destruct o
         | |- In _ (AIWeatherService.append_when true (Build_alert ty _ _ _) _) =>
             apply append_when_true_In
         | |- In _ (_ ++ [Build_alert ty _ _ _]) =>
             apply in_or_app; right; left; reflexivity
         | |- In _ (AIWeatherService.append_when _ _ _) => apply append_when_In
         | |- In _ (_ ++ [_]) => apply in_or_app; left
         end.

Lemma interval_alerts_rain (p : preferences) (alerts : list alert) (day : enhanced_item)
    (block : option Q) :
  fi_rain (e_item day) = Some block ->
  0.3 < get_default (rain_sensitivity p) 0.5 ->
  1.0 * get_default (rain_sensitivity p) 0.5 < get_default block 0 ->
  exists a,
    In a (AIWeatherService.interval_alerts R p alerts day)
    /\ a_type a = "rain" /\ a_time a = fi_dt_txt (e_item day)
    /\ severity a = Qmin (get_default block 0 / 10) 1.0.
Proof.
  intros Hrain Hs Hv. apply Num_gt_true in Hs, Hv.
  unfold AIWeatherService.interval_alerts. cbv zeta.
  set (severe := AIWeatherService._check_severe_weather_conditions _ _ _ _ _ _ _ _ _).
  rewrite Hrain, Hs, Hv.
  eexists. split; [find_alert "rain" | cbn; auto].
Qed.

Lemma interval_alerts_high_temp (p : preferences) (alerts : list alert)
    (day : enhanced_item) :
  0.3 < get_default (temp_sensitivity p) 0.5 ->
  30 * get_default (temp_sensitivity p) 0.5 < temp (fi_main (e_item day)) ->
  exists a,
    In a (AIWeatherService.interval_alerts R p alerts day)
    /\ a_type a = "high_temp" /\ a_time a = fi_dt_txt (e_item day)
    /\ severity a = Qmin ((temp (fi_main (e_item day)) - 25) / 15) 1.0.
Proof.
  intros Hs Hv. apply Num_gt_true in Hs, Hv.
  unfold AIWeatherService.interval_alerts. cbv zeta.
  set (severe := AIWeatherService._check_severe_weather_conditions _ _ _ _ _ _ _ _ _).
  rewrite Hs, Hv.
  eexists. split; [find_alert "high_temp" | cbn; auto].
Qed.

Lemma interval_alerts_low_temp (p : preferences) (alerts : list alert)
    (day : enhanced_item) :
  0.3 < get_default (temp_sensitivity p) 0.5 ->
  temp (fi_main (e_item day)) < 5 * get_default (temp_sensitivity p) 0.5 ->
  exists a,
    In a (AIWeatherService.interval_alerts R p alerts day)
    /\ a_type a = "low_temp" /\ a_time a = fi_dt_txt (e_item day)
    /\ severity a = Qmin ((5 - temp (fi_main (e_item day))) / 10) 1.0.
Proof.
  intros Hs Hv.
  assert (Hnot : Num.gt (temp (fi_main (e_item day)))
                   (30 * get_default (temp_sensitivity p) 0.5) = false).
  { apply Num_gt_false. lra. }
  apply Num_gt_true in Hs. apply Num_lt_true in Hv.
  unfold AIWeatherService.interval_alerts. cbv zeta.
  set (severe := AIWeatherService._check_severe_weather_conditions _ _ _ _ _ _ _ _ _).
  rewrite Hs, Hnot, Hv.
  eexists. split; [find_alert "low_temp" | cbn; auto].
Qed.

Lemma interval_alerts_wind (p : preferences) (alerts : list alert) (day : enhanced_item) :
  0.3 < get_default (wind_sensitivity p) 0.5 ->
  10.0 * get_default (wind_sensitivity p) 0.5 < speed (fi_wind (e_item day)) ->
  exists a,
    In a (AIWeatherService.interval_alerts R p alerts day)
    /\ a_type a = "wind" /\ a_time a = fi_dt_txt (e_item day)
    /\ severity a = Qmin (speed (fi_wind (e_item day)) / 20) 1.0.
Proof.
  intros Hs Hv. apply Num_gt_true in Hs, Hv.
  unfold AIWeatherService.interval_alerts. cbv zeta.
  set (severe := AIWeatherService._check_severe_weather_conditions _ _ _ _ _ _ _ _ _).
  rewrite Hs, Hv.
  eexists. split; [find_alert "wind" | cbn; auto].
Qed.

(** What one interval adds stays until the end of the loop. *)
Lemma fold_interval_alerts_from (P : alert -> Prop) (p : preferences)
    (days : list enhanced_item) (alerts : list alert) (i : nat) (day : enhanced_item) :
  days !! i = Some day ->
  (forall before, exists a,
     In a (AIWeatherService.interval_alerts R p before day) /\ P a) ->
  exists a, In a (fold_left (AIWeatherService.interval_alerts R p) days alerts) /\ P a.
Proof.
  revert alerts i. induction days as [|d days IH]; intros alerts i Hi Hday.
  - discriminate.
  - destruct i as [|i]; cbn in Hi.
    + injection Hi as ->. destruct (Hday alerts) as (a & Hin & Ha).
      exists a. split; [|exact Ha]. cbn. now apply fold_interval_alerts_In.
    + cbn. now apply (IH _ i).
Qed.

Lemma generated_alerts_from (P : alert -> Prop) (p : preferences)
    (current_data : current_json) (items : list enhanced_item) (i : nat)
    (day : enhanced_item) :
  (i < 16)%nat -> items !! i = Some day ->
  (forall before, exists a,
     In a (AIWeatherService.interval_alerts R p before day) /\ P a) ->
  exists a, In a (AIWeatherService.generated_alerts R p current_data items) /\ P a.
Proof.
  intros Hi Hday Hstep. unfold AIWeatherService.generated_alerts.
  apply (fold_interval_alerts_from P p _ _ i day); [|exact Hstep].
  rewrite lookup_take_lt by exact Hi. exact Hday.
Qed.

(** X9.  The threshold rules fire on each of the first 16 intervals.  The
    rain rule, with a sensitivity above 0.3 (0.5 when not given): a rain
    block above the sensitivity, which is the threshold
    [1.0 * rain_sensitivity], generates a rain alert for the interval.  With
    no temperature or wind sensitivity given the thresholds are the products
    [30 * 0.5], [5 * 0.5] and [10.0 * 0.5]: a temperature above 15 generates
    a high_temp alert, one below 2.5 a low_temp alert, a wind above 5 m/s a
    wind alert. *)
Theorem threshold_rules_fire (p : preferences) (current_data : current_json)
    (items : list enhanced_item) (i : nat) (day : enhanced_item) :
  (i < 16)%nat -> items !! i = Some day ->
  let generated := AIWeatherService.generated_alerts R p current_data items in
  let here (kind : string) :=
    exists a, In a generated /\ a_type a = kind /\ a_time a = fi_dt_txt (e_item day) in
  (forall block,
     fi_rain (e_item day) = Some block ->
     0.3 < get_default (rain_sensitivity p) 0.5 ->
     get_default (rain_sensitivity p) 0.5 < get_default block 0 ->
     here "rain")
  /\ (temp_sensitivity p = None ->
      (15 < temp (fi_main (e_item day)) -> here "high_temp")
      /\ (temp (fi_main (e_item day)) < 2.5 -> here "low_temp"))
  /\ (wind_sensitivity p = None ->
      5 < speed (fi_wind (e_item day)) -> here "wind").
Proof.
  intros Hi Hday generated here. subst generated here. cbv beta.
  assert (Hfrom : forall kind s,
    (forall before, exists a,
       In a (AIWeatherService.interval_alerts R p before day)
       /\ a_type a = kind /\ a_time a = fi_dt_txt (e_item day) /\ severity a = s) ->
    exists a, In a (AIWeatherService.generated_alerts R p current_data items)
              /\ a_type a = kind /\ a_time a = fi_dt_txt (e_item day)).
  { intros kind s Hstep.
    apply (generated_alerts_from _ p current_data items i day Hi Hday).
    intros before. destruct (Hstep before) as (a & Hin & Hty & Htime & _).
    now exists a. }
  split; [|split].
  - intros block Hrain Hs Hv. eapply Hfrom. intros before.
    apply (interval_alerts_rain p before day block Hrain Hs). lra.
  - intros Hnone. split; intros Hv; eapply Hfrom; intros before.
    + apply interval_alerts_high_temp; rewrite Hnone; cbn; [reflexivity | lra].
    + apply interval_alerts_low_temp; rewrite Hnone; cbn; [reflexivity | lra].
  - intros Hnone Hv. eapply Hfrom. intros before.
    apply interval_alerts_wind; rewrite Hnone; cbn; [reflexivity | lra].
Qed.

(** X10.  An alert of a threshold kind (rain, high_temp, low_temp, wind) is
    generated only by its rule on one of the first 16 forecast intervals: it
    carries the [dt_txt] of such an interval, the sensitivity of its rule is
    above 0.3, and for a rain alert the interval has a rain block above the
    rain sensitivity.  So a sensitivity of 0.3 or less silences the rule, and
    the current conditions never give such an alert.  A rain or wind alert
    has a positive severity. *)
Theorem threshold_alerts_come_from_their_rule (p : preferences)
    (current_data : current_json) (items : list enhanced_item) (a : alert) :
  In a (AIWeatherService.generated_alerts R p current_data items) ->
  In (a_type a) threshold_types ->
  (exists day,
     In day (take 16 items)
     /\ a_time a = fi_dt_txt (e_item day)
     /\ (a_type a = "rain" ->
         exists block,
           fi_rain (e_item day) = Some block
           /\ get_default (rain_sensitivity p) 0.5 < get_default block 0))
  /\ (a_type a = "rain" -> 0.3 < get_default (rain_sensitivity p) 0.5)
  /\ (a_type a = "high_temp" \/ a_type a = "low_temp" ->
      0.3 < get_default (temp_sensitivity p) 0.5)
  /\ (a_type a = "wind" -> 0.3 < get_default (wind_sensitivity p) 0.5)
  /\ (a_type a = "rain" \/ a_type a = "wind" -> 0 < severity a).
Proof.
  intros Hin Hkind.
  assert (Hsevere : forall time, from_severe_check time a -> False).
  { intros time (_ & Hty & _). unfold threshold_types, severe_types in *.
    cbn in Hkind, Hty.
    destruct Hkind as [H | [H | [H | [H | []]]]]; rewrite <- H in Hty;
      repeat (destruct Hty as [Hty | Hty]; [discriminate |]); exact Hty. }
  apply generated_alerts_inv in Hin
    as [Hnow | [(_ & Hty & _) | (day & Hday & [Hsev | Hrule])]].
  - destruct (Hsevere _ Hnow).
  - rewrite Hty in Hkind. cbn in Hkind. exfalso.
    repeat (destruct Hkind as [Hkind | Hkind]; [discriminate |]); exact Hkind.
  - destruct (Hsevere _ Hsev).
  - split.
    { exists day. split; [exact Hday |].
      destruct Hrule as (Htime & Hrule). split; [exact Htime |].
      intros Hrain.
      destruct Hrule as [(_ & _ & block & Hblock & Hv & _)
                        | [(Hty & _) | [(Hty & _) | (Hty & _)]]];
        try (rewrite Hty in Hrain; discriminate Hrain).
      exists block. split; [exact Hblock | lra]. }
    destruct Hrule as (_ & [(Hty & Hs & block & _ & Hv & Hsv)
                           | [(Hty & Hs & Hv & Hsv)
                             | [(Hty & Hs & Hv & Hsv) | (Hty & Hs & Hv & Hsv)]]]);
      (rewrite Hty; (split; [|split; [|split]]);
       [ intros H; first [exact Hs | discriminate H]
       | intros [H | H]; first [exact Hs | discriminate H]
       | intros H; first [exact Hs | discriminate H]
       | intros [H | H]; try discriminate H; rewrite Hsv;
         (apply Q.min_glb_lt; [apply Qlt_shift_div_l; lra | reflexivity]) ]).
Qed.

(** X11.  An alert of any other kind (the severe-weather check, a provider
    alert) has a severity between 0.9 and 1, so the filter keeps it for every
    threshold up to 0.9, the default 0.7 among them. *)
Theorem severe_alerts_pass_thresholds_up_to_0_9 (p : preferences)
    (current_data : current_json) (items : list enhanced_item) (a : alert) :
  In a (AIWeatherService.generated_alerts R p current_data items) ->
  ~ In (a_type a) threshold_types ->
  0.9 <= severity a <= 1
  /\ forall threshold, threshold <= 0.9 ->
       In a (AIWeatherService.filter_and_sort threshold
               (AIWeatherService.generated_alerts R p current_data items)).
Proof.
  intros Hin Hkind.
  assert (Hsev : 0.9 <= severity a <= 1).
  { apply generated_alerts_inv in Hin
      as [(_ & _ & H) | [(_ & _ & H) | (day & _ & [(_ & _ & H) | Hrule])]];
      try exact H.
    - rewrite H. split; discriminate.
    - exfalso. apply Hkind. unfold threshold_types.
      destruct Hrule as (_ & [(Hty & _) | [(Hty & _) | [(Hty & _) | (Hty & _)]]]);
        rewrite Hty; cbn; tauto. }
  split; [exact Hsev |].
  intros threshold Hthr. apply filter_and_sort_In. split; [exact Hin |].
  apply Qle_trans with (y := 0.9); tauto.
Qed.

(** X12.  Every alert in the filtered list is labelled ["now"] or with the
    [dt_txt] of one of the first 16 forecast intervals: an interval beyond the
    sixteenth never gives an alert. *)
Theorem alerts_are_for_now_or_the_first_16_intervals (p : preferences)
    (current_data : current_json) (items : list enhanced_item) (threshold : Q)
    (a : alert) :
  In a (AIWeatherService.filter_and_sort threshold
          (AIWeatherService.generated_alerts R p current_data items)) ->
  a_time a = "now"
  \/ exists i day, (i < 16)%nat /\ items !! i = Some day
                   /\ a_time a = fi_dt_txt (e_item day).
Proof.
  intros Hin. apply filter_and_sort_In in Hin as [Hin _].
  apply generated_alerts_inv in Hin
    as [(H & _) | [(H & _) | (day & Hday & Hshape)]]; [now left | now left |].
  right. apply list_elem_of_In, list_elem_of_lookup in Hday as [i Hi].
  apply lookup_take_Some in Hi as [Hi Hlt].
  exists i, day. repeat split; trivial.
  destruct Hshape as [(H & _) | (H & _)]; exact H.
Qed.

End AlertRules.

(** ** More on the enhancement *)

Section EnhancementMore.

Variable R : runtime.

Local Open Scope Q_scope.

Lemma enhance_item_same (item : forecast_item) (w : world) :
  exists ei,
    AIWeatherService.enhance_item R item w = (Return ei, after_readings 1 w)
    /\ same_but_temperatures item ei
    /\ 0.6 <= ai_confidence ei.
Proof.
  eexists. split; [|split].
  - unfold AIWeatherService.enhance_item, AIWeatherService.datetime_now, bind,
      next_tick, ret, after_readings; cbn.
    replace (w_tick w + 1)%nat with (S (w_tick w)) by lia. reflexivity.
  - repeat split.
  - cbn. apply Q.le_max_r.
Qed.

Lemma for_each_enhance_item_same (items : list forecast_item) (w : world) :
  exists out,
    for_each (AIWeatherService.enhance_item R) items w
    = (Return out, after_readings (length items) w)
    /\ Forall2 same_but_temperatures items out
    /\ Forall (fun ei => 0.6 <= ai_confidence ei) out.
Proof.
  revert w. induction items as [|x items IH]; intros w.
  - exists []. repeat split; [|constructor|constructor].
    cbn. unfold ret, after_readings. do 2 f_equal.
    destruct w; cbn; f_equal; lia.
  - destruct (enhance_item_same x w) as (ex & Hx & Hsame & Hconf).
    destruct (IH (after_readings 1 w)) as (out & Hrun & Hall & Hconfs).
    exists (ex :: out). repeat split.
    + cbn [for_each]. unfold bind at 1. rewrite Hx.
      unfold bind at 1. rewrite Hrun. unfold ret.
      now rewrite after_readings_add.
    + now constructor.
    + now constructor.
Qed.

(** X13.  The enhancement returns for every forecast; it keeps the items in
    number and order and changes nothing of an item but the two temperatures
    (time stamp, label, humidity, pressure, wind, weather and rain are the
    provider's); every confidence is at least 0.6; the city is the
    provider's; and the cache is left alone, the clock being read once per
    item. *)
Theorem enhancement_keeps_the_rest (city : string) (forecast_data : forecast_json)
    (w : world) :
  exists e w',
    AIWeatherService._enhance_forecast_with_ai R city forecast_data w = (Return e, w')
    /\ Forall2 same_but_temperatures (fc_list forecast_data) (e_list e)
    /\ Forall (fun ei => 0.6 <= ai_confidence ei) (e_list e)
    /\ e_city e = fc_city forecast_data
    /\ (ai_enhanced e = true <-> fc_list forecast_data <> [])
    /\ w_cache w' = w_cache w
    /\ w_tick w' = (w_tick w + length (fc_list forecast_data))%nat
    /\ city ∈ w_models w'.
Proof.
  unfold AIWeatherService._enhance_forecast_with_ai.
  destruct (for_each_enhance_item_same (fc_list forecast_data) (snd (add_model city w)))
    as (out & Hrun & Hsame & Hconf).
  eexists; eexists. split.
  - unfold bind. unfold add_model in *. cbn [snd] in Hrun. cbv beta iota.
    rewrite Hrun. unfold ret. reflexivity.
  - cbn. repeat split; trivial.
    + intros Hflag Hnil. rewrite Hnil in Hsame. inversion Hsame; subst. discriminate.
    + intros Hne. destruct out; [|reflexivity].
      inversion Hsame as [Hnil|]; subst. now destruct Hne.
    + set_solver.
Qed.

Lemma confidence_antitone (h1 h2 : Q) :
  h1 <= h2 -> AIWeatherService.confidence h2 <= AIWeatherService.confidence h1.
Proof.
  intros Hh. unfold AIWeatherService.confidence.
  apply Q.max_le_compat_r. lra.
Qed.

Lemma confidence_upper (h : Q) : 0 <= h -> AIWeatherService.confidence h <= 0.95.
Proof.
  intros Hh. unfold AIWeatherService.confidence.
  apply Q.max_lub; [lra | discriminate].
Qed.

(** X14.  In an enhanced forecast the confidence never rises with the
    distance in time: of two intervals, the one that is at least as many hours
    from its clock reading as the other has at most the other's confidence;
    and an interval that is not in the past has a confidence of at most
    0.95. *)
Theorem confidence_falls_with_distance (city : string) (forecast_data : forecast_json)
    (w : world) (i j : nat) (item_i item_j : forecast_item) :
  fc_list forecast_data !! i = Some item_i ->
  fc_list forecast_data !! j = Some item_j ->
  exists e w' ei ej,
    AIWeatherService._enhance_forecast_with_ai R city forecast_data w = (Return e, w')
    /\ e_list e !! i = Some ei
    /\ e_list e !! j = Some ej
    /\ (hours_from R (clock R (w_tick w + i)%nat) item_i
        <= hours_from R (clock R (w_tick w + j)%nat) item_j ->
        ai_confidence ej <= ai_confidence ei)
    /\ (0 <= hours_from R (clock R (w_tick w + i)%nat) item_i ->
        ai_confidence ei <= 0.95).
Proof.
  intros Hi Hj.
  destruct (enhance_forecast_run R city forecast_data w) as (e & w' & Hrun & _ & Hall).
  destruct (Hall i item_i Hi) as (ei & Hei & _ & _ & Hci).
  destruct (Hall j item_j Hj) as (ej & Hej & _ & _ & Hcj).
  exists e, w', ei, ej. rewrite Hci, Hcj. repeat split; trivial.
  - apply confidence_antitone.
  - apply confidence_upper.
Qed.

End EnhancementMore.

(** ** The order of equal severities *)

Section SortStable.

Local Open Scope Q_scope.

Lemma insert_by_severity_filter (P : alert -> bool) (a : alert) (l : list alert) :
  (forall x y, P x = true -> P y = true -> severity x == severity y) ->
  List.filter P (AIWeatherService.insert_by_severity a l) = List.filter P (a :: l).
Proof.
  intros Hsame. induction l as [|b l IH]; [reflexivity |].
  cbn [AIWeatherService.insert_by_severity].
  destruct (Num.lt (severity a) (severity b)) eqn:Hlt; [|reflexivity].
  cbn [List.filter] in *. rewrite IH.
  destruct (P a) eqn:Ha, (P b) eqn:Hb; try reflexivity.
  apply Num_lt_true in Hlt. rewrite (Hsame a b Ha Hb) in Hlt.
  now apply Qlt_irrefl in Hlt.
Qed.

(** X15.  The sort is stable: among the returned alerts, those of one
    severity are in the order in which they were generated. *)
Theorem equal_severities_keep_their_order (threshold q : Q) (alerts : list alert) :
  List.filter (fun a => Qeq_bool (severity a) q)
    (AIWeatherService.filter_and_sort threshold alerts)
  = List.filter (fun a => Qeq_bool (severity a) q)
      (List.filter (fun a => Num.ge (severity a) threshold) alerts).
Proof.
  unfold AIWeatherService.filter_and_sort.
  induction (List.filter (fun a => Num.ge (severity a) threshold) alerts) as [|a l IH];
    [reflexivity |].
  cbn [AIWeatherService.sort_by_severity foldr].
  rewrite insert_by_severity_filter.
  - cbn [List.filter]. unfold AIWeatherService.sort_by_severity in IH. now rewrite IH.
  - intros x y Hx Hy. apply Qeq_bool_iff in Hx, Hy. now rewrite Hx, Hy.
Qed.

End SortStable.

(** ** More on the clothing recommendation *)

Section ClothingMore.

Variable R : runtime.
Variable api_key : string.

Lemma In_existsb_eqb (x : string) (l : list string) :
  In x l <-> existsb (String.eqb x) l = true.
Proof.
  rewrite existsb_exists. split.
  - intros H. exists x. split; [exact H | apply String.eqb_refl].
  - intros (y & Hy & Heq). apply String.eqb_eq in Heq. now subst.
Qed.

Lemma existsb_if {A} (f : A -> bool) (c : bool) (a b : list A) :
  existsb f (if c then a else b) = if c then existsb f a else existsb f b.
Proof. now destruct c. Qed.

Lemma existsb_add_when (f : string -> bool) (c : bool) (x : string) (l : list string) :
  existsb f (AIWeatherService.add_when c x l) = existsb f l || (c && f x).
Proof.
  destruct c; cbn; [|now rewrite orb_false_r].
  rewrite existsb_app. cbn. now rewrite orb_false_r.
Qed.

Lemma if_same {A} (c : bool) (a : A) : (if c then a else a) = a.
Proof. now destruct c. Qed.

(** One [let] of a chain at a time: the value of the search on the list
    built so far is all that the rest of the chain needs. *)
Ltac next_stage val :=
  lazymatch goal with
  | |- existsb ?f (let x := ?e in @?body x) = ?r =>
      let H := fresh "Hacc" in
      assert (H : existsb f e = val);
      [ | change (existsb f (body e) = r); revert H; generalize e;
          intros ? H; cbv beta ]
  end.

Ltac solve_stage :=
  cbv zeta;
  repeat first [rewrite existsb_if | rewrite existsb_app | rewrite existsb_add_when];
  cbn [existsb];
  repeat match goal with
         | |- context [String.eqb ?a ?b] =>
             let v := eval vm_compute in (String.eqb a b) in
             change (String.eqb a b) with v
         end;
  repeat match goal with
         | H : existsb _ _ = _ |- _ => rewrite H
         end;
  repeat match goal with
         | |- context [if ?c then _ else _] => destruct c
         end;
  rewrite ?andb_false_r, ?orb_false_r; reflexivity.

(** X16.  In every slot the umbrella flag and the umbrella accessory go
    together: "Compact umbrella" is among the accessories exactly when the
    flag is set, whatever the temperature and the wind. *)
Theorem umbrella_flag_matches_accessory (label : string) (t : Q) (wc : string) (wind : Q) :
  In "Compact umbrella" (accessories (AIWeatherService.slot_for label t wc wind))
  <-> umbrella (AIWeatherService.slot_for label t wc wind) = true.
Proof.
  rewrite In_existsb_eqb.
  assert (Hsame :
    existsb (String.eqb "Compact umbrella")
      (accessories (AIWeatherService.slot_for label t wc wind))
    = umbrella (AIWeatherService.slot_for label t wc wind)); [|now rewrite Hsame].
  cbv beta iota delta [AIWeatherService.slot_for AIWeatherService._recommend_accessories
                         accessories umbrella].
  set (rain := Str.contains "rain" wc || Str.contains "drizzle" wc).
  next_stage false; [reflexivity |].
  next_stage false; [solve_stage |].
  next_stage false; [solve_stage |].
  next_stage false; [solve_stage |].
  next_stage rain; [solve_stage |].
  next_stage rain; [solve_stage |].
  next_stage rain; [solve_stage |].
  solve_stage.
Qed.

Lemma find_today_is_find (now : datetime) (items : list forecast_item)
    (m e : option forecast_item) :
  AIWeatherService.find_today R now items m e
  = (match m with
     | Some _ => m
     | None => List.find (in_window R now 8 10) items
     end,
     match e with
     | Some _ => e
     | None => List.find (in_window R now 18 20) items
     end).
Proof.
  revert m e. induction items as [|x items IH]; intros m e.
  - cbn. now destruct m, e.
  - cbn [AIWeatherService.find_today List.find]. unfold in_window at 1 3.
    destruct (dt_date (strptime R (fi_dt_txt x)) =? dt_date now)%Z; cbn [negb andb].
    + rewrite IH.
      destruct m, e;
        repeat match goal with
               | |- context [if ?c then Some x else None] => destruct c
               end; reflexivity.
    + now rewrite IH.
Qed.

Ltac run_clothing :=
  unfold AIWeatherService.get_clothing_recommendations,
    AIWeatherService.current_wind_speed, AIWeatherService.datetime_now,
    Requests.get_weather, Requests.get_forecast, Requests.lift,
    try_except, bind, logger, record, next_tick, ret, raise;
  cbn [fst snd w_cache w_expiry w_models w_trace w_tick cw_speed cw_deg].

(** X17.  In a returned recommendation the morning slot is there exactly
    when the hour of the clock reading is before 12 and some forecast item of
    that reading's date has its hour in 8..10, and it is built from the first
    such item; likewise the evening slot, before 18 and with the first item
    of the date in 18..20.  Items of other dates are never used. *)
Theorem morning_and_evening_are_todays_first_items (city : string) (w : world)
    (r : recommendations) :
  fst (AIWeatherService.get_clothing_recommendations R api_key city w) = Return r ->
  exists forecast_data,
    forecast_api R (S (w_tick w)) api_key city = Return forecast_data
    /\ let now := clock R (S (S (w_tick w))) in
       r_morning r
       = (if dt_hour now <? 12
          then option_map (AIWeatherService.later_slot "Morning")
                 (List.find (in_window R now 8 10) (fc_list forecast_data))
          else None)
       /\ r_evening r
          = (if dt_hour now <? 18
             then option_map (AIWeatherService.later_slot "Evening")
                    (List.find (in_window R now 18 20) (fc_list forecast_data))
             else None).
Proof.
  run_clothing.
  destruct (weather_api R (w_tick w) api_key city) as [current_data | e];
    run_clothing; [|discriminate].
  destruct (forecast_api R (S (w_tick w)) api_key city) as [forecast_data | e];
    run_clothing; [|discriminate].
  destruct (cur_wind current_data) as [[[s|] d]|]; run_clothing; try discriminate.
  intros [= <-]. exists forecast_data. split; [reflexivity |].
  cbn [r_morning r_evening]. rewrite find_today_is_find. cbn [fst snd].
  split.
  - destruct (List.find _ _); [|now destruct (_ <? _)]. reflexivity.
  - destruct (List.find (in_window R _ 18 20) _); [|now destruct (_ <? _)]. reflexivity.
Qed.

(** X18.  The clothing operation does not use the cache: whatever its result,
    the cache is as before, no cache access is among its effects, and the
    first thing it does is to call the provider for the current weather. *)
Theorem clothing_never_uses_the_cache (city : string) (w : world) :
  w_cache (snd (AIWeatherService.get_clothing_recommendations R api_key city w))
  = w_cache w
  /\ exists rest,
       w_trace (snd (AIWeatherService.get_clothing_recommendations R api_key city w))
       = w_trace w ++ Requested Weather city :: rest
       /\ existsb is_cache_access rest = false.
Proof.
  run_clothing.
  destruct (weather_api R (w_tick w) api_key city) as [current_data | e];
    run_clothing;
    [destruct (forecast_api R (S (w_tick w)) api_key city) as [forecast_data | e];
     run_clothing;
     [destruct (cur_wind current_data) as [[[s|] d]|]; run_clothing | ] | ];
    (split; [reflexivity |]);
    eexists; (split; [rewrite <- ?app_assoc; reflexivity | reflexivity]).
Qed.

End ClothingMore.

(** ** The handlers always answer *)

Section HandlersAnswer.

Variable R : runtime.
Variable api_key : string.

Lemma guarded_answers (what city : string) (m : M App.json_body) (w0 w : world) :
  (forall b, fst (m w) = Return b -> no_error_cached w0 ->
             App.has_error_field b = false) ->
  answers w0 (App.guarded R what city m w).
Proof.
  intros Hm. unfold answers, App.guarded, try_except, bind.
  destruct (m w) as [[b | e] w1] eqn:Hrun.
  - eexists. split; [reflexivity |]. left. split; [reflexivity |].
    cbn. now apply Hm.
  - eexists. split; [reflexivity |]. right. right. split; reflexivity.
Qed.

Lemma missing_city_answers (w0 w : world) : answers w0 (App.missing_city w).
Proof. eexists. split; [reflexivity |]. right. left. split; reflexivity. Qed.

Lemma logged_call_body {A} (msg : string) (service : M A) (f : A -> App.json_body)
    (w : world) (b : App.json_body) :
  (forall w1 a, w_cache w1 = w_cache w -> fst (service w1) = Return a ->
                no_error_cached w -> App.has_error_field (f a) = false) ->
  fst ((logger INFO msg ;; x <- service ;; ret (f x)) w) = Return b ->
  no_error_cached w ->
  App.has_error_field b = false.
Proof.
  intros Hf. unfold bind, logger, record, ret. cbn [fst snd].
  match goal with
  | |- context [service ?w1] =>
      pose proof (Hf w1) as Hw1; destruct (service w1) as [[a | e] w2]
  end; cbn; [|discriminate].
  intros [= <-]. now apply Hw1.
Qed.

(** What a lookup returns is [None] or the value the cache holds. *)
Lemma cache_get_value (k : string) (w : world) :
  exists v w1,
    CacheService.get R k w = (Return v, w1)
    /\ (truthy v = true -> exists ts, w_cache w !! k = Some (v, ts)).
Proof.
  unfold CacheService.get, CacheService.time_time, bind, record, read_cache,
    next_tick, read_expiry, logger, record, write_cache, ret;
    cbn [fst snd w_cache w_expiry w_models w_trace w_tick].
  destruct (w_cache w !! k) as [[v ts]|];
    cbn [fst snd w_cache w_expiry w_models w_trace w_tick];
    [match goal with |- context [Num.lt ?a ?b] => destruct (Num.lt a b) end |];
    eexists; eexists; (split; [reflexivity |]); try discriminate.
  intros _. now exists ts.
Qed.

Lemma on_request_failure_never_returns (what : string) (e : exn) (w : world) (v : pyval) :
  fst (WeatherService.on_request_failure api_key what e w) <> Return v.
Proof.
  unfold WeatherService.on_request_failure, bind, logger, record, raise, ret.
  destruct e as [msg [text|] | msg]; cbn; discriminate.
Qed.

(** A value a service returns is its payload or a value of the cache. *)
Lemma service_value_has_no_error_key (city : string) (w0 w : world) (v : pyval) :
  w_cache w = w_cache w0 ->
  no_error_cached w0 ->
  fst (WeatherService.get_current_weather R api_key city w) = Return v
  \/ fst (WeatherService.get_forecast R api_key city w) = Return v
  \/ fst (AIWeatherService.get_enhanced_forecast R api_key city w) = Return v ->
  App.has_error_key v = false.
Proof.
  intros Hcache Hclean.
  assert (Hhit : forall k c, truthy c = true ->
                 (exists ts, w_cache w !! k = Some (c, ts)) -> App.has_error_key c = false).
  { intros k c _ [ts Hk]. rewrite Hcache in Hk. exact (Hclean k c ts Hk). }
  unfold WeatherService.get_current_weather, WeatherService.get_forecast,
    AIWeatherService.get_enhanced_forecast.
  intros [Hrun | [Hrun | Hrun]]; revert Hrun; unfold bind at 1;
    match goal with
    | |- context [CacheService.get R ?k w] =>
        destruct (cache_get_value k w) as (c & w1 & -> & Hc)
    end;
    (destruct (truthy c) eqn:Htruthy;
     [ unfold bind, logger, record, ret; cbn [fst snd]; intros [= <-];
       destruct (Hc eq_refl) as [ts Hk];
       exact (Hhit _ _ Htruthy (ex_intro _ ts Hk)) | ]).
  - unfold bind at 1, logger at 1, record at 1. cbn [fst snd].
    unfold try_except.
    match goal with |- context [bind ?m ?k ?w2] => destruct (bind m k w2) as [[a | e] w3] eqn:Hbody end.
    + intros [= <-].
      apply bind_Return_inv in Hbody as (data & w4 & _ & Hbody).
      apply bind_Return_inv in Hbody as (wind & w5 & _ & Hbody).
      apply bind_Return_inv in Hbody as (u & w6 & _ & Hbody).
      injection Hbody as <- _. reflexivity.
    + intros Hrun. now apply on_request_failure_never_returns in Hrun.
  - unfold bind at 1, logger at 1, record at 1. cbn [fst snd].
    unfold try_except.
    match goal with |- context [bind ?m ?k ?w2] => destruct (bind m k w2) as [[a | e] w3] eqn:Hbody end.
    + intros [= <-].
      apply bind_Return_inv in Hbody as (data & w4 & _ & Hbody).
      apply bind_Return_inv in Hbody as (days & w5 & _ & Hbody).
      apply bind_Return_inv in Hbody as (u & w6 & _ & Hbody).
      injection Hbody as <- _. reflexivity.
    + intros Hrun. now apply on_request_failure_never_returns in Hrun.
  - unfold try_except.
    match goal with |- context [bind ?m ?k ?w2] => destruct (bind m k w2) as [[a | e] w3] eqn:Hbody end.
    + intros [= <-].
      apply bind_Return_inv in Hbody as (data & w4 & _ & Hbody).
      apply bind_Return_inv in Hbody as (enhanced & w5 & _ & Hbody).
      apply bind_Return_inv in Hbody as (u & w6 & _ & Hbody).
      injection Hbody as <- _. reflexivity.
    + unfold bind, logger, record, raise. cbn. discriminate.
Qed.

(** The reading of the body raises on the bodies of [body_unreadable] and on
    no other. *)
Lemma alerts_input_cases (data : json_value) :
  (body_unreadable data /\ exists e, App.alerts_input data = Raise e)
  \/ (~ body_unreadable data /\ exists input, App.alerts_input data = Return input).
Proof.
  unfold App.alerts_input, App.city_in, App.dict_get.
  destruct data as [| b | n | x | text | items | fields]; cbn.
  - right. split; [tauto | eauto].
  - destruct b; cbn; [left | right]; split; eauto; discriminate.
  - destruct (Z.eqb_spec n 0) as [-> | Hn]; cbn; [right | left]; split; eauto; tauto.
  - destruct (Num.is_zero x); cbn; [right | left]; split; eauto; discriminate.
  - destruct text as [|c text]; [right; split; [discriminate | eauto] |].
    cbn [String.eqb negb].
    destruct (Str.contains "city" (String c text)); [left | right]; split; eauto;
      discriminate.
  - destruct items as [|x items]; [right; split; [discriminate | eauto] |].
    destruct (existsb App.is_city (x :: items)); [left | right]; split; eauto;
      discriminate.
  - right. split; [tauto |]. destruct fields as [|[k v] fields]; [eauto |].
    destruct (App.field "city" ((k, v) :: fields)); eauto.
Qed.

(** The alerts handler by what it reads. *)
Lemma alerts_handler_reads (req : App.request) (w : world) :
  App.get_personalized_alerts R api_key req w
  = match App.json req with
    | Raise e => (Raise e, w)
    | Return data =>
        match App.alerts_input data with
        | Raise e => (Raise e, w)
        | Return None => App.missing_city w
        | Return (Some (city, user_preferences)) =>
            App.guarded R "generating personalized alerts" (App.city_text R city)
              (logger INFO ("Generating personalized alerts for " +:+ App.city_text R city) ;;
               alerts <- App.personalized_alerts R api_key city user_preferences ;;
               ret (App.JAlerts alerts)) w
        end
    end.
Proof.
  unfold App.get_personalized_alerts.
  destruct (App.json req) as [data | e]; [|reflexivity].
  unfold bind at 1. cbv beta iota delta [Requests.lift ret].
  destruct (App.alerts_input data) as [[[city user_preferences]|] | e]; reflexivity.
Qed.

(** X19.  The five GET handlers never raise: each answers every request, with
    status 400 or 500 and a body with an ["error"] field, or with status 200,
    and then a body without that field unless the cache held a dict with it.
    The alerts handler raises what [request.json] raises, and raises on a
    body that is [true], a number other than zero, or a string or a list with
    ["city"] in it, in each case before any effect; on every other body it
    answers like the GET handlers, whatever the types of the city and the
    preferences. *)
Theorem handlers_always_answer (req : App.request) (w : world) :
  answers w (App.get_current_weather R api_key req w)
  /\ answers w (App.get_forecast R api_key req w)
  /\ answers w (App.get_all_weather_data R api_key req w)
  /\ answers w (App.get_enhanced_forecast R api_key req w)
  /\ answers w (App.get_clothing_recommendations R api_key req w)
  /\ (forall e, App.json req = Raise e ->
        App.get_personalized_alerts R api_key req w = (Raise e, w))
  /\ (forall data, App.json req = Return data ->
        (body_unreadable data ->
         exists e, App.get_personalized_alerts R api_key req w = (Raise e, w))
        /\ (~ body_unreadable data ->
            answers w (App.get_personalized_alerts R api_key req w))).
Proof.
  assert (Hservice : forall city w1 v, w_cache w1 = w_cache w ->
    fst (WeatherService.get_current_weather R api_key city w1) = Return v
    \/ fst (WeatherService.get_forecast R api_key city w1) = Return v
    \/ fst (AIWeatherService.get_enhanced_forecast R api_key city w1) = Return v ->
    no_error_cached w -> App.has_error_field (App.JValue v) = false).
  { intros city w1 v Hcache Hrun Hclean.
    exact (service_value_has_no_error_key city w w1 v Hcache Hclean Hrun). }
  unfold App.get_current_weather, App.get_forecast, App.get_all_weather_data,
    App.get_enhanced_forecast, App.get_clothing_recommendations.
  split; [|split; [|split; [|split; [|split; [|split]]]]].
  - destruct (App.city_of req) as [city|]; [|apply missing_city_answers].
    apply guarded_answers. intros b. apply logged_call_body.
    intros w1 v Hcache Hrun. apply (Hservice city w1 v Hcache). now left.
  - destruct (App.city_of req) as [city|]; [|apply missing_city_answers].
    apply guarded_answers. intros b. apply logged_call_body.
    intros w1 v Hcache Hrun. apply (Hservice city w1 v Hcache). now right; left.
  - destruct (App.city_of req) as [city|]; [|apply missing_city_answers].
    apply guarded_answers. intros b.
    unfold bind, logger, record, ret. cbn [fst snd].
    destruct (WeatherService.get_current_weather R api_key city _) as [[c | e] w1];
      cbn; [|discriminate].
    destruct (WeatherService.get_forecast R api_key city w1) as [[f | e] w2];
      cbn; [|discriminate].
    now intros [= <-].
  - destruct (App.city_of req) as [city|]; [|apply missing_city_answers].
    apply guarded_answers. intros b. apply logged_call_body.
    intros w1 v Hcache Hrun. apply (Hservice city w1 v Hcache). now right; right.
  - destruct (App.city_of req) as [city|]; [|apply missing_city_answers].
    apply guarded_answers. intros b. apply logged_call_body. reflexivity.
  - intros e Hjson. now rewrite alerts_handler_reads, Hjson.
  - intros data Hjson. rewrite alerts_handler_reads, Hjson.
    destruct (alerts_input_cases data) as [[Hbad [e ->]] | [Hgood [input ->]]].
    + split; [|tauto]. intros _. now exists e.
    + split; [tauto |]. intros _.
      destruct input as [[city user_preferences]|]; [|apply missing_city_answers].
      apply guarded_answers. intros b. apply logged_call_body. reflexivity.
Qed.

End HandlersAnswer.

(** ** One entry per operation and city *)

Section OwnEntry.

Variable R : runtime.
Variable api_key : string.

Lemma leaves_key_of_same_cache {A} (k : string) (m : M A) :
  (forall w, w_cache (snd (m w)) = w_cache w) -> leaves_key k m.
Proof. intros H w. now rewrite H. Qed.

Lemma leaves_key_bind {A B} (k : string) (m : M A) (f : A -> M B) :
  leaves_key k m -> (forall a, leaves_key k (f a)) -> leaves_key k (bind m f).
Proof.
  intros Hm Hf w. unfold bind. specialize (Hm w).
  destruct (m w) as [[a | e] w1]; cbn [snd] in *; [|exact Hm].
  now rewrite Hf.
Qed.

Lemma leaves_key_try_except {A} (k : string) (m : M A) (h : exn -> M A) :
  leaves_key k m -> (forall e, leaves_key k (h e)) -> leaves_key k (try_except m h).
Proof.
  intros Hm Hh w. unfold try_except. specialize (Hm w).
  destruct (m w) as [[a | e] w1]; cbn [snd] in *; [exact Hm |].
  now rewrite Hh.
Qed.

Lemma leaves_key_for_each {A B} (k : string) (f : A -> M B) (l : list A) :
  (forall x, leaves_key k (f x)) -> leaves_key k (for_each f l).
Proof.
  intros Hf. induction l as [|x l IH]; cbn [for_each].
  - now apply leaves_key_of_same_cache.
  - apply leaves_key_bind; [apply Hf |]. intros y.
    apply leaves_key_bind; [exact IH |]. intros ys.
    now apply leaves_key_of_same_cache.
Qed.

Ltac same_cache := apply leaves_key_of_same_cache; intros; reflexivity.

Lemma leaves_key_cache_get (k k' : string) :
  k <> k' -> leaves_key k (CacheService.get R k').
Proof. intros Hne w. apply cache_get_other. congruence. Qed.

Lemma leaves_key_cache_set (k k' : string) (v : pyval) :
  k <> k' -> leaves_key k (CacheService.set R k' v).
Proof. intros Hne w. apply cache_set_other. congruence. Qed.

Lemma leaves_key_lift {A} (k : string) (r : result A) : leaves_key k (Requests.lift r).
Proof. destruct r; same_cache. Qed.

Lemma leaves_key_requests (k city : string) :
  leaves_key k (Requests.get_weather R api_key city)
  /\ leaves_key k (Requests.get_forecast R api_key city).
Proof.
  split; unfold Requests.get_weather, Requests.get_forecast;
    (apply leaves_key_bind; [same_cache |]; intros _);
    (apply leaves_key_bind; [same_cache |]; intros t);
    apply leaves_key_lift.
Qed.

Lemma leaves_key_on_request_failure {A} (k what : string) (e : exn) :
  leaves_key k (WeatherService.on_request_failure (A := A) api_key what e).
Proof.
  unfold WeatherService.on_request_failure.
  destruct e as [msg response | msg]; [|same_cache].
  apply leaves_key_bind; [same_cache |]. intros _.
  apply leaves_key_bind; [|intros _; same_cache].
  destruct response; same_cache.
Qed.

Lemma leaves_key_current_weather (k city : string) :
  k <> "current_weather_" +:+ city ->
  leaves_key k (WeatherService.get_current_weather R api_key city).
Proof.
  intros Hne. unfold WeatherService.get_current_weather.
  apply leaves_key_bind; [now apply leaves_key_cache_get |]. intros cached.
  destruct (truthy cached).
  - apply leaves_key_bind; [same_cache | intros _; same_cache].
  - apply leaves_key_bind; [same_cache |]. intros _.
    apply leaves_key_try_except; [|apply leaves_key_on_request_failure].
    apply leaves_key_bind; [apply leaves_key_requests |]. intros data.
    apply leaves_key_bind.
    + unfold WeatherService.wind_of.
      destruct (cur_wind data) as [[[s|] [d|]]|]; same_cache.
    + intros wind.
      apply leaves_key_bind; [now apply leaves_key_cache_set | intros _; same_cache].
Qed.

Lemma leaves_key_forecast (k city : string) :
  k <> "forecast_" +:+ city ->
  leaves_key k (WeatherService.get_forecast R api_key city).
Proof.
  intros Hne. unfold WeatherService.get_forecast.
  apply leaves_key_bind; [now apply leaves_key_cache_get |]. intros cached.
  destruct (truthy cached).
  - apply leaves_key_bind; [same_cache | intros _; same_cache].
  - apply leaves_key_bind; [same_cache |]. intros _.
    apply leaves_key_try_except; [|apply leaves_key_on_request_failure].
    apply leaves_key_bind; [apply leaves_key_requests |]. intros data.
    apply leaves_key_bind.
    + apply leaves_key_of_same_cache. intros w. now rewrite organize_by_day_pure.
    + intros days.
      apply leaves_key_bind; [now apply leaves_key_cache_set | intros _; same_cache].
Qed.

Lemma leaves_key_enhanced_forecast (k city : string) :
  k <> "enhanced_forecast:" +:+ city ->
  leaves_key k (AIWeatherService.get_enhanced_forecast R api_key city).
Proof.
  intros Hne. unfold AIWeatherService.get_enhanced_forecast.
  apply leaves_key_bind; [now apply leaves_key_cache_get |]. intros cached.
  destruct (truthy cached).
  - apply leaves_key_bind; [same_cache | intros _; same_cache].
  - apply leaves_key_try_except.
    + apply leaves_key_bind; [apply leaves_key_requests |]. intros data.
      apply leaves_key_bind.
      * unfold AIWeatherService._enhance_forecast_with_ai.
        apply leaves_key_bind; [same_cache |]. intros _.
        apply leaves_key_bind; [|intros items; same_cache].
        apply leaves_key_for_each. intros item.
        unfold AIWeatherService.enhance_item, AIWeatherService.datetime_now.
        apply leaves_key_bind; [|intros now; same_cache].
        apply leaves_key_bind; [same_cache | intros t; same_cache].
      * intros enhanced.
        apply leaves_key_bind; [now apply leaves_key_cache_set | intros _; same_cache].
    + intros e. apply leaves_key_bind; [same_cache | intros _; same_cache].
Qed.

Lemma leaves_key_personalized_alerts (k city : string) (p : preferences) :
  k <> "enhanced_forecast:" +:+ city ->
  leaves_key k (AIWeatherService.get_personalized_alerts R api_key city p).
Proof.
  intros Hne. unfold AIWeatherService.get_personalized_alerts.
  apply leaves_key_try_except.
  - apply leaves_key_bind; [now apply leaves_key_enhanced_forecast |]. intros forecast.
    apply leaves_key_bind; [apply leaves_key_requests |]. intros data.
    apply leaves_key_bind; [|intros items; same_cache].
    unfold AIWeatherService.forecast_list. destruct forecast; same_cache.
  - intros e. apply leaves_key_bind; [same_cache | intros _; same_cache].
Qed.

(** X20.  An operation on a city reads and writes one cache entry only, its
    own for that city: every other key keeps its entry through a call of
    [get_current_weather], [get_forecast], [get_enhanced_forecast] or
    [get_personalized_alerts], whatever the call returns or raises.  The keys
    of the three kinds of entry never coincide, and within a kind the keys of
    two cities differ. *)
Theorem operations_touch_only_their_own_entry (city : string) (p : preferences)
    (k : string) (w : world) :
  (k <> "current_weather_" +:+ city ->
   w_cache (snd (WeatherService.get_current_weather R api_key city w)) !! k
   = w_cache w !! k)
  /\ (k <> "forecast_" +:+ city ->
      w_cache (snd (WeatherService.get_forecast R api_key city w)) !! k
      = w_cache w !! k)
  /\ (k <> "enhanced_forecast:" +:+ city ->
      w_cache (snd (AIWeatherService.get_enhanced_forecast R api_key city w)) !! k
      = w_cache w !! k
      /\ w_cache (snd (AIWeatherService.get_personalized_alerts R api_key city p w)) !! k
         = w_cache w !! k)
  /\ (forall c1 c2 : string,
        "current_weather_" +:+ c1 <> "forecast_" +:+ c2
        /\ "current_weather_" +:+ c1 <> "enhanced_forecast:" +:+ c2
        /\ "forecast_" +:+ c1 <> "enhanced_forecast:" +:+ c2
        /\ ("current_weather_" +:+ c1 = "current_weather_" +:+ c2 -> c1 = c2)
        /\ ("forecast_" +:+ c1 = "forecast_" +:+ c2 -> c1 = c2)
        /\ ("enhanced_forecast:" +:+ c1 = "enhanced_forecast:" +:+ c2 -> c1 = c2)).
Proof.
  split; [|split; [|split]].
  - intros Hne. now apply leaves_key_current_weather.
  - intros Hne. now apply leaves_key_forecast.
  - intros Hne. split.
    + now apply leaves_key_enhanced_forecast.
    + now apply leaves_key_personalized_alerts.
  - intros c1 c2. repeat split; simpl; try discriminate; intros H; now injection H.
Qed.

End OwnEntry.

(** ** The further properties on the sample data *)

Lemma failed_fetch_stores_nothing_witness :
  nothing_stored Sample.world_with_two_entries
    (snd (WeatherService.get_current_weather Sample.rejecting Sample.api_key "Paris"
            Sample.world_with_two_entries))
  /\ nothing_stored Sample.world_with_two_entries
       (snd (WeatherService.get_forecast Sample.rejecting Sample.api_key "Paris"
               Sample.world_with_two_entries))
  /\ nothing_stored Sample.world_with_two_entries
       (snd (AIWeatherService.get_enhanced_forecast Sample.rejecting Sample.api_key "Paris"
               Sample.world_with_two_entries)).
Proof.
  split; [|split].
  - eapply (proj1 (failed_fetch_stores_nothing Sample.rejecting Sample.api_key "Paris"
                     Sample.world_with_two_entries _)).
    vm_compute. reflexivity.
  - eapply (proj1 (proj2 (failed_fetch_stores_nothing Sample.rejecting Sample.api_key
                            "Paris" Sample.world_with_two_entries _))).
    vm_compute. reflexivity.
  - eapply (proj2 (proj2 (failed_fetch_stores_nothing Sample.rejecting Sample.api_key
                            "Paris" Sample.world_with_two_entries _))).
    vm_compute. reflexivity.
Defined.

Lemma weather_client_second_call_is_served_from_cache_witness :
  exists v,
    fst (WeatherService.get_forecast Sample.sunny Sample.api_key "Paris" Sample.world0)
    = Return v
    /\ answered_without_request
         (snd (WeatherService.get_forecast Sample.sunny Sample.api_key "Paris"
                 Sample.world0))
         (WeatherService.get_forecast Sample.sunny Sample.api_key "Paris"
            (snd (WeatherService.get_forecast Sample.sunny Sample.api_key "Paris"
                    Sample.world0))) v.
Proof.
  eexists. split.
  - vm_compute. reflexivity.
  - apply (proj2 (weather_client_second_call_is_served_from_cache Sample.sunny
                    Sample.api_key "Paris" Sample.world0 _ eq_refl)).
    + reflexivity.
    + vm_compute. reflexivity.
Defined.

Lemma enhanced_forecast_is_computed_once_witness :
  exists e,
    fst (AIWeatherService.get_enhanced_forecast Sample.sunny Sample.api_key "Paris"
           Sample.world0) = Return (PyEnhanced e)
    /\ length (e_list e) = 4%nat
    /\ answered_without_request
         (snd (AIWeatherService.get_enhanced_forecast Sample.sunny Sample.api_key "Paris"
                 Sample.world0))
         (AIWeatherService.get_enhanced_forecast Sample.sunny Sample.api_key "Paris"
            (snd (AIWeatherService.get_enhanced_forecast Sample.sunny Sample.api_key
                    "Paris" Sample.world0)))
         (PyEnhanced e).
Proof.
  assert (Hrun : exists v,
    fst (AIWeatherService.get_enhanced_forecast Sample.sunny Sample.api_key "Paris"
           Sample.world0) = Return v) by (eexists; vm_compute; reflexivity).
  destruct Hrun as [v Hrun].
  destruct (enhanced_forecast_is_computed_once Sample.sunny Sample.api_key "Paris"
              Sample.world0 Sample.forecast v eq_refl eq_refl eq_refl Hrun)
    as (e & -> & Hlen & _ & Hagain).
  exists e. split; [exact Hrun |]. split; [exact Hlen | exact Hagain].
Defined.

Lemma threshold_rules_fire_witness :
  let day :=
    {| e_item := Sample.item "2024-06-01 18:00:00" "Rain" "heavy intensity rain" 21 90 12
                   (Some (Some 12%Q));
       ai_confidence := 0.9%Q |} in
  let generated :=
    AIWeatherService.generated_alerts Sample.sunny Sample.default_preferences
      (Sample.current "Clear" "clear sky" 32 40 3) [day] in
  (exists a, In a generated /\ a_type a = "rain" /\ a_time a = "2024-06-01 18:00:00")
  /\ (exists a, In a generated /\ a_type a = "high_temp"
                /\ a_time a = "2024-06-01 18:00:00")
  /\ (exists a, In a generated /\ a_type a = "wind" /\ a_time a = "2024-06-01 18:00:00").
Proof.
  intros day generated.
  pose proof (threshold_rules_fire Sample.sunny Sample.default_preferences
                (Sample.current "Clear" "clear sky" 32 40 3) [day] 0 day
                ltac:(lia) eq_refl) as H.
  cbv zeta in H. destruct H as (Hrain & Htemp & Hwind).
  split; [|split].
  - apply (Hrain (Some 12%Q)); reflexivity.
  - apply (proj1 (Htemp eq_refl)). reflexivity.
  - apply Hwind; reflexivity.
Defined.

Lemma threshold_alerts_come_from_their_rule_witness :
  let day :=
    {| e_item := Sample.item "2024-06-01 18:00:00" "Rain" "heavy intensity rain" 21 90 12
                   (Some (Some 12%Q));
       ai_confidence := 0.9%Q |} in
  exists a,
    In a (AIWeatherService.generated_alerts Sample.sunny Sample.cautious_preferences
            (Sample.current "Clear" "clear sky" 32 40 3) [day])
    /\ a_type a = "rain"
    /\ a_time a = "2024-06-01 18:00:00"
    /\ (0 < severity a)%Q.
Proof.
  intros day.
  destruct (List.find (fun a => String.eqb (a_type a) "rain")
              (AIWeatherService.generated_alerts Sample.sunny Sample.cautious_preferences
                 (Sample.current "Clear" "clear sky" 32 40 3) [day]))
    as [a|] eqn:Hfind; [|discriminate Hfind].
  apply find_some in Hfind as [Hin Hty]. apply String.eqb_eq in Hty.
  destruct (threshold_alerts_come_from_their_rule Sample.sunny Sample.cautious_preferences
              (Sample.current "Clear" "clear sky" 32 40 3) [day] a Hin)
    as ((d & Hd & Htime & _) & _ & _ & _ & Hpos).
  - rewrite Hty. left. reflexivity.
  - exists a. split; [exact Hin |]. split; [exact Hty |]. split.
    + destruct Hd as [<- | []]. exact Htime.
    + apply Hpos. now left.
Defined.

Lemma severe_alerts_pass_thresholds_up_to_0_9_witness :
  let day :=
    {| e_item := Sample.item "2024-06-01 18:00:00" "Rain" "heavy intensity rain" 21 90 12
                   (Some (Some 12%Q));
       ai_confidence := 0.9%Q |} in
  exists a,
    a_type a = "heavy_rain"
    /\ (0.9 <= severity a <= 1)%Q
    /\ In a (AIWeatherService.filter_and_sort 0.7
               (AIWeatherService.generated_alerts Sample.sunny Sample.cautious_preferences
                  (Sample.current "Clear" "clear sky" 32 40 3) [day])).
Proof.
  intros day.
  destruct (List.find (fun a => String.eqb (a_type a) "heavy_rain")
              (AIWeatherService.generated_alerts Sample.sunny Sample.cautious_preferences
                 (Sample.current "Clear" "clear sky" 32 40 3) [day]))
    as [a|] eqn:Hfind; [|discriminate Hfind].
  apply find_some in Hfind as [Hin Hty]. apply String.eqb_eq in Hty.
  destruct (severe_alerts_pass_thresholds_up_to_0_9 Sample.sunny
              Sample.cautious_preferences
              (Sample.current "Clear" "clear sky" 32 40 3) [day] a Hin)
    as (Hsev & Hkept).
  - rewrite Hty. cbn. intuition discriminate.
  - exists a. split; [exact Hty |]. split; [exact Hsev |].
    apply Hkept. discriminate.
Defined.

Lemma alerts_are_for_now_or_the_first_16_intervals_witness :
  let day :=
    {| e_item := Sample.item "2024-06-01 18:00:00" "Rain" "heavy intensity rain" 21 90 12
                   (Some (Some 12%Q));
       ai_confidence := 0.9%Q |} in
  exists a,
    In a (AIWeatherService.filter_and_sort 0.5
            (AIWeatherService.generated_alerts Sample.sunny Sample.cautious_preferences
               (Sample.current "Clear" "clear sky" 32 40 3) [day]))
    /\ a_type a = "wind"
    /\ (a_time a = "now"
        \/ exists i d, (i < 16)%nat /\ [day] !! i = Some d
                       /\ a_time a = fi_dt_txt (e_item d)).
Proof.
  intros day.
  destruct (List.find (fun a => String.eqb (a_type a) "wind")
              (AIWeatherService.filter_and_sort 0.5
                 (AIWeatherService.generated_alerts Sample.sunny
                    Sample.cautious_preferences
                    (Sample.current "Clear" "clear sky" 32 40 3) [day])))
    as [a|] eqn:Hfind; [|discriminate Hfind].
  apply find_some in Hfind as [Hin Hty]. apply String.eqb_eq in Hty.
  exists a. split; [exact Hin |]. split; [exact Hty |].
  exact (alerts_are_for_now_or_the_first_16_intervals Sample.sunny
           Sample.cautious_preferences
           (Sample.current "Clear" "clear sky" 32 40 3) [day] 0.5 a Hin).
Defined.

Lemma confidence_falls_with_distance_witness :
  exists e w' ei ej,
    AIWeatherService._enhance_forecast_with_ai Sample.sunny "Paris" Sample.forecast
      Sample.world0 = (Return e, w')
    /\ e_list e !! 0%nat = Some ei
    /\ e_list e !! 1%nat = Some ej
    /\ (ai_confidence ej <= ai_confidence ei)%Q
    /\ (ai_confidence ei <= 0.95)%Q.
Proof.
  destruct (confidence_falls_with_distance Sample.sunny "Paris" Sample.forecast
              Sample.world0 0 1
              (Sample.item "2024-06-01 12:00:00" "Clear" "clear sky" 36.5 70 3 None)
              (Sample.item "2024-06-01 18:00:00" "Rain" "heavy intensity rain" 21 90 12
                 (Some (Some 12%Q)))
              eq_refl eq_refl)
    as (e & w' & ei & ej & Hrun & Hi & Hj & Hfalls & Hcap).
  exists e, w', ei, ej.
  split; [exact Hrun |]. split; [exact Hi |]. split; [exact Hj |].
  split; [apply Hfalls | apply Hcap]; vm_compute; discriminate.
Defined.

Lemma morning_and_evening_are_todays_first_items_witness :
  exists r,
    fst (AIWeatherService.get_clothing_recommendations Sample.sunny Sample.api_key
           "Paris" Sample.world0) = Return r
    /\ r_morning r = None
    /\ r_evening r
       = Some (AIWeatherService.later_slot "Evening"
                 (Sample.item "2024-06-01 18:00:00" "Rain" "heavy intensity rain" 21 90 12
                    (Some (Some 12%Q)))).
Proof.
  destruct (fst (AIWeatherService.get_clothing_recommendations Sample.sunny
                   Sample.api_key "Paris" Sample.world0)) as [r | e] eqn:Hrun;
    [|discriminate Hrun].
  destruct (morning_and_evening_are_todays_first_items Sample.sunny Sample.api_key
              "Paris" Sample.world0 r Hrun)
    as (forecast_data & Hapi & Hslots).
  injection Hapi as <-. cbv zeta in Hslots. destruct Hslots as [Hmorning Hevening].
  exists r. split; [reflexivity |]. split.
  - rewrite Hmorning. reflexivity.
  - rewrite Hevening. reflexivity.
Defined.

(** ** A rejected call of the weather client hides the key *)

Section RejectedCall.

Variable R : runtime.
Variable key : string.

Lemma cache_get_logs_no_error (k : string) (w : world) :
  (exists v, fst (CacheService.get R k w) = Return v)
  /\ forall msg,
       In (Logged ERROR msg) (w_trace (snd (CacheService.get R k w))) ->
       In (Logged ERROR msg) (w_trace w).
Proof.
  unfold CacheService.get, CacheService.time_time, bind, record, read_cache,
    next_tick, read_expiry, logger, record, write_cache, ret;
    cbn [fst snd w_cache w_expiry w_models w_trace w_tick].
  destruct (w_cache w !! k) as [[v ts]|];
    cbn [fst snd w_cache w_expiry w_models w_trace w_tick];
    [match goal with |- context [Num.lt ?a ?b] => destruct (Num.lt a b) end;
     cbn [fst snd w_cache w_expiry w_models w_trace w_tick] |];
    (split; [eexists; reflexivity |]);
    intros msg; rewrite !in_app_iff; cbn [In]; intuition discriminate.
Qed.

Lemma rejected_fetch_hides_the_key {A} (k what hit miss : string)
    (request : M A) (rest : A -> M pyval) (w : world) :
  redactable key = true ->
  what = "current weather data" \/ what = "forecast data" ->
  (forall w0, exists msg response,
     fst (request w0) = Raise (RequestException msg response)
     /\ forall m, In (Logged ERROR m) (w_trace (snd (request w0))) ->
                  In (Logged ERROR m) (w_trace w0)) ->
  let call :=
    (cached_data <- CacheService.get R k ;;
     if truthy cached_data then logger INFO hit ;; ret cached_data
     else
       logger INFO miss ;;
       try_except (data <- request ;; rest data)
         (WeatherService.on_request_failure key what)) in
  (forall e, fst (call w) = Raise e ->
             exists m, e = Exception m /\ Str.contains key m = false)
  /\ new_errors_hide key w (snd (call w)).
Proof.
  intros Hkey Hwhat Hrequest call. subst call. unfold new_errors_hide.
  match goal with
  | |- context [bind (CacheService.get R k) ?f] =>
      change (bind (CacheService.get R k) f)
        with (fun w0 => let (r, w') := CacheService.get R k w0 in
                        match r with
                        | Return a => f a w'
                        | Raise e => (Raise e, w')
                        end)
  end.
  cbv beta.
  destruct (cache_get_logs_no_error k w) as ((v & Hv) & Hlog).
  destruct (CacheService.get R k w) as [r w1]; cbn [fst snd] in *. subst r.
  destruct (truthy v).
  - unfold bind, logger, record, ret; cbn [fst snd w_trace].
    split; [discriminate |].
    intros msg. cbn [fst snd w_trace]. rewrite in_app_iff. cbn [In]. intros [H | [[=] | []]].
    left. now apply Hlog.
  - unfold bind, logger, record. cbn [fst snd].
    match goal with |- context [try_except _ _ ?w2] => set (w2' := w2) end.
    assert (Hlog2 : forall msg, In (Logged ERROR msg) (w_trace w2') ->
                                In (Logged ERROR msg) (w_trace w)).
    { intros msg. subst w2'. cbn [w_trace]. rewrite in_app_iff. cbn [In].
      intros [H | [[=] | []]]. now apply Hlog. }
    clearbody w2'. unfold try_except.
    destruct (Hrequest w2') as (msg & response & Hfails & Hlog3).
    destruct (request w2') as [r w3]; cbn [fst snd] in *. subst r.
    destruct (weather_client_failure_redacted key Hkey what msg response w3 Hwhat)
      as (m & logged & Hraise & Htrace & Hclean & Hlogged).
    split.
    + intros e He. rewrite Hraise in He. injection He as <-. now exists m.
    + intros text. rewrite Htrace, in_app_iff. intros [H | H].
      * left. now apply Hlog2, Hlog3.
      * right. rewrite List.Forall_forall in Hlogged.
        now apply (Hlogged _ H).
Qed.

Lemma rejected_request_logs_no_error {A} (ep : endpoint) (city : string)
    (api : nat -> result A) (w0 : world) :
  (forall t, exists msg response, api t = Raise (RequestException msg response)) ->
  let request := (record (Requested ep city) ;; t <- next_tick ;; Requests.lift (api t)) in
  exists msg response,
    fst (request w0) = Raise (RequestException msg response)
    /\ forall m, In (Logged ERROR m) (w_trace (snd (request w0))) ->
                 In (Logged ERROR m) (w_trace w0).
Proof.
  intros Hapi request. subst request.
  unfold bind, record, next_tick, Requests.lift; cbn [fst snd w_tick w_trace].
  destruct (Hapi (w_tick w0)) as (msg & response & ->).
  exists msg, response. unfold raise; cbn [fst snd w_trace].
  split; [reflexivity |].
  intros m. rewrite in_app_iff. cbn [In]. now intros [H | [[=] | []]].
Qed.

(** X21.  With a key the replacement can hide, when the provider rejects the
    calls of an endpoint with a request error, whatever it quotes in its
    message and response: a call of [get_current_weather] or [get_forecast]
    that raises, raises an exception whose message is free of the key, and
    every ERROR record the call logs is free of the key. *)
Theorem rejected_call_hides_the_key (city : string) (w : world) :
  redactable key = true ->
  ((forall t, exists msg response,
      weather_api R t key city = Raise (RequestException msg response)) ->
   (forall e,
      fst (WeatherService.get_current_weather R key city w) = Raise e ->
      exists m, e = Exception m /\ Str.contains key m = false)
   /\ new_errors_hide key w (snd (WeatherService.get_current_weather R key city w)))
  /\ ((forall t, exists msg response,
         forecast_api R t key city = Raise (RequestException msg response)) ->
      (forall e,
         fst (WeatherService.get_forecast R key city w) = Raise e ->
         exists m, e = Exception m /\ Str.contains key m = false)
      /\ new_errors_hide key w (snd (WeatherService.get_forecast R key city w))).
Proof.
  intros Hkey. split; intros Hapi.
  - apply (rejected_fetch_hides_the_key (A := current_json)); [exact Hkey | now left |].
    intros w0.
    apply (rejected_request_logs_no_error Weather city
             (fun t => weather_api R t key city) w0 Hapi).
  - apply (rejected_fetch_hides_the_key (A := forecast_json)); [exact Hkey | now right |].
    intros w0.
    apply (rejected_request_logs_no_error Forecast city
             (fun t => forecast_api R t key city) w0 Hapi).
Qed.

End RejectedCall.

Lemma rejected_call_hides_the_key_witness :
  exists m,
    fst (WeatherService.get_current_weather Sample.rejecting Sample.api_key "Paris"
           Sample.world0) = Raise (Exception m)
    /\ Str.contains Sample.api_key m = false.
Proof.
  destruct (fst (WeatherService.get_current_weather Sample.rejecting Sample.api_key
                   "Paris" Sample.world0)) as [v | e] eqn:Hrun; [discriminate Hrun |].
  destruct (proj1 (rejected_call_hides_the_key Sample.rejecting Sample.api_key "Paris"
                     Sample.world0 eq_refl))
    as [Hraises _].
  - intros t. eexists. eexists. reflexivity.
  - destruct (Hraises e Hrun) as (m & -> & Hclean). now exists m.
Defined.
